(** * version_bump.py: a shallow embedding and its specification

    The script [scripts/version_bump.py] keeps one semantic version in step
    across [Cargo.toml], [package.json] and [pre-install.js].  This file
    embeds the script in Gallina and proves the properties its specification
    states about it.

    Modelling conventions.

    - A Python [str] is a list of characters.  Characters are the code points
      below 256 (the Latin-1 range), represented by [ascii]; on that range the
      character classes used by the script ([str.isdigit], [str.isspace],
      [str.lower], the [\s] class of [re]) are tabulated exactly as CPython
      has them.  Strings with code points above 255 are outside the model.
    - A Python [int] is a [Z].  The conversions between integers and
      strings carry CPython's limit on their length at its default setting
      ([sys.get_int_max_str_digits()] is 4300): [str] raises a value error
      on an integer of more than 4300 digits, [int] on a literal of more
      than 4300 digits.
    - A raised exception is a value of [exception]; fallible code lives in
      the [result] monad, effectful code in a state-and-exception monad over
      the [world]: the file system and the trace of the I/O performed, with
      prompts and printed text among its events.  The lines to come on
      standard input are an argument of the driver.
    - File contents are the text Python sees after decoding; writes always
      succeed on the modelled file system, reads fail on a missing file.
    - [tomllib.load], [json.load] and [json.dump] are library code and are
      taken as parameters of the driver. *)

From Stdlib Require Import ZArith Lia List Ascii String Bool.
From stdpp Require Import base strings gmap.

#[global] Set Warnings "-register-all".

(** ** Python values *)

Abbreviation str := (list ascii).

(** String literals denote Python strings. *)
Definition lit (s : string) : str := list_ascii_of_string s.
Coercion lit : string >-> list.

Open Scope string_scope.
Open Scope list_scope.
Open Scope stdpp_scope.
Open Scope Z_scope.

Inductive exception : Type :=
| AssertionError
| ValueError
| FileNotFoundError
| EOFError
| DecodeError        (* tomllib.TOMLDecodeError, json.JSONDecodeError *)
| TemplateEscape      (* re: a replacement template with a backslash escape;
                        escapes are outside the modelled fragment of re.sub *)
| SystemExit (status : Z).

Inductive result (A : Type) : Type :=
| Ok (a : A)
| Raise (e : exception).
Arguments Ok {A} a.
Arguments Raise {A} e.

Definition rbind {A B : Type} (m : result A) (k : A -> result B) : result B :=
  match m with
  | Ok a => k a
  | Raise e => Raise e
  end.

Declare Scope result_scope.
Delimit Scope result_scope with result.
Notation "x <- m ;; k" := (rbind m (fun x => k))
  (at level 100, m at next level, right associativity) : result_scope.

(** [assert cond] *)
Definition py_assert (cond : bool) : result unit :=
  if cond then Ok tt else Raise AssertionError.

(** The double quote character and the line feed. *)
Definition dquote : ascii := ascii_of_nat 34.
Definition newline : ascii := ascii_of_nat 10.

(** ** The builtins of [str] and [int] the script calls *)

Module Py.

Definition code (c : ascii) : N := N_of_ascii c.

Definition in_range (lo hi : N) (c : ascii) : bool :=
  ((lo <=? code c) && (code c <=? hi))%N.

(** '0'..'9': the characters with a decimal value ([str.isdecimal]). *)
Definition is_decimal_digit (c : ascii) : bool := in_range 48 57 c.

(** [str.isdigit] on one character: the decimal digits and the superscript
    digits U+00B2, U+00B3 and U+00B9. *)
Definition is_digit (c : ascii) : bool :=
  is_decimal_digit c
  || (code c =? 178)%N || (code c =? 179)%N || (code c =? 185)%N.

(** [str.isspace] on one character; also the class [\s] of [re]. *)
Definition is_space (c : ascii) : bool :=
  in_range 9 13 c || in_range 28 31 c
  || (code c =? 32)%N || (code c =? 133)%N || (code c =? 160)%N.

(** The white space [int()] skips around a literal: as [is_space], without
    the separators U+001C..U+001F. *)
Definition is_int_space (c : ascii) : bool :=
  in_range 9 13 c || (code c =? 32)%N || (code c =? 133)%N || (code c =? 160)%N.

Definition is_upper (c : ascii) : bool :=
  in_range 65 90 c || in_range 192 214 c || in_range 216 222 c.

Definition to_lower (c : ascii) : ascii :=
  if is_upper c then ascii_of_N (code c + 32) else c.

(** [s.isdigit()] *)
Definition isdigit (s : str) : bool :=
  match s with
  | [] => false
  | _ => forallb is_digit s
  end.

(** [s.lower()] *)
Definition lower (s : str) : str := List.map to_lower s.

Fixpoint lstrip (s : str) : str :=
  match s with
  | c :: s' => if is_space c then lstrip s' else s
  | [] => []
  end.

Definition rstrip (s : str) : str := rev (lstrip (rev s)).

(** [s.strip()] *)
Definition strip (s : str) : str := rstrip (lstrip s).

(** [s.split(sep)] for a separator of one character. *)
Fixpoint split (sep : ascii) (s : str) : list str :=
  match s with
  | [] => [[]]
  | c :: s' =>
      if Ascii.eqb c sep then [] :: split sep s'
      else match split sep s' with
           | seg :: segs => (c :: seg) :: segs
           | [] => [[c]]
           end
  end.

(** [s.startswith(p)] *)
Fixpoint startswith (p s : str) : bool :=
  match p, s with
  | [], _ => true
  | a :: p', b :: s' => Ascii.eqb a b && startswith p' s'
  | _ :: _, [] => false
  end.

(** [s.replace(old, new)] for a non-empty [old]: every occurrence found by a
    left-to-right scan that resumes after each replaced occurrence.  [skip]
    counts the characters of the occurrence just replaced that are still to
    be passed over. *)
Fixpoint replace_from (old new : str) (skip : nat) (s : str) : str :=
  match s with
  | [] => []
  | c :: s' =>
      match skip with
      | S k => replace_from old new k s'
      | O =>
          if startswith old s
          then new ++ replace_from old new (Nat.pred (length old)) s'
          else c :: replace_from old new O s'
      end
  end.

(** [s.replace(old, new)] for the empty [old]: [new] before every character
    and at the end. *)
Fixpoint intersperse_all (new s : str) : str :=
  match s with
  | [] => new
  | c :: s' => new ++ c :: intersperse_all new s'
  end.

(** [s.replace(old, new)] *)
Definition replace (old new s : str) : str :=
  match old with
  | [] => intersperse_all new s
  | _ => replace_from old new O s
  end.

(** The value of a decimal digit character. *)
Definition digit_value (c : ascii) : Z := Z.of_N (code c) - 48.

Definition digit_char (d : Z) : ascii := ascii_of_N (Z.to_N (48 + d)).

Definition underscore : ascii := ascii_of_nat 95.

(** The digits of an [int()] literal: decimal digits, with single
    underscores allowed between two digits.  [prev] tells whether the
    previous character was a digit. *)
Fixpoint int_body (acc : Z) (prev : bool) (s : str) : option (Z * str) :=
  match s with
  | c :: s' =>
      if is_decimal_digit c then int_body (10 * acc + digit_value c) true s'
      else if Ascii.eqb c underscore then
             if prev then
               match s' with
               | d :: _ => if is_decimal_digit d then int_body acc false s'
                           else None
               | [] => None
               end
             else None
      else if prev then Some (acc, s) else None
  | [] => if prev then Some (acc, []) else None
  end.

Fixpoint skip_int_space (s : str) : str :=
  match s with
  | c :: s' => if is_int_space c then skip_int_space s' else s
  | [] => []
  end.

(** [sys.get_int_max_str_digits()]: the longest run of decimal digits that
    [int] reads and [str] writes, at CPython's default setting. *)
Definition max_str_digits : nat := 4300.

(** The number of decimal digits in a text. *)
Definition count_digits (s : str) : nat :=
  length (List.filter is_decimal_digit s).

(** [int(s)], base 10: optional white space, an optional sign, the digits,
    optional white space.  A literal with more than [max_str_digits] digits
    (underscores apart, leading zeros included) is a value error like any
    other malformed literal. *)
Definition int (s : str) : result Z :=
  let s1 := skip_int_space s in
  let '(sign, s2) :=
    match s1 with
    | c :: s' => if Ascii.eqb c "-" then (-1, s')
                 else if Ascii.eqb c "+" then (1, s')
                 else (1, s1)
    | [] => (1, s1)
    end in
  match int_body 0 false s2 with
  | Some (n, rest) =>
      match skip_int_space rest with
      | [] =>
          if (max_str_digits <? count_digits s2)%nat then Raise ValueError
          else Ok (sign * n)
      | _ => Raise ValueError
      end
  | None => Raise ValueError
  end.

(** The decimal digits of a non-negative integer, most significant first. *)
Fixpoint digits_from (fuel : nat) (n : Z) (acc : str) : str :=
  match fuel with
  | O => acc
  | S f =>
      let acc' := digit_char (n mod 10) :: acc in
      if n / 10 =? 0 then acc' else digits_from f (n / 10) acc'
  end.

Definition digits (n : Z) : str :=
  digits_from (S (Z.to_nat (Z.log2 n))) n [].

(** [str(n)], which is also how an f-string renders an [int]: a value
    error when [n] has more than [max_str_digits] digits. *)
Definition str_of_int (n : Z) : result str :=
  let ds := if n <? 0 then digits (- n) else digits n in
  if (max_str_digits <? length ds)%nat then Raise ValueError
  else Ok (if n <? 0 then "-" ++ ds else ds).

End Py.

(** ** The semantic-version model of the script *)

Record Version : Type := mkVersion { major : Z; minor : Z; patch : Z }.

Definition parse_semver (version : str) : result Version :=
  (let sep := Py.split "." version in
   _ <- py_assert (Nat.eqb (length sep) 3) ;;
   _ <- py_assert (forallb Py.isdigit sep) ;;
   match sep with
   | [s0; s1; s2] =>
       x <- Py.int s0 ;;
       y <- Py.int s1 ;;
       z <- Py.int s2 ;;
       Ok (mkVersion x y z)
   | _ => Raise AssertionError
   end)%result.

Definition compare_semver (v1 v2 : Version) : bool :=
  (major v1 =? major v2) && (minor v1 =? minor v2) && (patch v1 =? patch v2).

Definition semver_to_str (v : Version) : result str :=
  (x <- Py.str_of_int (major v) ;;
   y <- Py.str_of_int (minor v) ;;
   z <- Py.str_of_int (patch v) ;;
   Ok (x ++ "." ++ y ++ "." ++ z))%result.

Definition bump_semver (version : Version) (bump_type : str) : result str :=
  let major := major version in
  let minor := minor version in
  let patch := patch version in
  if bool_decide (bump_type = "major") then
    semver_to_str (mkVersion (major + 1) 0 0)
  else if bool_decide (bump_type = "minor") then
    semver_to_str (mkVersion major (minor + 1) 0)
  else
    semver_to_str (mkVersion major minor (patch + 1)).

(** ** The fragment of [re] the script uses *)

Module Re.

(** Patterns are sequences of items; repetition applies to character
    classes, which is all the script's pattern needs. *)
Inductive item : Type :=
| Bol                         (* ^ under re.MULTILINE *)
| Eol                         (* $ under re.MULTILINE *)
| Lit (c : ascii)             (* one literal character *)
| Star (p : ascii -> bool)    (* class*, greedy *)
| Plus (p : ascii -> bool).   (* class+, greedy *)

Abbreviation pattern := (list item).

(** [^] holds at the start of the text and just after a line feed; [prev]
    is the character before the current position, if any. *)
Definition at_bol (prev : option ascii) : bool :=
  match prev with
  | None => true
  | Some c => Ascii.eqb c newline
  end.

(** [$] holds at the end of the text and just before a line feed. *)
Definition at_eol (s : str) : bool :=
  match s with
  | [] => true
  | c :: _ => Ascii.eqb c newline
  end.

(** Greedy repetition of a class with backtracking: take one more character
    when the rest of the pattern [k] still matches afterwards, else stop
    here.  The result is the number of characters matched. *)
Fixpoint star (p : ascii -> bool) (k : option ascii -> str -> option nat)
  (prev : option ascii) (s : str) : option nat :=
  match s with
  | c :: s' =>
      if p c then
        match star p k (Some c) s' with
        | Some n => Some (S n)
        | None => k prev s
        end
      else k prev s
  | [] => k prev s
  end.

(** Match the pattern at the current position. *)
Fixpoint match_here (r : pattern) (prev : option ascii) (s : str)
  : option nat :=
  match r with
  | [] => Some O
  | Bol :: r' => if at_bol prev then match_here r' prev s else None
  | Eol :: r' => if at_eol s then match_here r' prev s else None
  | Lit c :: r' =>
      match s with
      | d :: s' =>
          if Ascii.eqb c d then option_map S (match_here r' (Some d) s')
          else None
      | [] => None
      end
  | Star p :: r' => star p (match_here r') prev s
  | Plus p :: r' =>
      match s with
      | d :: s' =>
          if p d then option_map S (star p (match_here r') (Some d) s')
          else None
      | [] => None
      end
  end.

(** [re.search]: the leftmost position where the pattern matches, as
    (start offset, length of the match). *)
Fixpoint search (r : pattern) (prev : option ascii) (s : str)
  : option (nat * nat) :=
  match match_here r prev s with
  | Some n => Some (O, n)
  | None =>
      match s with
      | c :: s' =>
          match search r (Some c) s' with
          | Some (i, n) => Some (S i, n)
          | None => None
          end
      | [] => None
      end
  end.

(** Replacement templates: a template without a backslash stands for
    itself. *)
Definition expand_template (repl : str) : result str :=
  if existsb (Ascii.eqb "\") repl then Raise TemplateEscape else Ok repl.

(** [re.sub(r, repl, s, count=1, flags=re.MULTILINE)] *)
Definition sub1 (r : pattern) (repl : str) (s : str) : result str :=
  (t <- expand_template repl ;;
   match search r None s with
   | Some (i, n) => Ok (take i s ++ t ++ drop (i + n) s)
   | None => Ok s
   end)%result.

End Re.

(** The pattern of [new_version_to_toml]: start of line, the word version,
    white space, an equals sign, white space, a double quote, one or more
    characters other than a double quote, a double quote, end of line. *)
Definition version_line_re : Re.pattern :=
  [Re.Bol] ++ List.map Re.Lit "version"
  ++ [Re.Star Py.is_space; Re.Lit "="; Re.Star Py.is_space;
      Re.Lit dquote; Re.Plus (fun c => negb (Ascii.eqb c dquote));
      Re.Lit dquote; Re.Eol].

(** The replacement f-string: the new version between double quotes after
    the text version, space, equals sign, space. *)
Definition toml_version_line (new_version : str) : str :=
  "version = " ++ [dquote] ++ new_version ++ [dquote].

(** The text [new_version_to_toml] writes back. *)
Definition toml_rewrite (content new_version : str) : result str :=
  Re.sub1 version_line_re (toml_version_line new_version) content.

(** The f-strings of [new_version_to_pre_install_js]. *)
Definition log_line (version : str) : str :=
  "Installing and compiling rag-rs " ++ version.

Definition install_line (version : str) : str :=
  "cargo install rag-rs --vers " ++ version.

(** The text [new_version_to_pre_install_js] writes back. *)
Definition installer_rewrite (old_version new_version content : str) : str :=
  Py.replace (install_line old_version) (install_line new_version)
    (Py.replace (log_line old_version) (log_line new_version) content).

(** ** Objects decoded from TOML and JSON *)

Inductive py_value : Type :=
| PyNone
| PyBool (b : bool)
| PyInt (n : Z)
| PyFloat (bits : Z)                 (* the IEEE-754 bit pattern *)
| PyStr (s : str)
| PyList (items : list py_value)
| PyDict (entries : gmap str py_value)
| PyObject (repr : str).             (* any other object: TOML dates, times *)

(** ** The world the script runs in *)

Inductive event : Type :=
| EvRead (path : str)
| EvWrite (path content : str)
| EvInput (prompt : str)
| EvPrint (text : str).

Record world : Type := mkWorld {
  fs : gmap str str;        (* file name to text *)
  trace : list event        (* I/O performed so far, oldest first *)
}.

Definition log (ev : event) (w : world) : world :=
  mkWorld (fs w) (trace w ++ [ev]).

Definition io (A : Type) : Type := world -> result A * world.

Definition io_ret {A : Type} (a : A) : io A := fun w => (Ok a, w).

Definition io_raise {A : Type} (e : exception) : io A := fun w => (Raise e, w).

Definition io_bind {A B : Type} (m : io A) (k : A -> io B) : io B :=
  fun w =>
    match m w with
    | (Ok a, w') => k a w'
    | (Raise e, w') => (Raise e, w')
    end.

Definition io_lift {A : Type} (r : result A) : io A := fun w => (r, w).

Declare Scope io_scope.
Delimit Scope io_scope with io.
Notation "x <- m ;; k" := (io_bind m (fun x => k))
  (at level 100, m at next level, right associativity) : io_scope.

(** [open(path).read()] *)
Definition read_file (path : str) : io str :=
  fun w =>
    match fs w !! path with
    | Some content => (Ok content, log (EvRead path) w)
    | None => (Raise FileNotFoundError, w)
    end.

(** [open(path, 'w').write(content)] *)
Definition write_file (path content : str) : io unit :=
  fun w =>
    (Ok tt, mkWorld (<[path := content]> (fs w))
                    (trace w ++ [EvWrite path content])).

(** [print(text)] *)
Definition print (text : str) : io unit :=
  fun w => (Ok tt, log (EvPrint text) w).

(** [sys.exit(status)] *)
Definition sys_exit (status : Z) : io unit := io_raise (SystemExit status).

(** The exit status of the process for the way [main()] ended. *)
Definition exit_status (r : result unit) : Z :=
  match r with
  | Ok _ => 0
  | Raise (SystemExit status) => status
  | Raise _ => 1
  end.

Definition bump_prompt : str :=
  "What type of bump do you want to perform? [major/minor/patch] ".

Definition bump_guidance : str :=
  "Please provide a valid version bump (major, minor or patch)".

(** ** Readers, writers and the driver *)

Section Driver.

(** [tomllib.load] and [json.load] on the text of a file, and
    [json.dumps(data, indent=2)]. *)
Variable toml_loads : str -> result py_value.
Variable json_loads : str -> result py_value.
Variable json_dumps : py_value -> str.

Definition load_version_from_toml : io (str * str) :=
  (raw <- read_file "Cargo.toml" ;;
   data <- io_lift (toml_loads raw) ;;
   content <- read_file "Cargo.toml" ;;
   match data with
   | PyDict data =>
       match data !! ("package" : str) with
       | Some (PyDict package) =>
           match package !! ("version" : str) with
           | Some (PyStr version) => io_ret (version, content)
           | _ => io_raise AssertionError
           end
       | _ => io_raise AssertionError
       end
   | _ => io_raise AssertionError
   end)%io.

Definition load_version_from_json : io (str * gmap str py_value) :=
  (raw <- read_file "package.json" ;;
   data <- io_lift (json_loads raw) ;;
   match data with
   | PyDict data =>
       match data !! ("version" : str) with
       | Some (PyStr version) => io_ret (version, data)
       | _ => io_raise AssertionError
       end
   | _ => io_raise AssertionError
   end)%io.

(** The dictionary is updated in place: the updated dictionary is returned
    as the new state of the caller's object. *)
Definition new_version_to_json (data : gmap str py_value) (new_version : str)
  : io (gmap str py_value) :=
  (let data := <[("version" : str) := PyStr new_version]> data in
   _ <- write_file "package.json" (json_dumps (PyDict data)) ;;
   io_ret data)%io.

Definition new_version_to_toml (content new_version : str) : io unit :=
  (content <- io_lift (toml_rewrite content new_version) ;;
   write_file "Cargo.toml" content)%io.

Definition new_version_to_pre_install_js (old_version new_version : str)
  : io unit :=
  (content <- read_file "pre-install.js" ;;
   write_file "pre-install.js"
     (installer_rewrite old_version new_version content))%io.

Definition bump_types : list str := ["major" : str; "minor" : str; "patch" : str].

(** The [while True] loop of [main], by recursion on the lines still to come
    on standard input; at end of input [input()] raises [EOFError]. *)
Fixpoint prompt_loop (semv_rust : Version) (json_data : gmap str py_value)
  (toml_content v_rust : str) (stdin : list str) : io unit :=
  match stdin with
  | [] => fun w => (Raise EOFError, log (EvInput bump_prompt) w)
  | line :: stdin' =>
      fun w =>
        let w := log (EvInput bump_prompt) w in
        let bump_type := Py.strip (Py.lower line) in
        if negb (bool_decide (bump_type ∈ bump_types)) then
          (_ <- print bump_guidance ;;
           prompt_loop semv_rust json_data toml_content v_rust stdin')%io w
        else
          (new_ver <- io_lift (bump_semver semv_rust bump_type) ;;
           _ <- new_version_to_json json_data new_ver ;;
           _ <- new_version_to_toml toml_content new_ver ;;
           new_version_to_pre_install_js v_rust new_ver)%io w
  end.

Definition main (stdin : list str) : io unit :=
  (from_toml <- load_version_from_toml ;;
   let '(v_rust, toml_content) := from_toml in
   from_json <- load_version_from_json ;;
   let '(v_js, json_data) := from_json in
   semv_rust <- io_lift (parse_semver v_rust) ;;
   semv_js <- io_lift (parse_semver v_js) ;;
   _ <- io_lift (py_assert (compare_semver semv_rust semv_js)) ;;
   _ <- prompt_loop semv_rust json_data toml_content v_rust stdin ;;
   sys_exit 0)%io.

End Driver.

(** ** Properties stated in the specification's own terms *)

(** A segment composed solely of decimal digits (at least one). *)
Definition decimal_segment (s : str) : bool :=
  match s with
  | [] => false
  | _ => forallb Py.is_decimal_digit s
  end.

(** The number a run of decimal digits denotes. *)
Definition decimal_value (s : str) : Z :=
  fold_left (fun acc c => 10 * acc + Py.digit_value c) s 0.

(** A segment [int] converts: a non-empty run of at most
    [Py.max_str_digits] decimal digits. *)
Definition readable_segment (s : str) : bool :=
  decimal_segment s && (length s <=? Py.max_str_digits)%nat.

(** The bound below which a non-negative integer has at most
    [Py.max_str_digits] digits, so that [str] writes it. *)
Definition str_limit : Z := 10 ^ Z.of_nat Py.max_str_digits.

(** The text of three non-negative integers joined by dots. *)
Definition dotted (x y z : Z) : str :=
  Py.digits x ++ "." ++ Py.digits y ++ "." ++ Py.digits z.

(** The components [semver_to_str] formats: non-negative integers of at most
    [Py.max_str_digits] digits. *)
Definition within_limit (n : Z) : Prop := 0 <= n < str_limit.

(** A run of [n] nines. *)
Definition nines (n : nat) : str := repeat "9"%char n.

(** What the pattern of [new_version_to_toml] matches: the word version,
    white space, an equals sign, white space, and a non-empty text without
    double quotes between double quotes. *)
Definition version_assignment (m : str) : Prop :=
  exists ws1 ws2 val,
    m = "version" ++ ws1 ++ "=" ++ ws2 ++ [dquote] ++ val ++ [dquote]
    /\ forallb Py.is_space ws1 = true /\ forallb Py.is_space ws2 = true
    /\ val <> [] /\ ~ In dquote val.

Definition line_start (pre : str) : Prop :=
  pre = [] \/ exists p, pre = p ++ [newline].

Definition line_end (post : str) : Prop :=
  post = [] \/ exists p, post = newline :: p.

(** [m] is a version assignment of [content], between [pre] and [post],
    that starts a line and ends one. *)
Definition match_site (content pre m post : str) : Prop :=
  content = pre ++ m ++ post
  /\ line_start pre /\ version_assignment m /\ line_end post.

(** The character before offset [i] of [s], [prev] at offset 0. *)
Definition prev_at (prev : option ascii) (s : str) (i : nat) : option ascii :=
  match i with
  | O => prev
  | S j => s !! j
  end.

(** The TOML writer as the specification words it: the first line that is
    exactly the version assignment of the old version is replaced by that
    of the new version. *)
Fixpoint replace_first_line (old_line new_line : str) (lines : list str)
  : list str :=
  match lines with
  | [] => []
  | l :: ls =>
      if bool_decide (l = old_line) then new_line :: ls
      else l :: replace_first_line old_line new_line ls
  end.

Fixpoint join (sep : str) (parts : list str) : str :=
  match parts with
  | [] => []
  | [p] => p
  | p :: ps => p ++ sep ++ join sep ps
  end.

Definition toml_rewrite_exact (old_version new_version content : str) : str :=
  join [newline]
    (replace_first_line (toml_version_line old_version)
       (toml_version_line new_version) (Py.split newline content)).

(** Patterns without [^]. *)
Definition bol_free (r : Re.pattern) : bool :=
  forallb (fun i => match i with Re.Bol => false | _ => true end) r.

(** The character class of the quoted text. *)
Definition not_dquote (c : ascii) : bool := negb (Ascii.eqb c dquote).

(** The pattern of [new_version_to_toml] after the word version. *)
Definition version_line_tail : Re.pattern :=
  [Re.Star Py.is_space; Re.Lit "="; Re.Star Py.is_space;
   Re.Lit dquote; Re.Plus (fun c => negb (Ascii.eqb c dquote));
   Re.Lit dquote; Re.Eol].

(** A manifest whose first version assignment belongs to a dependency. *)
Definition cargo_dependency_first : str :=
  "[dependencies.serde]" ++ [newline]
  ++ "version = " ++ [dquote] ++ "1.0" ++ [dquote] ++ [newline]
  ++ "[package]" ++ [newline]
  ++ "name = " ++ [dquote] ++ "rag-rs" ++ [dquote] ++ [newline]
  ++ "version = " ++ [dquote] ++ "1.2.3" ++ [dquote] ++ [newline].

(** A manifest with the package table first. *)
Definition cargo_package_first : str :=
  "[package]" ++ [newline]
  ++ "name = " ++ [dquote] ++ "rag-rs" ++ [dquote] ++ [newline]
  ++ "version = " ++ [dquote] ++ "1.2.3" ++ [dquote] ++ [newline]
  ++ "edition = " ++ [dquote] ++ "2021" ++ [dquote] ++ [newline].

(** The offsets at which [p] occurs in [s]; [i] is the offset of [s] in the
    whole text. *)
Fixpoint occurrences_from (p : str) (i : nat) (s : str) : list nat :=
  (if Py.startswith p s then [i] else [])
  ++ match s with
     | [] => []
     | _ :: s' => occurrences_from p (S i) s'
     end.

Definition occurrences (p s : str) : list nat := occurrences_from p O s.

(** Text made of decimal digits and dots, as version strings are. *)
Definition version_text (s : str) : bool :=
  forallb (fun c => Py.is_decimal_digit c || Ascii.eqb c ".") s.

(** An installer script with the two lines that embed the version. *)
Definition pre_install_js : str :=
  "console.log('Installing and compiling rag-rs 1.2.3');" ++ [newline]
  ++ "execSync('cargo install rag-rs --vers 1.2.3');" ++ [newline].

(** The events of [n] rejected inputs: a prompt and the guidance message
    each time. *)
Fixpoint retry_events (n : nat) : list event :=
  match n with
  | O => []
  | S n' => EvInput bump_prompt :: EvPrint bump_guidance :: retry_events n'
  end.

(** The input lines the driver rejects. *)
Definition rejected (line : str) : Prop :=
  Py.strip (Py.lower line) ∉ bump_types.

(** ** Sample manifests and decoders

    Concrete instances on which the theorems below are exercised.  The
    decoders know the sample manifests only. *)

Definition package_json_123 : str := "{ name: rag-rs, version: 1.2.3 }".
Definition package_json_124 : str := "{ name: rag-rs, version: 1.2.4 }".

Definition sample_package (version : str) : gmap str py_value :=
  {[ ("name" : str) := PyStr "rag-rs"; ("version" : str) := PyStr version ]}.

Definition sample_toml_loads (text : str) : result py_value :=
  if bool_decide (text = cargo_package_first) then
    Ok (PyDict {[ ("package" : str) :=
                    PyDict {[ ("name" : str) := PyStr "rag-rs";
                              ("version" : str) := PyStr "1.2.3";
                              ("edition" : str) := PyStr "2021" ]} ]})
  else Raise DecodeError.

Definition sample_json_loads (text : str) : result py_value :=
  if bool_decide (text = package_json_123) then
    Ok (PyDict (sample_package "1.2.3"))
  else if bool_decide (text = package_json_124) then
    Ok (PyDict (sample_package "1.2.4"))
  else Raise DecodeError.

Definition sample_json_dumps (data : py_value) : str :=
  match data with
  | PyDict entries =>
      match entries !! ("version" : str) with
      | Some (PyStr version) => "{ name: rag-rs, version: " ++ version ++ " }"
      | _ => "{}"
      end
  | _ => "null"
  end.

Definition sample_world (package_json : str) : world :=
  mkWorld {[ ("Cargo.toml" : str) := cargo_package_first;
             ("package.json" : str) := package_json;
             ("pre-install.js" : str) := pre_install_js ]} [].

Definition sample_start : world := sample_world package_json_123.

(** The driver's loop on the sample manifests. *)
Definition sample_loop : list str -> io unit :=
  prompt_loop sample_json_dumps (mkVersion 1 2 3) (sample_package "1.2.3")
    cargo_package_first "1.2.3".

(** ** Further notions used to state properties of the script *)

(** A run of [n] zeros. *)
Definition zeros (n : nat) : str := repeat "0"%char n.

(** Precedence of versions: by major, then minor, then patch. *)
Definition version_lt (v1 v2 : Version) : Prop :=
  major v1 < major v2
  \/ (major v1 = major v2
      /\ (minor v1 < minor v2
          \/ (minor v1 = minor v2 /\ patch v1 < patch v2))).

Definition nonneg_version (v : Version) : Prop :=
  0 <= major v /\ 0 <= minor v /\ 0 <= patch v.

(** The events that change a file. *)
Definition is_write (ev : event) : bool :=
  match ev with
  | EvWrite _ _ => true
  | _ => false
  end.

(** The events that read a file. *)
Definition is_read (ev : event) : bool :=
  match ev with
  | EvRead _ => true
  | _ => false
  end.

(** A computation that writes no file: whatever its outcome, the file
    system is as before and the events it adds are not writes. *)
Definition quiet {A : Type} (m : io A) : Prop :=
  forall w,
    fs (snd (m w)) = fs w
    /\ exists evs,
         trace (snd (m w)) = trace w ++ evs
         /\ forallb (fun ev => negb (is_write ev)) evs = true.

(** No line of the text starts with the word. *)
Definition no_line_starts_with (word text : str) : bool :=
  forallb (fun line => negb (Py.startswith word line)) (Py.split newline text).

(** A decoder for the text [sample_json_dumps] produces. *)
Definition sample_json_decode (text : str) : result py_value :=
  let prefix : str := "{ name: rag-rs, version: " in
  let rest := drop (length prefix) text in
  let n := (length rest - 2)%nat in
  if Py.startswith prefix text && bool_decide (drop n rest = " }")
  then Ok (PyDict (sample_package (take n rest)))
  else Raise DecodeError.

(** ** Manifests at the limit of the integer conversions

    Version 0.0.99...9, whose patch number has 4300 nines: the largest patch
    number [parse_semver] reads. *)

Definition limit_version : str := "0.0." ++ nines 4300.

Definition limit_cargo : str :=
  "[package]" ++ [newline]
  ++ "name = " ++ [dquote] ++ "rag-rs" ++ [dquote] ++ [newline]
  ++ toml_version_line limit_version ++ [newline].

Definition limit_package_json : str :=
  "{ name: rag-rs, version: " ++ limit_version ++ " }".

Definition limit_toml_loads (text : str) : result py_value :=
  if bool_decide (text = limit_cargo) then
    Ok (PyDict {[ ("package" : str) :=
                    PyDict {[ ("name" : str) := PyStr "rag-rs";
                              ("version" : str) := PyStr limit_version ]} ]})
  else Raise DecodeError.

Definition limit_json_loads (text : str) : result py_value :=
  if bool_decide (text = limit_package_json) then
    Ok (PyDict (sample_package limit_version))
  else Raise DecodeError.

Definition limit_world : world :=
  mkWorld {[ ("Cargo.toml" : str) := limit_cargo;
             ("package.json" : str) := limit_package_json;
             ("pre-install.js" : str) := pre_install_js ]} [].

(** * Proofs *)

(** ** Characters *)

Ltac ascii_cases c := destruct c as [[] [] [] [] [] [] [] []].

(** Lengths of concatenations. *)
Ltac list_len :=
  repeat first [rewrite length_app | progress simpl length]; lia.

Lemma decimal_is_digit c : Py.is_decimal_digit c = true -> Py.is_digit c = true.
Proof. intros H. unfold Py.is_digit. now rewrite H. Qed.

Lemma digit_not_int_space c : Py.is_digit c = true -> Py.is_int_space c = false.
Proof. ascii_cases c; vm_compute; congruence. Qed.

Lemma digit_not_sign c :
  Py.is_digit c = true -> Ascii.eqb c "-" = false /\ Ascii.eqb c "+" = false.
Proof. ascii_cases c; vm_compute; intros; split; congruence. Qed.

Lemma digit_not_underscore c :
  Py.is_digit c = true -> Ascii.eqb c Py.underscore = false.
Proof. ascii_cases c; vm_compute; congruence. Qed.

Lemma digit_not_dot c : Py.is_digit c = true -> Ascii.eqb c "." = false.
Proof. ascii_cases c; vm_compute; congruence. Qed.

Lemma digit_char_cases d :
  0 <= d < 10 ->
  d = 0 \/ d = 1 \/ d = 2 \/ d = 3 \/ d = 4 \/ d = 5 \/ d = 6 \/ d = 7
  \/ d = 8 \/ d = 9.
Proof. lia. Qed.

Lemma digit_char_decimal d :
  0 <= d < 10 -> Py.is_decimal_digit (Py.digit_char d) = true.
Proof.
  intros H. destruct (digit_char_cases d H) as [-> | H'].
  - reflexivity.
  - repeat (destruct H' as [-> | H']; [reflexivity |]). now subst.
Qed.

Lemma digit_value_char d : 0 <= d < 10 -> Py.digit_value (Py.digit_char d) = d.
Proof.
  intros H. destruct (digit_char_cases d H) as [-> | H'].
  - reflexivity.
  - repeat (destruct H' as [-> | H']; [reflexivity |]). now subst.
Qed.

(** ** [str(n)] and [int(s)] *)

Lemma digits_from_acc fuel : forall n acc,
  Py.digits_from fuel n acc = Py.digits_from fuel n [] ++ acc.
Proof.
  induction fuel as [| fuel IH]; intros n acc; simpl; [reflexivity |].
  destruct (n / 10 =? 0); [reflexivity |].
  rewrite IH, (IH _ [_]), <- app_assoc. reflexivity.
Qed.

Lemma digits_from_decimal fuel : forall n acc,
  0 <= n -> forallb Py.is_decimal_digit acc = true ->
  forallb Py.is_decimal_digit (Py.digits_from fuel n acc) = true.
Proof.
  induction fuel as [| fuel IH]; intros n acc Hn Hacc; simpl; [exact Hacc |].
  assert (Hd : forallb Py.is_decimal_digit (Py.digit_char (n mod 10) :: acc) = true).
  { simpl. rewrite Hacc, digit_char_decimal; [reflexivity |].
    apply Z.mod_pos_bound; lia. }
  destruct (n / 10 =? 0); [exact Hd |].
  apply IH; [apply Z.div_pos; lia | exact Hd].
Qed.

Lemma digits_from_nonempty fuel n acc : Py.digits_from (S fuel) n acc <> [].
Proof.
  simpl. destruct (n / 10 =? 0); [discriminate |].
  rewrite digits_from_acc. intros H. apply app_eq_nil in H as [_ H].
  discriminate.
Qed.

Lemma decimal_value_snoc s c :
  decimal_value (s ++ [c]) = 10 * decimal_value s + Py.digit_value c.
Proof. unfold decimal_value. rewrite fold_left_app. reflexivity. Qed.

Lemma digits_from_value fuel : forall n,
  0 <= n < 2 ^ Z.of_nat fuel -> decimal_value (Py.digits_from fuel n []) = n.
Proof.
  induction fuel as [| fuel IH]; intros n Hn.
  - simpl in *. change (decimal_value []) with 0. lia.
  - assert (Hm : 0 <= n mod 10 < 10) by (apply Z.mod_pos_bound; lia).
    simpl Py.digits_from. destruct (Z.eqb_spec (n / 10) 0) as [Hq | Hq].
    + change (decimal_value [Py.digit_char (n mod 10)])
        with (10 * 0 + Py.digit_value (Py.digit_char (n mod 10))).
      rewrite digit_value_char by exact Hm.
      pose proof (Z.div_mod n 10). lia.
    + rewrite digits_from_acc, decimal_value_snoc, digit_value_char by exact Hm.
      rewrite IH; [pose proof (Z.div_mod n 10); lia |].
      rewrite Nat2Z.inj_succ, Z.pow_succ_r in Hn by lia.
      split; [apply Z.div_pos; lia |].
      apply Z.div_lt_upper_bound; lia.
Qed.

Lemma digits_decimal n : 0 <= n -> decimal_segment (Py.digits n) = true.
Proof.
  intros Hn. unfold decimal_segment, Py.digits.
  destruct (Py.digits_from _ n []) eqn:E.
  - now apply digits_from_nonempty in E.
  - rewrite <- E. now apply digits_from_decimal.
Qed.

Lemma digits_value n : 0 <= n -> decimal_value (Py.digits n) = n.
Proof.
  intros Hn. apply digits_from_value. split; [exact Hn |].
  destruct (Z.eq_dec n 0) as [-> | Hne]; [reflexivity |].
  rewrite Nat2Z.inj_succ, Z2Nat.id by apply Z.log2_nonneg.
  apply Z.log2_spec. lia.
Qed.

(** The number of digits written for a non-negative integer. *)
Lemma digits_from_length_le fuel : forall n k,
  0 <= n < 10 ^ Z.of_nat (S k) ->
  (length (Py.digits_from fuel n []) <= S k)%nat.
Proof.
  induction fuel as [| fuel IH]; intros n k Hn; [simpl; lia |].
  simpl Py.digits_from. destruct (Z.eqb_spec (n / 10) 0) as [Hq | Hq].
  - simpl. lia.
  - rewrite digits_from_acc, length_app. simpl length.
    assert (Hpos : 0 < n / 10).
    { pose proof (Z.div_pos n 10). lia. }
    destruct k as [| k].
    + exfalso. change (10 ^ Z.of_nat 1) with 10 in Hn.
      rewrite Z.div_small in Hpos by lia. lia.
    + specialize (IH (n / 10) k). rewrite Nat.add_1_r. apply le_n_S, IH.
      rewrite (Nat2Z.inj_succ (S k)), Z.pow_succ_r in Hn by lia.
      split; [lia |]. apply Z.div_lt_upper_bound; lia.
Qed.

Lemma digits_from_lower fuel : forall n,
  0 <= n < 2 ^ Z.of_nat fuel ->
  n < 10 ^ Z.of_nat (length (Py.digits_from fuel n [])).
Proof.
  induction fuel as [| fuel IH]; intros n Hn.
  - simpl in *. lia.
  - simpl Py.digits_from. destruct (Z.eqb_spec (n / 10) 0) as [Hq | Hq].
    + simpl length. change (10 ^ Z.of_nat 1) with 10.
      pose proof (Z.div_mod n 10). pose proof (Z.mod_pos_bound n 10). lia.
    + rewrite digits_from_acc, length_app. simpl length.
      rewrite Nat.add_1_r, Nat2Z.inj_succ, Z.pow_succ_r by lia.
      assert (Hrec : n / 10 < 10 ^ Z.of_nat (length (Py.digits_from fuel (n / 10) []))).
      { apply IH. rewrite Nat2Z.inj_succ, Z.pow_succ_r in Hn by lia.
        split; [apply Z.div_pos; lia |]. apply Z.div_lt_upper_bound; lia. }
      pose proof (Z.div_mod n 10). pose proof (Z.mod_pos_bound n 10). lia.
Qed.

Lemma digits_fuel n : 0 <= n -> n < 2 ^ Z.of_nat (S (Z.to_nat (Z.log2 n))).
Proof.
  intros Hn. destruct (Z.eq_dec n 0) as [-> | Hne]; [reflexivity |].
  rewrite Nat2Z.inj_succ, Z2Nat.id by apply Z.log2_nonneg.
  apply Z.log2_spec. lia.
Qed.

(** A non-negative integer has at most [k] digits exactly when it is below
    the [k]-th power of ten. *)
Lemma digits_length n k :
  0 <= n -> (length (Py.digits n) <= S k)%nat <-> n < 10 ^ Z.of_nat (S k).
Proof.
  intros Hn. unfold Py.digits. split.
  - intros Hlen. pose proof (digits_from_lower _ n (conj Hn (digits_fuel n Hn))) as H.
    eapply Z.lt_le_trans; [exact H |].
    apply Z.pow_le_mono_r; lia.
  - intros Hlt. now apply digits_from_length_le.
Qed.

Lemma max_str_digits_succ : exists k, Py.max_str_digits = S k.
Proof. now exists 4299%nat. Qed.

Lemma digits_within_limit n :
  0 <= n ->
  (Py.max_str_digits <? length (Py.digits n))%nat = negb (n <? str_limit).
Proof.
  intros Hn. unfold str_limit. destruct max_str_digits_succ as [k ->].
  pose proof (digits_length n k Hn) as H.
  destruct (Nat.ltb_spec (S k) (length (Py.digits n)));
    destruct (Z.ltb_spec n (10 ^ Z.of_nat (S k))); simpl; try reflexivity; lia.
Qed.

Lemma str_of_int_nonneg n :
  0 <= n -> n < str_limit -> Py.str_of_int n = Ok (Py.digits n).
Proof.
  intros Hn Hlim. unfold Py.str_of_int.
  destruct (Z.ltb_spec n 0); [lia |].
  rewrite (digits_within_limit n Hn).
  destruct (Z.ltb_spec n str_limit); [reflexivity | lia].
Qed.

Lemma str_of_int_too_long n :
  str_limit <= n -> Py.str_of_int n = Raise ValueError.
Proof.
  intros Hlim. unfold Py.str_of_int.
  assert (Hpos : 0 < str_limit) by (apply Z.pow_pos_nonneg; lia).
  destruct (Z.ltb_spec n 0); [lia |].
  rewrite (digits_within_limit n) by lia.
  destruct (Z.ltb_spec n str_limit); [lia | reflexivity].
Qed.

(** What a successful [str] of a non-negative integer returned. *)
Lemma str_of_int_ok_inv n t :
  0 <= n -> Py.str_of_int n = Ok t -> t = Py.digits n /\ n < str_limit.
Proof.
  intros Hn H. destruct (Z.lt_ge_cases n str_limit) as [Hlt | Hge].
  - rewrite (str_of_int_nonneg n Hn Hlt) in H. injection H as <-. auto.
  - rewrite (str_of_int_too_long n Hge) in H. discriminate.
Qed.

Lemma int_body_decimal s : forall acc,
  forallb Py.is_decimal_digit s = true ->
  Py.int_body acc true s = Some (fold_left (fun a c => 10 * a + Py.digit_value c) s acc, []).
Proof.
  induction s as [| c s IH]; intros acc H; simpl in *; [reflexivity |].
  apply andb_true_iff in H as [Hc Hs]. rewrite Hc. now apply IH.
Qed.

Lemma count_digits_decimal s :
  forallb Py.is_decimal_digit s = true -> Py.count_digits s = length s.
Proof.
  unfold Py.count_digits. induction s as [| c s IH]; [reflexivity |].
  simpl. intros H. apply andb_true_iff in H as [Hc Hs].
  rewrite Hc. simpl. f_equal. exact (IH Hs).
Qed.

Lemma decimal_segment_all s :
  decimal_segment s = true -> forallb Py.is_decimal_digit s = true.
Proof. destruct s; [discriminate | auto]. Qed.

(** [int] on a run of decimal digits: its value, unless the run is too
    long. *)
Lemma int_decimal s :
  decimal_segment s = true ->
  Py.int s
  = if (Py.max_str_digits <? length s)%nat then Raise ValueError
    else Ok (decimal_value s).
Proof.
  intros Hseg. pose proof (decimal_segment_all s Hseg) as Hall.
  destruct s as [| c s]; [discriminate |].
  assert (Hc : Py.is_decimal_digit c = true)
    by (simpl in Hall; now apply andb_true_iff in Hall).
  pose proof (decimal_is_digit c Hc) as Hd.
  unfold Py.int. cbn [Py.skip_int_space].
  rewrite (digit_not_int_space c Hd).
  destruct (digit_not_sign c Hd) as [-> ->].
  rewrite (count_digits_decimal _ Hall).
  cbn [Py.int_body]. rewrite Hc.
  rewrite int_body_decimal by (simpl in Hall; now apply andb_true_iff in Hall).
  cbn [Py.skip_int_space].
  destruct (Py.max_str_digits <? length (c :: s))%nat; [reflexivity |].
  unfold decimal_value. cbn [fold_left]. f_equal.
  destruct (fold_left _ s _); reflexivity.
Qed.

Lemma int_readable s :
  readable_segment s = true -> Py.int s = Ok (decimal_value s).
Proof.
  unfold readable_segment. intros H. apply andb_true_iff in H as [Hseg Hlen].
  rewrite (int_decimal s Hseg). apply Nat.leb_le in Hlen.
  destruct (Nat.ltb_spec Py.max_str_digits (length s)); [lia | reflexivity].
Qed.

(** A string [isdigit] accepts and [int] converts is made of decimal
    digits: the superscript digits stop the conversion. *)
Lemma int_body_digits s : forall acc prev n rest,
  forallb Py.is_digit s = true ->
  Py.int_body acc prev s = Some (n, rest) ->
  Py.skip_int_space rest = [] ->
  forallb Py.is_decimal_digit s = true.
Proof.
  induction s as [| c s IH]; intros acc prev n rest Hs Hb Hr; [reflexivity |].
  simpl in Hs. apply andb_true_iff in Hs as [Hc Hs].
  simpl in Hb |- *. destruct (Py.is_decimal_digit c) eqn:Hdec.
  - simpl. eapply IH; eassumption.
  - rewrite (digit_not_underscore c Hc) in Hb.
    destruct prev; [| discriminate].
    injection Hb as <- <-. simpl in Hr.
    rewrite (digit_not_int_space c Hc) in Hr. discriminate.
Qed.

Lemma isdigit_int_decimal s n :
  Py.isdigit s = true -> Py.int s = Ok n ->
  readable_segment s = true /\ n = decimal_value s.
Proof.
  intros Hd Hi.
  assert (Hseg : decimal_segment s = true).
  { destruct s as [| c s]; [discriminate |].
    unfold Py.isdigit in Hd. unfold decimal_segment.
    assert (Hc : Py.is_digit c = true) by (simpl in Hd; now apply andb_true_iff in Hd).
    unfold Py.int in Hi. cbn [Py.skip_int_space] in Hi.
    rewrite (digit_not_int_space c Hc) in Hi.
    destruct (digit_not_sign c Hc) as [E1 E2]. rewrite E1, E2 in Hi.
    destruct (Py.int_body 0 false (c :: s)) as [[m rest] |] eqn:Hb; [| discriminate].
    destruct (Py.skip_int_space rest) eqn:Hr; [| discriminate].
    eapply int_body_digits; eassumption. }
  rewrite (int_decimal s Hseg) in Hi. unfold readable_segment. rewrite Hseg.
  destruct (Nat.ltb_spec Py.max_str_digits (length s)); [discriminate |].
  injection Hi as <-. split; [| reflexivity].
  apply andb_true_iff. split; [reflexivity | now apply Nat.leb_le].
Qed.

Lemma readable_segment_decimal s :
  readable_segment s = true -> decimal_segment s = true.
Proof. unfold readable_segment. intros H. now apply andb_true_iff in H. Qed.

(** The value of a run of [k] decimal digits is below the [k]-th power of
    ten. *)
Lemma decimal_fold_bound s : forall acc,
  0 <= acc -> forallb Py.is_decimal_digit s = true ->
  0 <= fold_left (fun a c => 10 * a + Py.digit_value c) s acc
    < (acc + 1) * 10 ^ Z.of_nat (length s).
Proof.
  induction s as [| c s IH]; intros acc Hacc H.
  - simpl. lia.
  - simpl in H. apply andb_true_iff in H as [Hc Hs].
    assert (Hd : 0 <= Py.digit_value c <= 9).
    { unfold Py.is_decimal_digit, Py.in_range in Hc.
      apply andb_true_iff in Hc as [Hlo Hhi].
      apply N.leb_le in Hlo, Hhi. unfold Py.digit_value. lia. }
    cbn [fold_left length].
    specialize (IH (10 * acc + Py.digit_value c) ltac:(lia) Hs).
    rewrite Nat2Z.inj_succ, Z.pow_succ_r by lia.
    assert (Hp : 0 < 10 ^ Z.of_nat (length s)) by (apply Z.pow_pos_nonneg; lia).
    split; [lia |]. nia.
Qed.

Lemma decimal_value_bound s :
  forallb Py.is_decimal_digit s = true ->
  0 <= decimal_value s < 10 ^ Z.of_nat (length s).
Proof.
  intros H. pose proof (decimal_fold_bound s 0 ltac:(lia) H) as Hb.
  unfold decimal_value. lia.
Qed.

(** The value of a segment [int] converts is one [str] writes. *)
Lemma readable_value_limit s :
  readable_segment s = true -> 0 <= decimal_value s < str_limit.
Proof.
  unfold readable_segment. intros H. apply andb_true_iff in H as [Hseg Hlen].
  apply Nat.leb_le in Hlen.
  pose proof (decimal_value_bound s (decimal_segment_all s Hseg)) as Hb.
  split; [lia |]. eapply Z.lt_le_trans; [apply Hb |].
  unfold str_limit. apply Z.pow_le_mono_r; lia.
Qed.

(** The digits written for an integer [str] writes are a segment [int]
    converts. *)
Lemma digits_readable n :
  0 <= n -> n < str_limit -> readable_segment (Py.digits n) = true.
Proof.
  intros Hn Hlim. unfold readable_segment.
  rewrite (digits_decimal n Hn). simpl.
  pose proof (digits_within_limit n Hn) as H.
  destruct (Z.ltb_spec n str_limit); [| lia]. simpl in H.
  apply Nat.ltb_ge in H. now apply Nat.leb_le.
Qed.

(** ** [str.split] *)

Lemma split_nonempty sep s : Py.split sep s <> [].
Proof.
  destruct s as [| c s]; simpl; [discriminate |].
  destruct (Ascii.eqb c sep); [discriminate |].
  destruct (Py.split sep s); discriminate.
Qed.

Lemma split_no_sep sep s :
  forallb (fun c => negb (Ascii.eqb c sep)) s = true -> Py.split sep s = [s].
Proof.
  induction s as [| c s IH]; simpl; [reflexivity |].
  intros H. apply andb_true_iff in H as [Hc Hs].
  apply negb_true_iff in Hc. rewrite Hc, (IH Hs). reflexivity.
Qed.

Lemma split_app_sep sep a rest :
  forallb (fun c => negb (Ascii.eqb c sep)) a = true ->
  Py.split sep (a ++ sep :: rest) = a :: Py.split sep rest.
Proof.
  induction a as [| c a IH]; simpl.
  - intros _. now rewrite Ascii.eqb_refl.
  - intros H. apply andb_true_iff in H as [Hc Ha].
    apply negb_true_iff in Hc. rewrite Hc, (IH Ha). reflexivity.
Qed.

(** Every character of the text other than the separator lands in a
    segment. *)
Lemma split_covers sep s c :
  In c s -> Ascii.eqb c sep = false ->
  exists seg, In seg (Py.split sep s) /\ In c seg.
Proof.
  induction s as [| d s IH]; intros Hin Hc; [destruct Hin |].
  simpl. destruct Hin as [-> | Hin].
  - rewrite Hc. pose proof (split_nonempty sep s) as Hne.
    destruct (Py.split sep s) as [| seg segs]; [congruence |].
    exists (c :: seg). split; left; reflexivity.
  - destruct (IH Hin Hc) as (seg & Hseg & Hcs).
    destruct (Ascii.eqb d sep).
    + exists seg. split; [right; exact Hseg | exact Hcs].
    + destruct (Py.split sep s) as [| seg0 segs]; [destruct Hseg |].
      destruct Hseg as [-> | Hseg].
      * exists (d :: seg). split; [left; reflexivity | right; exact Hcs].
      * exists seg. split; [right; exact Hseg | exact Hcs].
Qed.

Lemma decimal_segment_no_dot s :
  decimal_segment s = true ->
  forallb (fun c => negb (Ascii.eqb c ".")) s = true.
Proof.
  intros H. assert (Hall : forallb Py.is_decimal_digit s = true)
    by (destruct s; [discriminate | exact H]).
  clear H. induction s as [| c s IH]; [reflexivity |].
  simpl in *. apply andb_true_iff in Hall as [Hc Hs].
  rewrite (digit_not_dot c (decimal_is_digit c Hc)), (IH Hs). reflexivity.
Qed.

Lemma decimal_segment_isdigit s : decimal_segment s = true -> Py.isdigit s = true.
Proof.
  destruct s as [| c s]; [discriminate |].
  unfold decimal_segment, Py.isdigit. generalize (c :: s). clear.
  induction l as [| d l IH]; [reflexivity |]. simpl.
  intros H. apply andb_true_iff in H as [Hd Hl].
  now rewrite (decimal_is_digit d Hd), (IH Hl).
Qed.

(** ** The semantic-version model *)

Lemma semver_to_str_ok x y z :
  within_limit x -> within_limit y -> within_limit z ->
  semver_to_str (mkVersion x y z) = Ok (dotted x y z).
Proof.
  intros [] [] []. unfold semver_to_str. cbn [major minor patch].
  rewrite !str_of_int_nonneg by assumption. reflexivity.
Qed.

(** What a successful [semver_to_str] of non-negative components
    returned. *)
Lemma semver_to_str_ok_inv v t :
  0 <= major v -> 0 <= minor v -> 0 <= patch v ->
  semver_to_str v = Ok t ->
  t = dotted (major v) (minor v) (patch v)
  /\ within_limit (major v) /\ within_limit (minor v) /\ within_limit (patch v).
Proof.
  intros H1 H2 H3 H. unfold semver_to_str in H.
  destruct (Py.str_of_int (major v)) as [x |] eqn:Ex; [| discriminate].
  destruct (Py.str_of_int (minor v)) as [y |] eqn:Ey; [| discriminate].
  destruct (Py.str_of_int (patch v)) as [z |] eqn:Ez; [| discriminate].
  cbn [rbind] in H. injection H as <-.
  destruct (str_of_int_ok_inv _ _ H1 Ex) as [-> ?].
  destruct (str_of_int_ok_inv _ _ H2 Ey) as [-> ?].
  destruct (str_of_int_ok_inv _ _ H3 Ez) as [-> ?].
  unfold within_limit. auto.
Qed.

Lemma semver_to_str_too_long v :
  str_limit <= major v \/ str_limit <= minor v \/ str_limit <= patch v ->
  semver_to_str v = Raise ValueError.
Proof.
  intros H. unfold semver_to_str.
  destruct (Py.str_of_int (major v)) as [x | e] eqn:Ex.
  - destruct (Py.str_of_int (minor v)) as [y | e] eqn:Ey.
    + destruct (Py.str_of_int (patch v)) as [z | e] eqn:Ez.
      * exfalso. destruct H as [H | [H | H]];
          apply str_of_int_too_long in H; congruence.
      * cbn [rbind]. destruct H as [H | [H | H]];
          apply str_of_int_too_long in H; congruence.
    + cbn [rbind]. destruct H as [H | [H | H]];
        apply str_of_int_too_long in H; try congruence.
      (* the minor component fails first *)
      revert Ey. unfold Py.str_of_int.
      destruct (_ <? _)%nat; [intros [= <-]; reflexivity | discriminate].
  - cbn [rbind]. revert Ex. unfold Py.str_of_int.
    destruct (_ <? _)%nat; [intros [= <-]; reflexivity | discriminate].
Qed.

Lemma dotted_split x y z :
  0 <= x -> 0 <= y -> 0 <= z ->
  Py.split "." (dotted x y z) = [Py.digits x; Py.digits y; Py.digits z].
Proof.
  intros H1 H2 H3. unfold dotted.
  change (lit ".") with ["."%char]. simpl app.
  rewrite split_app_sep by (apply decimal_segment_no_dot, digits_decimal; assumption).
  rewrite split_app_sep by (apply decimal_segment_no_dot, digits_decimal; assumption).
  rewrite split_no_sep by (apply decimal_segment_no_dot, digits_decimal; assumption).
  reflexivity.
Qed.

Lemma parse_semver_segments a b c :
  readable_segment a = true -> readable_segment b = true ->
  readable_segment c = true ->
  forall s, Py.split "." s = [a; b; c] ->
  parse_semver s
  = Ok (mkVersion (decimal_value a) (decimal_value b) (decimal_value c)).
Proof.
  intros Ha Hb Hc s Hs. unfold parse_semver. rewrite Hs. simpl.
  rewrite !decimal_segment_isdigit by now apply readable_segment_decimal.
  simpl. rewrite !int_readable by assumption. reflexivity.
Qed.

Lemma parse_semver_ok_inv s v :
  parse_semver s = Ok v ->
  exists a b c,
    Py.split "." s = [a; b; c]
    /\ readable_segment a = true /\ readable_segment b = true
    /\ readable_segment c = true
    /\ v = mkVersion (decimal_value a) (decimal_value b) (decimal_value c).
Proof.
  unfold parse_semver. intros H.
  destruct (Py.split "." s) as [| a [| b [| c [| d l]]]]; try discriminate H.
  simpl in H.
  destruct (Py.isdigit a) eqn:Da; [| discriminate H].
  destruct (Py.isdigit b) eqn:Db; [| discriminate H].
  destruct (Py.isdigit c) eqn:Dc; [| discriminate H].
  simpl in H.
  destruct (Py.int a) as [x |] eqn:Ia; [| discriminate H].
  destruct (Py.int b) as [y |] eqn:Ib; [| discriminate H].
  destruct (Py.int c) as [z |] eqn:Ic; [| discriminate H].
  simpl in H. injection H as <-.
  destruct (isdigit_int_decimal a x Da Ia) as [Sa ->].
  destruct (isdigit_int_decimal b y Db Ib) as [Sb ->].
  destruct (isdigit_int_decimal c z Dc Ic) as [Sc ->].
  exists a, b, c. repeat split; assumption.
Qed.

Lemma parse_semver_assert_count s :
  length (Py.split "." s) <> 3%nat -> parse_semver s = Raise AssertionError.
Proof.
  intros H. unfold parse_semver.
  destruct (Nat.eqb_spec (length (Py.split "." s)) 3); [contradiction | reflexivity].
Qed.

Lemma parse_semver_assert_segment s seg :
  In seg (Py.split "." s) -> Py.isdigit seg = false ->
  parse_semver s = Raise AssertionError.
Proof.
  intros Hin Hseg. unfold parse_semver.
  destruct (Nat.eqb (length (Py.split "." s)) 3); [| reflexivity]. simpl.
  assert (E : forallb Py.isdigit (Py.split "." s) = false).
  { destruct (forallb Py.isdigit (Py.split "." s)) eqn:E; [| reflexivity].
    rewrite forallb_forall in E. rewrite (E seg Hin) in Hseg. discriminate. }
  rewrite E. reflexivity.
Qed.

Lemma isdigit_non_digit seg ch :
  In ch seg -> Py.is_digit ch = false -> Py.isdigit seg = false.
Proof.
  intros Hin Hch. destruct seg as [| c seg]; [reflexivity |].
  unfold Py.isdigit. destruct (forallb Py.is_digit (c :: seg)) eqn:E; [| reflexivity].
  rewrite forallb_forall in E. rewrite (E ch Hin) in Hch. discriminate.
Qed.

(** The text written for a version within the limit reads back as that
    version. *)
Lemma parse_dotted x y z :
  within_limit x -> within_limit y -> within_limit z ->
  parse_semver (dotted x y z) = Ok (mkVersion x y z).
Proof.
  intros [Hx Lx] [Hy Ly] [Hz Lz].
  rewrite (parse_semver_segments (Py.digits x) (Py.digits y) (Py.digits z));
    try (apply digits_readable; assumption).
  - now rewrite !digits_value by assumption.
  - now apply dotted_split.
Qed.

(** [bump_semver] formats one of three versions. *)
Lemma bump_semver_cases v k :
  bump_semver v k
  = semver_to_str
      (if bool_decide (k = lit "major") then mkVersion (major v + 1) 0 0
       else if bool_decide (k = lit "minor") then mkVersion (major v) (minor v + 1) 0
       else mkVersion (major v) (minor v) (patch v + 1)).
Proof.
  unfold bump_semver.
  destruct (bool_decide (k = lit "major")); [reflexivity |].
  destruct (bool_decide (k = lit "minor")); reflexivity.
Qed.

Lemma str_limit_pos : 1 < str_limit.
Proof. unfold str_limit. apply Z.pow_gt_1; [lia | reflexivity]. Qed.

Lemma str_limit_eq : str_limit = 10 ^ 4300.
Proof. unfold str_limit. f_equal. Qed.

(** Integers of few digits are within the limit. *)
Lemma below_str_limit n k :
  (k <= Py.max_str_digits)%nat -> n < 10 ^ Z.of_nat k -> n < str_limit.
Proof.
  intros Hk Hn. unfold str_limit. eapply Z.lt_le_trans; [exact Hn |].
  apply Z.pow_le_mono_r; lia.
Qed.

Lemma nines_fold n : forall acc,
  fold_left (fun a c => 10 * a + Py.digit_value c) (nines n) acc
  = (acc + 1) * 10 ^ Z.of_nat n - 1.
Proof.
  induction n as [| n IH]; intros acc.
  - simpl. lia.
  - change (nines (S n)) with ("9"%char :: nines n). cbn [fold_left].
    rewrite IH, Nat2Z.inj_succ, Z.pow_succ_r by lia.
    change (Py.digit_value "9") with 9. lia.
Qed.

(** A run of [n] nines denotes the largest number of [n] digits. *)
Lemma decimal_value_nines n : decimal_value (nines n) = 10 ^ Z.of_nat n - 1.
Proof. unfold decimal_value. rewrite nines_fold. lia. Qed.

Lemma nines_decimal n : forallb Py.is_decimal_digit (nines n) = true.
Proof. induction n as [| n IH]; [reflexivity | exact IH]. Qed.

Lemma nines_length n : length (nines n) = n.
Proof. apply repeat_length. Qed.

Lemma nines_readable n :
  (0 < n <= Py.max_str_digits)%nat -> readable_segment (nines n) = true.
Proof.
  intros [Hpos Hmax]. unfold readable_segment. rewrite nines_length.
  apply andb_true_iff. split; [| now apply Nat.leb_le].
  destruct n as [| n]; [lia |]. exact (nines_decimal (S n)).
Qed.

Lemma nines_no_dot n :
  forallb (fun c => negb (Ascii.eqb c ".")) (nines n) = true.
Proof. induction n as [| n IH]; [reflexivity | exact IH]. Qed.

(** The version at the limit: patch number 99...9 of 4300 nines. *)
Lemma parse_semver_limit_version :
  parse_semver limit_version = Ok (mkVersion 0 0 (str_limit - 1)).
Proof.
  rewrite (parse_semver_segments "0" "0" (nines Py.max_str_digits)).
  - rewrite decimal_value_nines. reflexivity.
  - reflexivity.
  - reflexivity.
  - apply nines_readable. unfold Py.max_str_digits. lia.
  - unfold limit_version.
    change (lit "0.0." ++ nines 4300)
      with (lit "0" ++ "."%char :: lit "0" ++ "."%char :: nines Py.max_str_digits).
    rewrite !split_app_sep by reflexivity.
    now rewrite split_no_sep by apply nines_no_dot.
Qed.

(** A patch bump at the limit raises. *)
Lemma bump_semver_limit_version :
  bump_semver (mkVersion 0 0 (str_limit - 1)) "patch" = Raise ValueError.
Proof.
  change (bump_semver (mkVersion 0 0 (str_limit - 1)) (lit "patch"))
    with (semver_to_str (mkVersion 0 0 (str_limit - 1 + 1))).
  apply semver_to_str_too_long. right; right. cbn [patch]. lia.
Qed.

(** The claim C1 fails where the bumped component needs one digit more than
    [str] writes: from patch number 99...9 of 4300 nines, the patch bump
    raises a value error and returns no string. *)
Lemma bump_semver_patch_limit :
  parse_semver ("0.0." ++ nines 4300) = Ok (mkVersion 0 0 (10 ^ 4300 - 1))
  /\ 0 <= 10 ^ 4300 - 1
  /\ bump_semver (mkVersion 0 0 (10 ^ 4300 - 1)) "patch" = Raise ValueError.
Proof.
  rewrite <- str_limit_eq. pose proof str_limit_pos.
  split; [exact parse_semver_limit_version |]. split; [lia |].
  exact bump_semver_limit_version.
Qed.

(** C1 (amended). For every version of non-negative components, each bump
    is the formatting of the bumped version: (major, minor, patch+1) for
    patch, (major, minor+1, 0) for minor and (major+1, 0, 0) for major.
    Whenever the components of the bumped version have at most 4300 digits,
    the bump returns its formatted string, the three numbers in decimal
    joined by dots, which [parse_semver] reads back as the bumped version;
    when one of them has more, the bump raises a value error. *)
Theorem bump_semver_classes (v : Version) :
  0 <= major v -> 0 <= minor v -> 0 <= patch v ->
  let patched := mkVersion (major v) (minor v) (patch v + 1) in
  let minored := mkVersion (major v) (minor v + 1) 0 in
  let majored := mkVersion (major v + 1) 0 0 in
  (bump_semver v "patch" = semver_to_str patched
   /\ (major v < str_limit -> minor v < str_limit -> patch v + 1 < str_limit ->
       bump_semver v "patch" = Ok (dotted (major v) (minor v) (patch v + 1))
       /\ parse_semver (dotted (major v) (minor v) (patch v + 1)) = Ok patched)
   /\ (str_limit <= major v \/ str_limit <= minor v \/ str_limit <= patch v + 1 ->
       bump_semver v "patch" = Raise ValueError))
  /\ (bump_semver v "minor" = semver_to_str minored
      /\ (major v < str_limit -> minor v + 1 < str_limit ->
          bump_semver v "minor" = Ok (dotted (major v) (minor v + 1) 0)
          /\ parse_semver (dotted (major v) (minor v + 1) 0) = Ok minored)
      /\ (str_limit <= major v \/ str_limit <= minor v + 1 ->
          bump_semver v "minor" = Raise ValueError))
  /\ (bump_semver v "major" = semver_to_str majored
      /\ (major v + 1 < str_limit ->
          bump_semver v "major" = Ok (dotted (major v + 1) 0 0)
          /\ parse_semver (dotted (major v + 1) 0 0) = Ok majored)
      /\ (str_limit <= major v + 1 ->
          bump_semver v "major" = Raise ValueError)).
Proof.
  intros H1 H2 H3 patched minored majored.
  pose proof str_limit_pos as Hl.
  assert (Ep : bump_semver v "patch" = semver_to_str patched) by reflexivity.
  assert (Em : bump_semver v "minor" = semver_to_str minored) by reflexivity.
  assert (EM : bump_semver v "major" = semver_to_str majored) by reflexivity.
  rewrite Ep, Em, EM. unfold patched, minored, majored.
  repeat split; intros;
    first [ apply semver_to_str_ok; unfold within_limit; lia
          | apply parse_dotted; unfold within_limit; lia
          | apply semver_to_str_too_long; cbn [major minor patch]; lia ].
Qed.

Lemma bump_semver_classes_witness :
  (bump_semver (mkVersion 1 2 3) "patch" = Ok (lit "1.2.4")
   /\ parse_semver "1.2.4" = Ok (mkVersion 1 2 4))
  /\ (bump_semver (mkVersion 1 2 3) "minor" = Ok (lit "1.3.0")
      /\ parse_semver "1.3.0" = Ok (mkVersion 1 3 0))
  /\ (bump_semver (mkVersion 1 2 3) "major" = Ok (lit "2.0.0")
      /\ parse_semver "2.0.0" = Ok (mkVersion 2 0 0)).
Proof.
  destruct (bump_semver_classes (mkVersion 1 2 3))
    as ((_ & Hp & _) & (_ & Hm & _) & (_ & HM & _)); [simpl; lia .. |].
  split; [| split].
  - apply Hp; apply (below_str_limit _ 1);
      first [reflexivity | unfold Py.max_str_digits; lia].
  - apply Hm; apply (below_str_limit _ 1);
      first [reflexivity | unfold Py.max_str_digits; lia].
  - apply HM; apply (below_str_limit _ 1);
      first [reflexivity | unfold Py.max_str_digits; lia].
Defined.

(** The claim C2 fails at a component of 4301 digits: formatting raises a
    value error, so parsing the formatted string does not succeed. *)
Lemma parse_semver_to_str_limit :
  0 <= 10 ^ 4300
  /\ (t <- semver_to_str (mkVersion (10 ^ 4300) 0 0) ;; parse_semver t)%result
     = Raise ValueError.
Proof.
  rewrite <- str_limit_eq. pose proof str_limit_pos.
  split; [lia |].
  rewrite semver_to_str_too_long; [reflexivity |].
  left. cbn [major]. lia.
Qed.

(** C2 (amended). For every version with non-negative components of at most
    4300 digits each, formatting returns a string and parsing that string
    succeeds and gives the version back. *)
Theorem parse_semver_to_str (v : Version) :
  within_limit (major v) -> within_limit (minor v) -> within_limit (patch v) ->
  (exists t, semver_to_str v = Ok t)
  /\ (t <- semver_to_str v ;; parse_semver t)%result = Ok v.
Proof.
  intros H1 H2 H3. destruct v as [x y z]. cbn [major minor patch] in *.
  rewrite (semver_to_str_ok x y z H1 H2 H3). cbn [rbind].
  split; [eexists; reflexivity | now apply parse_dotted].
Qed.

Lemma parse_semver_to_str_witness :
  (exists t, semver_to_str (mkVersion 10 0 427) = Ok t)
  /\ (t <- semver_to_str (mkVersion 10 0 427) ;; parse_semver t)%result
     = Ok (mkVersion 10 0 427).
Proof.
  apply (parse_semver_to_str (mkVersion 10 0 427));
    (split;
     [ simpl; lia
     | apply (below_str_limit _ 3);
       first [reflexivity | unfold Py.max_str_digits; lia] ]).
Defined.

(** The claim C3 fails in two places.  Three segments of decimal digits do
    not parse when one has 4301 digits: [int] raises a value error.  And a
    segment with a superscript two, which is not a decimal digit, passes the
    assertions ([isdigit] accepts it) and fails in [int] with a value error,
    not with an assertion error. *)
Lemma parse_semver_not_exact :
  (Py.split "." ("1.2." ++ nines 4301) = [lit "1"; lit "2"; nines 4301]
   /\ decimal_segment "1" = true /\ decimal_segment "2" = true
   /\ decimal_segment (nines 4301) = true
   /\ parse_semver ("1.2." ++ nines 4301) = Raise ValueError)
  /\ (In [ascii_of_nat 178] (Py.split "." ("1.2." ++ [ascii_of_nat 178]))
      /\ Py.is_decimal_digit (ascii_of_nat 178) = false
      /\ parse_semver ("1.2." ++ [ascii_of_nat 178]) = Raise ValueError).
Proof.
  split.
  - repeat split; vm_compute; reflexivity.
  - split; [right; right; left; reflexivity |].
    split; vm_compute; reflexivity.
Qed.

(** C3 (amended). Parsing succeeds exactly when splitting on the dot yields
    exactly three segments, each composed solely of decimal digits, at least
    one and at most 4300 of them.  With another number of segments, or with
    a segment that contains a character [str.isdigit] rejects, parsing fails
    with an assertion error; so does every string with a pre-release tag or
    build metadata, as it contains a hyphen or a plus sign. *)
Theorem parse_semver_succeeds_iff (s : str) :
  ((exists v, parse_semver s = Ok v)
   <-> (exists a b c, Py.split "." s = [a; b; c]
          /\ readable_segment a = true /\ readable_segment b = true
          /\ readable_segment c = true))
  /\ (length (Py.split "." s) <> 3%nat -> parse_semver s = Raise AssertionError)
  /\ (forall seg ch, In seg (Py.split "." s) -> In ch seg ->
        Py.is_digit ch = false -> parse_semver s = Raise AssertionError)
  /\ (In "-"%char s \/ In "+"%char s -> parse_semver s = Raise AssertionError).
Proof.
  split; [| split; [| split]].
  - split.
    + intros [v Hv]. destruct (parse_semver_ok_inv s v Hv) as (a & b & c & H & Ha & Hb & Hc & _).
      exists a, b, c. auto.
    + intros (a & b & c & H & Ha & Hb & Hc). eexists.
      now apply (parse_semver_segments a b c).
  - apply parse_semver_assert_count.
  - intros seg ch Hseg Hch Hd.
    apply (parse_semver_assert_segment s seg Hseg).
    now apply (isdigit_non_digit seg ch).
  - intros H.
    assert (exists ch, In ch s /\ Ascii.eqb ch "." = false /\ Py.is_digit ch = false)
      as (ch & Hin & Hdot & Hd).
    { destruct H as [H | H]; eexists; (split; [exact H | split; reflexivity]). }
    destruct (split_covers "." s ch Hin Hdot) as (seg & Hseg & Hch).
    apply (parse_semver_assert_segment s seg Hseg).
    now apply (isdigit_non_digit seg ch).
Qed.

Lemma parse_semver_succeeds_iff_witness :
  (exists v, parse_semver "1.2.3" = Ok v)
  /\ parse_semver "1.2" = Raise AssertionError
  /\ parse_semver "1.2.x" = Raise AssertionError
  /\ parse_semver "1.2.3-rc.1" = Raise AssertionError.
Proof.
  split; [| split; [| split]].
  - apply (proj1 (parse_semver_succeeds_iff "1.2.3")).
    exists (lit "1"), (lit "2"), (lit "3"). repeat split; reflexivity.
  - apply (proj1 (proj2 (parse_semver_succeeds_iff "1.2"))).
    vm_compute. lia.
  - apply (proj1 (proj2 (proj2 (parse_semver_succeeds_iff "1.2.x"))) (lit "x") "x"%char).
    + vm_compute. right; right; left; reflexivity.
    + vm_compute. left; reflexivity.
    + reflexivity.
  - apply (proj2 (proj2 (proj2 (parse_semver_succeeds_iff "1.2.3-rc.1")))).
    left. vm_compute. do 5 right. left. reflexivity.
Defined.

(** An empty segment is not composed of digits. *)
Example parse_semver_empty_segment :
  parse_semver "1..3" = Raise AssertionError.
Proof. reflexivity. Qed.



(** ** The regular-expression fragment *)

Lemma star_ext p k1 k2 :
  (forall q1 q2 s, k1 q1 s = k2 q2 s) ->
  forall s q1 q2, Re.star p k1 q1 s = Re.star p k2 q2 s.
Proof.
  intros Hk. induction s as [| c s IH]; intros q1 q2; simpl; [apply Hk |].
  destruct (p c); [| apply Hk].
  rewrite (IH (Some c) (Some c)).
  destruct (Re.star p k2 (Some c) s); [reflexivity | apply Hk].
Qed.

(** Only [^] looks at the character before the current position. *)
Lemma match_here_prev r :
  bol_free r = true ->
  forall q1 q2 s, Re.match_here r q1 s = Re.match_here r q2 s.
Proof.
  induction r as [| i r IH]; intros Hr q1 q2 s; [reflexivity |].
  simpl in Hr. apply andb_true_iff in Hr as [Hi Hr].
  specialize (IH Hr).
  destruct i; simpl; try discriminate.
  - destruct (Re.at_eol s); [apply IH | reflexivity].
  - reflexivity.
  - now apply star_ext.
  - destruct s as [| d s]; [reflexivity |].
    destruct (p d); reflexivity.
Qed.

Lemma star_inv p k : forall s prev n,
  Re.star p k prev s = Some n ->
  exists ws rest prev' m,
    s = ws ++ rest /\ forallb p ws = true
    /\ k prev' rest = Some m /\ n = (length ws + m)%nat.
Proof.
  induction s as [| c s IH]; intros prev n H; simpl in H.
  - exists [], [], prev, n. auto.
  - destruct (p c) eqn:Hc.
    + destruct (Re.star p k (Some c) s) as [n' |] eqn:Hs.
      * injection H as <-.
        destruct (IH _ _ Hs) as (ws & rest & prev' & m & -> & Hws & Hk & ->).
        exists (c :: ws), rest, prev', m. simpl. rewrite Hc, Hws. auto.
      * exists [], (c :: s), prev, n. auto.
    + exists [], (c :: s), prev, n. auto.
Qed.

(** A greedy class followed by something that cannot start with a character
    of the class takes the whole run. *)
Lemma star_run p k :
  (forall q1 q2 s, k q1 s = k q2 s) ->
  (forall q c s, p c = true -> k q (c :: s) = None) ->
  forall ws rest prev,
    forallb p ws = true ->
    hd_error rest = None \/ (exists c, hd_error rest = Some c /\ p c = false) ->
    Re.star p k prev (ws ++ rest)
    = option_map (Nat.add (length ws)) (k None rest).
Proof.
  intros Hext Hfail. induction ws as [| c ws IH]; intros rest prev Hws Hrest.
  - simpl. destruct rest as [| d rest]; simpl.
    + rewrite (Hext prev None). now destruct (k None []).
    + destruct Hrest as [Hrest | (c & Hc & Hp)]; [discriminate |].
      injection Hc as ->. rewrite Hp, (Hext prev None).
      now destruct (k None (c :: rest)).
  - simpl in Hws. apply andb_true_iff in Hws as [Hc Hws].
    simpl. rewrite Hc, (IH rest (Some c) Hws Hrest).
    destruct (k None rest); simpl; [reflexivity |].
    now apply Hfail.
Qed.

Lemma lit_inv c r prev s n :
  Re.match_here (Re.Lit c :: r) prev s = Some n ->
  exists s' m, s = c :: s' /\ Re.match_here r (Some c) s' = Some m /\ n = S m.
Proof.
  simpl. destruct s as [| d s]; [discriminate |].
  destruct (Ascii.eqb_spec c d) as [<- | _]; [| discriminate].
  destruct (Re.match_here r (Some c) s) as [m |] eqn:E; [| discriminate].
  intros [= <-]. eauto.
Qed.

Lemma lit_step c r prev s :
  Re.match_here (Re.Lit c :: r) prev (c :: s)
  = option_map S (Re.match_here r (Some c) s).
Proof. simpl. now rewrite Ascii.eqb_refl. Qed.

Lemma lit_fails c r prev d s :
  Ascii.eqb c d = false -> Re.match_here (Re.Lit c :: r) prev (d :: s) = None.
Proof. intros H. simpl. now rewrite H. Qed.

Lemma star_lit_step p e r prev ws s :
  bol_free r = true -> p e = false -> forallb p ws = true ->
  Re.match_here (Re.Star p :: Re.Lit e :: r) prev (ws ++ e :: s)
  = option_map (Nat.add (length ws))
      (Re.match_here (Re.Lit e :: r) None (e :: s)).
Proof.
  intros Hr He Hws. change (Re.match_here (Re.Star p :: ?r') prev ?t)
    with (Re.star p (Re.match_here r') prev t).
  apply star_run.
  - now apply match_here_prev.
  - intros q c t Hc. apply lit_fails.
    destruct (Ascii.eqb_spec e c) as [<- | _]; congruence.
  - exact Hws.
  - right. exists e. auto.
Qed.

Lemma plus_inv p r prev s n :
  Re.match_here (Re.Plus p :: r) prev s = Some n ->
  exists d ws rest q m,
    s = d :: ws ++ rest /\ p d = true /\ forallb p ws = true
    /\ Re.match_here r q rest = Some m /\ n = S (length ws + m).
Proof.
  simpl. destruct s as [| d s]; [discriminate |].
  destruct (p d) eqn:Hd; [| discriminate].
  destruct (Re.star p (Re.match_here r) (Some d) s) as [k |] eqn:E; [| discriminate].
  intros [= <-].
  apply star_inv in E as (ws & rest & q & m & -> & Hws & Hm & ->).
  exists d, ws, rest, q, m. auto.
Qed.

Lemma eol_inv prev s n :
  Re.match_here [Re.Eol] prev s = Some n -> Re.at_eol s = true /\ n = O.
Proof.
  simpl. destruct (Re.at_eol s); [| discriminate]. intros [= <-]. auto.
Qed.

Lemma version_line_re_unfold :
  version_line_re
  = Re.Bol :: Re.Lit "v" :: Re.Lit "e" :: Re.Lit "r" :: Re.Lit "s"
      :: Re.Lit "i" :: Re.Lit "o" :: Re.Lit "n" :: version_line_tail.
Proof. reflexivity. Qed.

Lemma at_eol_line_end post : Re.at_eol post = true <-> line_end post.
Proof.
  unfold line_end. destruct post as [| c post]; simpl.
  - split; auto.
  - split.
    + intros H. apply Ascii.eqb_eq in H as ->. right. eauto.
    + intros [H | [p H]]; [discriminate |]. injection H as -> _.
      apply Ascii.eqb_refl.
Qed.

Lemma not_dquote_forallb val :
  forallb not_dquote val = true <-> ~ In dquote val.
Proof.
  unfold not_dquote. induction val as [| c val IH]; simpl.
  - split; auto.
  - rewrite andb_true_iff, IH, negb_true_iff. split.
    + intros [Hc Hv] [-> | H]; [now rewrite Ascii.eqb_refl in Hc | auto].
    + intros H. split; [| tauto].
      destruct (Ascii.eqb_spec c dquote) as [-> | _]; [| reflexivity].
      exfalso. apply H. now left.
Qed.

(** What the tail of the pattern matches. *)
Lemma version_line_tail_inv prev s n :
  Re.match_here version_line_tail prev s = Some n ->
  exists ws1 ws2 val post,
    s = ws1 ++ "=" ++ ws2 ++ [dquote] ++ val ++ [dquote] ++ post
    /\ forallb Py.is_space ws1 = true /\ forallb Py.is_space ws2 = true
    /\ val <> [] /\ ~ In dquote val /\ line_end post
    /\ n = length (ws1 ++ "=" ++ ws2 ++ [dquote] ++ val ++ [dquote]).
Proof.
  unfold version_line_tail. intros H.
  change (Re.match_here (Re.Star ?p :: ?r') prev s)
    with (Re.star p (Re.match_here r') prev s) in H.
  apply star_inv in H as (ws1 & s1 & q1 & n1 & -> & Hws1 & H & ->).
  apply lit_inv in H as (s2 & n2 & -> & H & ->).
  change (Re.match_here (Re.Star ?p :: ?r') ?q s2)
    with (Re.star p (Re.match_here r') q s2) in H.
  apply star_inv in H as (ws2 & s3 & q3 & n3 & -> & Hws2 & H & ->).
  apply lit_inv in H as (s4 & n4 & -> & H & ->).
  apply plus_inv in H as (d & val & s5 & q5 & n5 & -> & Hd & Hval & H & ->).
  apply lit_inv in H as (post & n6 & -> & H & ->).
  apply eol_inv in H as [Hpost ->].
  exists ws1, ws2, (d :: val), post.
  split; [| split; [exact Hws1 | split; [exact Hws2 | split; [discriminate |
            split; [| split; [now apply at_eol_line_end |]]]]]].
  - reflexivity.
  - apply not_dquote_forallb. simpl. unfold not_dquote at 1.
    now rewrite Hd.
  - list_len.
Qed.

Lemma version_line_tail_complete prev ws1 ws2 val post :
  forallb Py.is_space ws1 = true -> forallb Py.is_space ws2 = true ->
  val <> [] -> ~ In dquote val -> line_end post ->
  Re.match_here version_line_tail prev
    (ws1 ++ "=" ++ ws2 ++ [dquote] ++ val ++ [dquote] ++ post)
  = Some (length (ws1 ++ "=" ++ ws2 ++ [dquote] ++ val ++ [dquote])).
Proof.
  intros Hws1 Hws2 Hval Hq Hpost. unfold version_line_tail.
  change (lit "=") with ["="%char]. simpl app.
  rewrite star_lit_step by (reflexivity || assumption).
  rewrite lit_step.
  rewrite star_lit_step by (reflexivity || assumption).
  rewrite lit_step.
  destruct val as [| d val]; [congruence |].
  apply not_dquote_forallb in Hq. simpl in Hq.
  apply andb_true_iff in Hq as [Hd Hv].
  simpl app.
  change (Re.match_here (Re.Plus ?p :: ?r') ?q (d :: ?t))
    with (if p d then option_map S (Re.star p (Re.match_here r') (Some d) t)
          else None).
  fold not_dquote. rewrite Hd.
  rewrite (star_run not_dquote).
  - rewrite lit_step. simpl Re.match_here.
    apply at_eol_line_end in Hpost. rewrite Hpost. simpl.
    f_equal. list_len.
  - now apply match_here_prev.
  - intros q c t Hc. apply lit_fails. unfold not_dquote in Hc.
    apply negb_true_iff in Hc. now rewrite Ascii.eqb_sym.
  - exact Hv.
  - right. exists dquote. split; reflexivity.
Qed.

(** The pattern matches at a position exactly when the position starts a
    line and the text there begins with a version assignment that ends a
    line. *)
Lemma version_line_match_iff prev s n :
  Re.match_here version_line_re prev s = Some n
  <-> Re.at_bol prev = true
      /\ exists m post, s = m ++ post /\ version_assignment m
                        /\ line_end post /\ n = length m.
Proof.
  rewrite version_line_re_unfold. split.
  - intros H.
    change (Re.match_here (Re.Bol :: ?r) prev s)
      with (if Re.at_bol prev then Re.match_here r prev s else None) in H.
    destruct (Re.at_bol prev); [| discriminate]. split; [reflexivity |].
    do 7 (apply lit_inv in H as (? & ? & -> & H & ->)).
    apply version_line_tail_inv in H
      as (ws1 & ws2 & val & post & -> & H1 & H2 & H3 & H4 & H5 & ->).
    exists ("version" ++ ws1 ++ "=" ++ ws2 ++ [dquote] ++ val ++ [dquote]), post.
    split; [| split; [| split; [exact H5 |]]].
    + rewrite <- !app_assoc. reflexivity.
    + exists ws1, ws2, val. auto.
    + list_len.
  - intros (Hbol & m & post & -> & (ws1 & ws2 & val & -> & H1 & H2 & H3 & H4) & H5 & ->).
    change (Re.match_here (Re.Bol :: ?r) prev ?t)
      with (if Re.at_bol prev then Re.match_here r prev t else None).
    rewrite Hbol. rewrite <- !app_assoc.
    change (lit "version" ++ ?t)
      with ("v"%char :: "e"%char :: "r"%char :: "s"%char :: "i"%char
            :: "o"%char :: "n"%char :: t).
    rewrite !lit_step.
    rewrite version_line_tail_complete by assumption.
    reflexivity.
Qed.

(** ** Leftmost search *)

Lemma prev_at_cons prev c s i :
  prev_at prev (c :: s) (S i) = prev_at (Some c) s i.
Proof. destruct i; reflexivity. Qed.

Lemma search_some r : forall s prev i n,
  Re.search r prev s = Some (i, n) ->
  (i <= length s)%nat
  /\ Re.match_here r (prev_at prev s i) (drop i s) = Some n
  /\ forall j, (j < i)%nat ->
       Re.match_here r (prev_at prev s j) (drop j s) = None.
Proof.
  induction s as [| c s IH]; intros prev i n H; simpl in H.
  - destruct (Re.match_here r prev []) eqn:E; [| discriminate].
    injection H as <- <-. repeat split; [lia | exact E | lia].
  - destruct (Re.match_here r prev (c :: s)) eqn:E.
    + injection H as <- <-. repeat split; [lia | exact E | lia].
    + destruct (Re.search r (Some c) s) as [[i' n'] |] eqn:Es; [| discriminate].
      injection H as <- <-.
      destruct (IH _ _ _ Es) as (Hi & Hm & Hlt).
      repeat split; [simpl; lia | now rewrite prev_at_cons |].
      intros [| j] Hj; [exact E |].
      rewrite prev_at_cons. apply Hlt. lia.
Qed.

Lemma search_none r : forall s prev,
  Re.search r prev s = None ->
  forall j, (j <= length s)%nat ->
    Re.match_here r (prev_at prev s j) (drop j s) = None.
Proof.
  induction s as [| c s IH]; intros prev H j Hj; simpl in H.
  - destruct (Re.match_here r prev []) eqn:E; [discriminate |].
    simpl in Hj. now replace j with O by lia.
  - destruct (Re.match_here r prev (c :: s)) eqn:E; [discriminate |].
    destruct (Re.search r (Some c) s) as [[i' n'] |] eqn:Es; [discriminate |].
    destruct j as [| j]; [exact E |].
    rewrite prev_at_cons. apply (IH _ Es). simpl in Hj. lia.
Qed.

Lemma search_first r : forall s prev i n,
  (i <= length s)%nat ->
  Re.match_here r (prev_at prev s i) (drop i s) = Some n ->
  (forall j, (j < i)%nat ->
     Re.match_here r (prev_at prev s j) (drop j s) = None) ->
  Re.search r prev s = Some (i, n).
Proof.
  induction s as [| c s IH]; intros prev i n Hi Hm Hlt.
  - simpl in Hi. replace i with O in * by lia. simpl in *. now rewrite Hm.
  - destruct i as [| i].
    + simpl in *. now rewrite Hm.
    + assert (H0 : Re.match_here r prev (c :: s) = None)
        by (apply (Hlt O); lia).
      simpl. rewrite H0.
      rewrite prev_at_cons in Hm. simpl in Hm, Hi.
      rewrite (IH (Some c) i n); [reflexivity | lia | exact Hm |].
      intros j Hj. rewrite <- (prev_at_cons prev). apply (Hlt (S j)). lia.
Qed.

Lemma at_bol_line_start pre rest :
  Re.at_bol (prev_at None (pre ++ rest) (length pre)) = true <-> line_start pre.
Proof.
  unfold line_start. induction pre as [| c p _] using rev_ind.
  - simpl. split; auto.
  - rewrite length_app, Nat.add_1_r. simpl prev_at.
    rewrite <- app_assoc. simpl app. rewrite list_lookup_middle by reflexivity.
    simpl. split.
    + intros H. apply Ascii.eqb_eq in H as ->. right. eauto.
    + intros [H | (p' & H)].
      * now apply app_eq_nil in H as [_ H].
      * apply app_inj_tail in H as [_ ->]. apply Ascii.eqb_refl.
Qed.

(** ** The TOML writer *)

Lemma take_drop_site (content : str) j :
  (j <= length content)%nat ->
  content = take j content ++ drop j content /\ length (take j content) = j.
Proof.
  intros Hj. split; [now rewrite take_drop |].
  rewrite length_take. lia.
Qed.

Lemma match_site_match content pre m post :
  match_site content pre m post ->
  Re.match_here version_line_re (prev_at None content (length pre))
    (drop (length pre) content) = Some (length m).
Proof.
  intros (-> & Hpre & Hm & Hpost).
  rewrite drop_app_length. apply version_line_match_iff. split.
  - now apply at_bol_line_start.
  - exists m, post. auto.
Qed.

Lemma match_match_site content j n :
  (j <= length content)%nat ->
  Re.match_here version_line_re (prev_at None content j) (drop j content) = Some n ->
  exists m post, match_site content (take j content) m post /\ n = length m.
Proof.
  intros Hj H. destruct (take_drop_site content j Hj) as [Hc Hl].
  apply version_line_match_iff in H as (Hbol & m & post & Hd & Hm & Hpost & ->).
  exists m, post. split; [| reflexivity].
  split; [| split; [| split; assumption]].
  - now rewrite <- Hd, take_drop.
  - apply (at_bol_line_start (take j content) (drop j content)).
    now rewrite take_drop, Hl.
Qed.

Lemma search_none_no_site content :
  Re.search version_line_re None content = None ->
  forall pre m post, ~ match_site content pre m post.
Proof.
  intros Hs pre m post Hsite.
  pose proof (match_site_match _ _ _ _ Hsite) as Hm.
  rewrite (search_none _ _ _ Hs) in Hm; [discriminate |].
  destruct Hsite as (-> & _). list_len.
Qed.

Lemma expand_version_line new_version :
  ~ In "\"%char new_version ->
  Re.expand_template (toml_version_line new_version)
  = Ok (toml_version_line new_version).
Proof.
  intros H. unfold Re.expand_template.
  assert (E : existsb (Ascii.eqb "\") (toml_version_line new_version) = false).
  { unfold toml_version_line. rewrite !existsb_app.
    replace (existsb (Ascii.eqb "\") new_version) with false; [reflexivity |].
    symmetry. destruct (existsb (Ascii.eqb "\") new_version) eqn:E; [| reflexivity].
    apply existsb_exists in E as (c & Hc & Hb).
    apply Ascii.eqb_eq in Hb as <-. contradiction. }
  now rewrite E.
Qed.

(** C4, as the code has it.  With a new version free of backslashes, the
    TOML writer replaces the first version assignment that starts and ends a
    line -- the word version, optional white space, an equals sign, optional
    white space, any non-empty quoted text without double quotes, whether or
    not it is the old version -- by the assignment of the new version, and
    leaves the text around it as it is; when the content has no such
    assignment the content is unchanged. *)
Theorem toml_rewrite_first_assignment (content new_version : str) :
  ~ In "\"%char new_version ->
  (forall pre m post,
     match_site content pre m post ->
     (forall pre' m' post',
        match_site content pre' m' post' -> (length pre <= length pre')%nat) ->
     toml_rewrite content new_version
     = Ok (pre ++ toml_version_line new_version ++ post))
  /\ ((forall pre m post, ~ match_site content pre m post) ->
      toml_rewrite content new_version = Ok content).
Proof.
  intros Hnew. unfold toml_rewrite, Re.sub1.
  rewrite (expand_version_line new_version Hnew). simpl rbind. split.
  - intros pre m post Hsite Hmin.
    rewrite (search_first _ _ _ (length pre) (length m)).
    + destruct Hsite as (-> & _).
      rewrite take_app_length, app_assoc, <- length_app, drop_app_length.
      reflexivity.
    + destruct Hsite as (-> & _). list_len.
    + now apply (match_site_match content pre m post).
    + intros j Hj.
      destruct (Re.match_here version_line_re (prev_at None content j)
                  (drop j content)) as [n |] eqn:E; [| reflexivity].
      assert (Hjc : (j <= length content)%nat).
      { destruct Hsite as (-> & _). rewrite length_app. lia. }
      destruct (match_match_site content j n Hjc E) as (m' & post' & Hsite' & _).
      apply Hmin in Hsite'. rewrite length_take in Hsite'. lia.
  - intros Hnone.
    destruct (Re.search version_line_re None content) as [[i n] |] eqn:E;
      [| reflexivity].
    apply search_some in E as (Hi & Hm & _).
    destruct (match_match_site content i n Hi Hm) as (m & post & Hsite & _).
    now apply Hnone in Hsite.
Qed.

Lemma toml_rewrite_first_assignment_witness :
  toml_rewrite
    ("version=" ++ [dquote] ++ "0.9.0-rc1" ++ [dquote] ++ [newline] ++ "name = x")
    "1.2.4"
  = Ok (toml_version_line "1.2.4" ++ [newline] ++ "name = x")
  /\ toml_rewrite "name = x" "1.2.4" = Ok (lit "name = x").
Proof.
  split.
  - apply (proj1 (toml_rewrite_first_assignment
                    ("version=" ++ [dquote] ++ "0.9.0-rc1" ++ [dquote]
                     ++ [newline] ++ "name = x") "1.2.4"
                    ltac:(vm_compute; intuition discriminate))
             [] ("version=" ++ [dquote] ++ "0.9.0-rc1" ++ [dquote])
             ([newline] ++ "name = x")).
    + split; [reflexivity |]. split; [now left |]. split.
      * exists [], [], (lit "0.9.0-rc1").
        split; [reflexivity |]. split; [reflexivity |]. split; [reflexivity |].
        split; [discriminate | vm_compute; intuition discriminate].
      * right. now exists (lit "name = x").
    + intros pre' m' post' _. simpl. lia.
  - apply (proj2 (toml_rewrite_first_assignment "name = x" "1.2.4"
                    ltac:(vm_compute; intuition discriminate))).
    apply search_none_no_site. reflexivity.
Defined.

(** C4, as the claim words it, fails: the writer does not look for the old
    version.  In a manifest whose first version assignment is a
    dependency's, the code rewrites the dependency's line, while the line
    with the old version 1.2.3 is the package's. *)
Lemma toml_rewrite_not_exact :
  toml_rewrite cargo_dependency_first "1.2.4"
  = Ok ("[dependencies.serde]" ++ [newline]
        ++ "version = " ++ [dquote] ++ "1.2.4" ++ [dquote] ++ [newline]
        ++ "[package]" ++ [newline]
        ++ "name = " ++ [dquote] ++ "rag-rs" ++ [dquote] ++ [newline]
        ++ "version = " ++ [dquote] ++ "1.2.3" ++ [dquote] ++ [newline])
  /\ toml_rewrite_exact "1.2.3" "1.2.4" cargo_dependency_first
     = "[dependencies.serde]" ++ [newline]
       ++ "version = " ++ [dquote] ++ "1.0" ++ [dquote] ++ [newline]
       ++ "[package]" ++ [newline]
       ++ "name = " ++ [dquote] ++ "rag-rs" ++ [dquote] ++ [newline]
       ++ "version = " ++ [dquote] ++ "1.2.4" ++ [dquote] ++ [newline]
  /\ toml_rewrite cargo_dependency_first "1.2.4"
     <> Ok (toml_rewrite_exact "1.2.3" "1.2.4" cargo_dependency_first).
Proof.
  split; [reflexivity |]. split; [reflexivity |].
  vm_compute. discriminate.
Qed.

(** ** [str.startswith] and [str.replace] *)

Lemma startswith_app p t : Py.startswith p (p ++ t) = true.
Proof. induction p as [| c p IH]; simpl; [reflexivity |]. now rewrite Ascii.eqb_refl. Qed.

Lemma startswith_long p : forall x z,
  (length p <= length x)%nat -> Py.startswith p (x ++ z) = Py.startswith p x.
Proof.
  induction p as [| c p IH]; intros x z H; [reflexivity |].
  destruct x as [| d x]; simpl in H; [lia |].
  simpl. f_equal. apply IH. lia.
Qed.

(** An occurrence that runs past [x] covers the character after [x]. *)
Lemma startswith_covers p : forall x c z,
  Py.startswith p (x ++ c :: z) = true -> (length x < length p)%nat -> In c p.
Proof.
  induction p as [| a p IH]; intros x c z H Hl; simpl in Hl; [lia |].
  destruct x as [| d x]; simpl in H.
  - apply andb_true_iff in H as [Hc _]. apply Ascii.eqb_eq in Hc. now left.
  - apply andb_true_iff in H as [_ Hp]. right.
    apply (IH x c z Hp). simpl in Hl. lia.
Qed.

Lemma startswith_head c p d s :
  Ascii.eqb c d = false -> Py.startswith (c :: p) (d :: s) = false.
Proof. intros H. simpl. now rewrite H. Qed.

Lemma replace_from_skip old new : forall s k,
  Py.replace_from old new k s = Py.replace_from old new O (drop k s).
Proof.
  induction s as [| c s IH]; intros k.
  - now destruct k.
  - destruct k as [| k]; [reflexivity |]. simpl. apply IH.
Qed.

Lemma replace_from_hit old new t :
  old <> [] ->
  Py.replace_from old new O (old ++ t) = new ++ Py.replace_from old new O t.
Proof.
  intros Hold. destruct old as [| c old]; [congruence |].
  change ((c :: old) ++ t) with (c :: old ++ t).
  cbn [Py.replace_from].
  change (c :: old ++ t) with ((c :: old) ++ t). rewrite startswith_app.
  f_equal. simpl. rewrite replace_from_skip, drop_app_length. reflexivity.
Qed.

Lemma replace_from_prefix old new : forall a t,
  (forall j, (j < length a)%nat -> Py.startswith old (drop j (a ++ t)) = false) ->
  Py.replace_from old new O (a ++ t) = a ++ Py.replace_from old new O t.
Proof.
  induction a as [| c a IH]; intros t H; [reflexivity |].
  change ((c :: a) ++ t) with (c :: a ++ t). cbn [Py.replace_from].
  assert (H0 : Py.startswith old (c :: a ++ t) = false)
    by (apply (H O); simpl; lia).
  rewrite H0. simpl. f_equal. apply IH.
  intros j Hj. apply (H (S j)). simpl. lia.
Qed.

Lemma replace_from_none old new s :
  (forall j, (j < length s)%nat -> Py.startswith old (drop j s) = false) ->
  Py.replace_from old new O s = s.
Proof.
  intros H. rewrite <- (app_nil_r s) at 1.
  rewrite replace_from_prefix; [now rewrite app_nil_r |].
  intros j Hj. rewrite app_nil_r. now apply H.
Qed.

Lemma replace_nonempty old new s :
  old <> [] -> Py.replace old new s = Py.replace_from old new O s.
Proof. destruct old; [congruence | reflexivity]. Qed.

(** One occurrence, at the end of [x]: it is replaced and nothing else. *)
Lemma replace_at old new x y :
  old <> [] ->
  (forall j, (j < length x)%nat ->
     Py.startswith old (drop j (x ++ old ++ y)) = false) ->
  (forall j, (j < length y)%nat -> Py.startswith old (drop j y) = false) ->
  Py.replace old new (x ++ old ++ y) = x ++ new ++ y.
Proof.
  intros Hold Hx Hy. rewrite replace_nonempty by exact Hold.
  rewrite replace_from_prefix by exact Hx.
  rewrite replace_from_hit by exact Hold.
  now rewrite replace_from_none by exact Hy.
Qed.

(** ** Occurrences *)

Lemma occurrences_from_iff p : forall s k i,
  In i (occurrences_from p k s)
  <-> (k <= i <= k + length s)%nat /\ Py.startswith p (drop (i - k) s) = true.
Proof.
  induction s as [| c s IH]; intros k i; cbn [occurrences_from].
  - rewrite app_nil_r, drop_nil. simpl length.
    destruct (Py.startswith p []) eqn:E; simpl; split.
    + intros [<- | []]. split; [lia | reflexivity].
    + intros [H _]. left. lia.
    + intros [].
    + intros [_ H]. discriminate.
  - rewrite in_app_iff, IH. simpl length. split.
    + intros [H | [H1 H2]].
      * destruct (Py.startswith p (c :: s)) eqn:E; [| destruct H].
        destruct H as [<- | []]. rewrite Nat.sub_diag. split; [lia | exact E].
      * split; [lia |].
        replace (i - k)%nat with (S (i - S k)) by lia. exact H2.
    + intros [H1 H2]. destruct (Nat.eq_dec i k) as [-> | Hne].
      * left. rewrite Nat.sub_diag in H2. simpl in H2. rewrite H2. now left.
      * right. split; [lia |].
        replace (i - k)%nat with (S (i - S k)) in H2 by lia. exact H2.
Qed.

Lemma occurrences_iff p s i :
  In i (occurrences p s)
  <-> (i <= length s)%nat /\ Py.startswith p (drop i s) = true.
Proof.
  unfold occurrences. rewrite occurrences_from_iff, Nat.sub_0_r.
  split; intros [H1 H2]; (split; [lia | exact H2]).
Qed.

(** ** The installer-script writer *)

Lemma version_text_char s c :
  version_text s = true -> In c s ->
  Py.is_decimal_digit c || Ascii.eqb c "." = true.
Proof.
  unfold version_text. rewrite forallb_forall. intros H Hc. now apply H.
Qed.

Lemma log_line_nonempty v : log_line v <> [].
Proof. discriminate. Qed.

Lemma install_line_nonempty v : install_line v <> [].
Proof. discriminate. Qed.

Lemma install_line_no_I old :
  version_text old = true -> ~ In "I"%char (install_line old).
Proof.
  intros Hold H. unfold install_line in H. apply in_app_iff in H as [H | H].
  - vm_compute in H. intuition discriminate.
  - apply (version_text_char old _ Hold) in H. discriminate.
Qed.

(** No install line starts inside a log line. *)
Lemma install_not_in_log old new : forall k v,
  version_text new = true -> (k < length (log_line new))%nat ->
  Py.startswith (install_line old) (drop k (log_line new) ++ v) = false.
Proof.
  intros k v Hnew Hk. unfold log_line, install_line in *.
  do 32 (destruct k as [| k]; [reflexivity |]).
  change (drop _ (lit "Installing and compiling rag-rs " ++ new))
    with (drop k new).
  rewrite length_app in Hk. simpl in Hk.
  destruct (drop k new) as [| d t] eqn:E.
  - apply (f_equal length) in E. rewrite length_drop in E. simpl in E. lia.
  - assert (Hd : In d new).
    { rewrite <- (take_drop k new). apply in_or_app. right.
      rewrite E. now left. }
    apply (version_text_char new d Hnew) in Hd.
    change (lit "cargo install rag-rs --vers " ++ old)
      with ("c"%char :: (lit "argo install rag-rs --vers " ++ old)).
    simpl app. apply startswith_head.
    destruct (Ascii.eqb_spec "c" d) as [<- | _]; [discriminate | reflexivity].
Qed.

(** An occurrence of the old install line in a text with a new log line
    lies before the log line or after it. *)
Lemma install_clear_of_log old new u v j :
  version_text old = true -> version_text new = true ->
  Py.startswith (install_line old) (drop j (u ++ log_line new ++ v)) = true ->
  (j + length (install_line old) <= length u)%nat
  \/ (length u + length (log_line new) <= j)%nat.
Proof.
  intros Hold Hnew H.
  destruct (Nat.le_gt_cases (j + length (install_line old)) (length u)) as [Hle | Hgt];
    [now left |].
  destruct (Nat.le_gt_cases (length u + length (log_line new)) j) as [Hle' | Hgt'];
    [now right |].
  exfalso. destruct (Nat.le_gt_cases (length u) j) as [Hj | Hj].
  - rewrite drop_app_ge in H by exact Hj.
    rewrite drop_app_le in H by lia.
    rewrite install_not_in_log in H by (assumption || lia). discriminate.
  - rewrite drop_app_le in H by lia.
    change (log_line new ++ v)
      with ("I"%char :: (lit "nstalling and compiling rag-rs " ++ new) ++ v) in H.
    apply startswith_covers in H.
    + now apply install_line_no_I in H.
    + rewrite length_drop. lia.
Qed.

Lemma startswith_before p x z z' j :
  (j + length p <= length x)%nat ->
  Py.startswith p (drop j (x ++ z)) = Py.startswith p (drop j (x ++ z')).
Proof.
  intros H. rewrite !drop_app_le by lia.
  rewrite !startswith_long by (rewrite length_drop; lia). reflexivity.
Qed.

Lemma drop_after (x q q' y : str) j :
  (length x + length q' <= j)%nat ->
  drop j (x ++ q' ++ y) = drop (j - length q' + length q) (x ++ q ++ y).
Proof.
  intros H. repeat rewrite drop_app_ge by lia. f_equal. lia.
Qed.


Lemma occurrence_in p s j :
  p <> [] -> Py.startswith p (drop j s) = true -> In j (occurrences p s).
Proof.
  intros Hp H. apply occurrences_iff. split; [| exact H].
  destruct (Nat.le_gt_cases j (length s)) as [Hj | Hj]; [exact Hj |].
  rewrite drop_ge in H by lia. destruct p; [congruence | discriminate].
Qed.

Lemma occurrence_unique p s n j :
  p <> [] -> occurrences p s = [n] ->
  Py.startswith p (drop j s) = true -> j = n.
Proof.
  intros Hp Ho H. apply (occurrence_in p s j Hp) in H.
  rewrite Ho in H. destruct H as [<- | []]. reflexivity.
Qed.


Lemma log_line_length v : length (log_line v) = (32 + length v)%nat.
Proof. unfold log_line. now rewrite length_app. Qed.

Lemma install_line_length v : length (install_line v) = (28 + length v)%nat.
Proof. unfold install_line. now rewrite length_app. Qed.

Ltac line_len :=
  repeat first [rewrite length_app | rewrite log_line_length
               | rewrite install_line_length];
  repeat match goal with
    | H : context [length (_ ++ _)] |- _ => rewrite length_app in H
    | H : context [length (log_line _)] |- _ => rewrite log_line_length in H
    | H : context [length (install_line _)] |- _ =>
        rewrite install_line_length in H
    end;
  lia.

(** The log line first, the install line after it. *)
Lemma installer_rewrite_log_install old new a b c :
  version_text old = true -> version_text new = true ->
  let script := a ++ log_line old ++ b ++ install_line old ++ c in
  occurrences (log_line old) script = [length a] ->
  occurrences (install_line old) script = [length (a ++ log_line old ++ b)] ->
  installer_rewrite old new script
  = a ++ log_line new ++ b ++ install_line new ++ c.
Proof.
  intros Hold Hnew script Hlog Hins. unfold installer_rewrite.
  pose proof (log_line_nonempty old) as HLO.
  pose proof (install_line_nonempty old) as HIO.
  assert (E1 : Py.replace (log_line old) (log_line new) script
               = a ++ log_line new ++ b ++ install_line old ++ c).
  { apply replace_at; [exact HLO | |].
    - intros j Hj. destruct (Py.startswith _ _) eqn:E; [| reflexivity].
      apply (occurrence_unique _ _ _ _ HLO Hlog) in E. lia.
    - intros j Hj. destruct (Py.startswith _ _) eqn:E; [| reflexivity].
      rewrite <- (drop_app_add (log_line old)), <- (drop_app_add a) in E.
      apply (occurrence_unique _ _ _ _ HLO Hlog) in E. line_len. }
  rewrite E1.
  replace (a ++ log_line new ++ b ++ install_line old ++ c)
    with ((a ++ log_line new ++ b) ++ install_line old ++ c)
    by (now rewrite <- !app_assoc).
  rewrite replace_at; [now rewrite <- !app_assoc | exact HIO | |].
  - intros j Hj. destruct (Py.startswith _ _) eqn:E; [| reflexivity].
    exfalso. rewrite <- !app_assoc in E.
    destruct (install_clear_of_log old new a _ j Hold Hnew E) as [H | H].
    + rewrite (startswith_before _ a _ (log_line old ++ b ++ install_line old ++ c))
        in E by exact H.
      apply (occurrence_unique _ _ _ _ HIO Hins) in E. line_len.
    + rewrite (drop_after a (log_line old) (log_line new)) in E by exact H.
      apply (occurrence_unique _ _ _ _ HIO Hins) in E. line_len.
  - intros j Hj. destruct (Py.startswith _ _) eqn:E; [| reflexivity].
    exfalso.
    rewrite <- (drop_app_add (install_line old)),
      <- (drop_app_add (a ++ log_line old ++ b)), <- !app_assoc in E.
    apply (occurrence_unique _ _ _ _ HIO Hins) in E. line_len.
Qed.

(** The install line first, the log line after it. *)
Lemma installer_rewrite_install_log old new a b c :
  version_text old = true -> version_text new = true ->
  let script := a ++ install_line old ++ b ++ log_line old ++ c in
  occurrences (install_line old) script = [length a] ->
  occurrences (log_line old) script = [length (a ++ install_line old ++ b)] ->
  installer_rewrite old new script
  = a ++ install_line new ++ b ++ log_line new ++ c.
Proof.
  intros Hold Hnew script Hins Hlog. unfold installer_rewrite.
  pose proof (log_line_nonempty old) as HLO.
  pose proof (install_line_nonempty old) as HIO.
  assert (E1 : Py.replace (log_line old) (log_line new) script
               = a ++ install_line old ++ b ++ log_line new ++ c).
  { unfold script.
    replace (a ++ install_line old ++ b ++ log_line old ++ c)
      with ((a ++ install_line old ++ b) ++ log_line old ++ c)
      by (now rewrite <- !app_assoc).
    rewrite replace_at; [now rewrite <- !app_assoc | exact HLO | |].
    - intros j Hj. destruct (Py.startswith _ _) eqn:E; [| reflexivity].
      rewrite <- !app_assoc in E.
      apply (occurrence_unique _ _ _ _ HLO Hlog) in E. lia.
    - intros j Hj. destruct (Py.startswith _ _) eqn:E; [| reflexivity].
      rewrite <- (drop_app_add (log_line old)),
        <- (drop_app_add (a ++ install_line old ++ b)), <- !app_assoc in E.
      apply (occurrence_unique _ _ _ _ HLO Hlog) in E. line_len. }
  rewrite E1.
  assert (Hclear : forall j,
    Py.startswith (install_line old)
      (drop j (a ++ install_line old ++ b ++ log_line new ++ c)) = true ->
    j = length a).
  { intros j E.
    replace (a ++ install_line old ++ b ++ log_line new ++ c)
      with ((a ++ install_line old ++ b) ++ log_line new ++ c) in E
      by (now rewrite <- !app_assoc).
    destruct (install_clear_of_log old new _ _ j Hold Hnew E) as [H | H].
    - rewrite (startswith_before _ _ _ (log_line old ++ c)) in E by exact H.
      rewrite <- !app_assoc in E.
      now apply (occurrence_unique _ _ _ _ HIO Hins) in E.
    - rewrite (drop_after _ (log_line old) (log_line new)) in E by exact H.
      rewrite <- !app_assoc in E.
      apply (occurrence_unique _ _ _ _ HIO Hins) in E. line_len. }
  apply replace_at; [exact HIO | |].
  - intros j Hj. destruct (Py.startswith _ _) eqn:E; [| reflexivity].
    apply Hclear in E. lia.
  - intros j Hj. destruct (Py.startswith _ _) eqn:E; [| reflexivity].
    rewrite <- (drop_app_add (install_line old)), <- (drop_app_add a) in E.
    apply Hclear in E. line_len.
Qed.





(** ** The state-and-exception monad *)

Lemma io_bind_ok {A B : Type} (m : io A) (k : A -> io B) w a w' :
  m w = (Ok a, w') -> io_bind m k w = k a w'.
Proof. intros H. unfold io_bind. now rewrite H. Qed.

Lemma compare_semver_eq v1 v2 : compare_semver v1 v2 = true <-> v1 = v2.
Proof.
  unfold compare_semver. rewrite !andb_true_iff, !Z.eqb_eq.
  destruct v1, v2; simpl. split.
  - intros [[-> ->] ->]. reflexivity.
  - intros [= -> -> ->]. auto.
Qed.

(** ** Normalising the operator's input *)

Lemma to_lower_space c : Py.is_space c = true -> Py.to_lower c = c.
Proof. ascii_cases c; vm_compute; congruence. Qed.

Lemma lower_app a b : Py.lower (a ++ b) = Py.lower a ++ Py.lower b.
Proof. apply map_app. Qed.

Lemma lower_spaces ws : forallb Py.is_space ws = true -> Py.lower ws = ws.
Proof.
  induction ws as [| c ws IH]; [reflexivity |]. simpl.
  intros H. apply andb_true_iff in H as [Hc Hws].
  now rewrite (to_lower_space c Hc), (IH Hws).
Qed.

Lemma lstrip_spaces ws s :
  forallb Py.is_space ws = true -> Py.lstrip (ws ++ s) = Py.lstrip s.
Proof.
  induction ws as [| c ws IH]; [reflexivity |]. simpl.
  intros H. apply andb_true_iff in H as [Hc Hws]. rewrite Hc. now apply IH.
Qed.

Lemma lstrip_core c s : Py.is_space c = false -> Py.lstrip (c :: s) = c :: s.
Proof. intros H. simpl. now rewrite H. Qed.

Lemma forallb_rev {A : Type} (f : A -> bool) (l : list A) :
  forallb f l = true -> forallb f (rev l) = true.
Proof.
  rewrite !forallb_forall. intros H x Hx. apply H. now apply in_rev.
Qed.

(** Stripping removes the white space around a text that neither starts nor
    ends with white space. *)
Lemma strip_core ws1 k ws2 c t d u :
  forallb Py.is_space ws1 = true -> forallb Py.is_space ws2 = true ->
  k = c :: t -> Py.is_space c = false ->
  rev k = d :: u -> Py.is_space d = false ->
  Py.strip (ws1 ++ k ++ ws2) = k.
Proof.
  intros H1 H2 Hk Hc Hr Hd. unfold Py.strip, Py.rstrip.
  rewrite (lstrip_spaces ws1 _ H1). rewrite Hk at 1. simpl app.
  rewrite (lstrip_core c _ Hc).
  change (c :: t ++ ws2) with ((c :: t) ++ ws2). rewrite <- Hk.
  rewrite rev_app_distr, (lstrip_spaces (rev ws2) _ (forallb_rev _ _ H2)).
  rewrite Hr, (lstrip_core d _ Hd), <- Hr. apply rev_involutive.
Qed.

Lemma bump_types_cases (kind : str) :
  kind ∈ bump_types -> kind = "major" \/ kind = "minor" \/ kind = "patch".
Proof.
  intros H. apply list_elem_of_In in H. simpl in H.
  destruct H as [<- | [<- | [<- | []]]]; auto.
Qed.

Lemma normalize_bump ws1 core ws2 kind :
  kind ∈ bump_types ->
  forallb Py.is_space ws1 = true -> forallb Py.is_space ws2 = true ->
  Py.lower core = kind ->
  Py.strip (Py.lower (ws1 ++ core ++ ws2)) = kind.
Proof.
  intros Hk H1 H2 Hcore.
  rewrite !lower_app, (lower_spaces ws1 H1), (lower_spaces ws2 H2), Hcore.
  destruct (bump_types_cases kind Hk) as [-> | [-> | ->]];
    eapply strip_core; try eassumption; reflexivity.
Qed.

(** ** What [bump_semver] can return *)

Lemma str_of_int_chars n t c :
  Py.str_of_int n = Ok t -> In c t ->
  Py.is_decimal_digit c = true \/ c = "-"%char.
Proof.
  unfold Py.str_of_int. destruct (_ <? _)%nat; [discriminate |].
  intros [= <-]. destruct (Z.ltb_spec n 0) as [Hn | Hn]; intros H.
  - destruct H as [<- | H]; [now right |]. left.
    assert (Hd : decimal_segment (Py.digits (- n)) = true)
      by (apply digits_decimal; lia).
    destruct (Py.digits (- n)); [destruct H |]. unfold decimal_segment in Hd.
    rewrite forallb_forall in Hd. now apply Hd.
  - left. assert (Hd : decimal_segment (Py.digits n) = true)
      by (apply digits_decimal; lia).
    destruct (Py.digits n); [destruct H |]. unfold decimal_segment in Hd.
    rewrite forallb_forall in Hd. now apply Hd.
Qed.

Lemma str_of_int_no_backslash n t :
  Py.str_of_int n = Ok t -> ~ In "\"%char t.
Proof.
  intros H Hin. destruct (str_of_int_chars n t _ H Hin) as [D | D]; discriminate.
Qed.

Lemma str_of_int_raises n e : Py.str_of_int n = Raise e -> e = ValueError.
Proof.
  unfold Py.str_of_int. destruct (_ <? _)%nat; [now intros [= <-] | discriminate].
Qed.

Lemma semver_to_str_no_backslash v t :
  semver_to_str v = Ok t -> ~ In "\"%char t.
Proof.
  unfold semver_to_str.
  destruct (Py.str_of_int (major v)) as [x |] eqn:Ex; [| discriminate].
  destruct (Py.str_of_int (minor v)) as [y |] eqn:Ey; [| discriminate].
  destruct (Py.str_of_int (patch v)) as [z |] eqn:Ez; [| discriminate].
  cbn [rbind]. intros [= <-] H.
  apply in_app_iff in H as [H | [H | H]];
    [exact (str_of_int_no_backslash _ _ Ex H) | discriminate H |].
  apply in_app_iff in H as [H | [H | H]];
    [exact (str_of_int_no_backslash _ _ Ey H) | discriminate H |].
  exact (str_of_int_no_backslash _ _ Ez H).
Qed.

Lemma semver_to_str_raises v e : semver_to_str v = Raise e -> e = ValueError.
Proof.
  unfold semver_to_str.
  destruct (Py.str_of_int (major v)) as [x |] eqn:Ex;
    [| cbn [rbind]; intros [= <-]; now apply str_of_int_raises in Ex].
  destruct (Py.str_of_int (minor v)) as [y |] eqn:Ey;
    [| cbn [rbind]; intros [= <-]; now apply str_of_int_raises in Ey].
  destruct (Py.str_of_int (patch v)) as [z |] eqn:Ez;
    [| cbn [rbind]; intros [= <-]; now apply str_of_int_raises in Ez].
  discriminate.
Qed.

Lemma bump_semver_no_backslash v kind t :
  bump_semver v kind = Ok t -> ~ In "\"%char t.
Proof. rewrite bump_semver_cases. apply semver_to_str_no_backslash. Qed.

(** [bump_semver] fails in one way only: with the value error of an integer
    too long to write. *)
Lemma bump_semver_raises v kind e : bump_semver v kind = Raise e -> e = ValueError.
Proof. rewrite bump_semver_cases. apply semver_to_str_raises. Qed.

Lemma toml_rewrite_total content new_version :
  ~ In "\"%char new_version ->
  exists text, toml_rewrite content new_version = Ok text.
Proof.
  intros H. unfold toml_rewrite, Re.sub1.
  rewrite (expand_version_line new_version H). simpl.
  destruct (Re.search _ _ _) as [[i n] |]; eauto.
Qed.

(** ** The version texts the driver hands to the installer-script writer *)

Lemma decimal_value_nonneg s :
  forallb Py.is_decimal_digit s = true -> 0 <= decimal_value s.
Proof. intros H. now apply decimal_value_bound. Qed.

(** A version string the parser accepts is made of decimal digits and dots
    and denotes non-negative components. *)
Lemma parse_semver_version_text s v :
  parse_semver s = Ok v ->
  version_text s = true /\ 0 <= major v /\ 0 <= minor v /\ 0 <= patch v.
Proof.
  intros H. apply parse_semver_ok_inv in H
    as (a & b & c & Hsplit & Ha & Hb & Hc & ->).
  apply readable_segment_decimal, decimal_segment_all in Ha, Hb, Hc. split.
  - unfold version_text. apply forallb_forall. intros ch Hch.
    destruct (Ascii.eqb ch ".") eqn:Hdot; [apply orb_true_r |].
    destruct (split_covers "." s ch Hch Hdot) as (seg & Hseg & Hin).
    rewrite Hsplit in Hseg. rewrite orb_false_r.
    rewrite forallb_forall in Ha, Hb, Hc.
    destruct Hseg as [<- | [<- | [<- | []]]]; auto.
  - simpl. repeat split; now apply decimal_value_nonneg.
Qed.

(** The components of a parsed version are ones [str] writes. *)
Lemma parse_semver_within_limit s v :
  parse_semver s = Ok v ->
  within_limit (major v) /\ within_limit (minor v) /\ within_limit (patch v).
Proof.
  intros H. apply parse_semver_ok_inv in H
    as (a & b & c & Hsplit & Ha & Hb & Hc & ->).
  simpl. repeat split; now apply readable_value_limit.
Qed.

Lemma dotted_version_text x y z :
  0 <= x -> 0 <= y -> 0 <= z -> version_text (dotted x y z) = true.
Proof.
  intros Hx Hy Hz. unfold version_text, dotted.
  assert (Hd : forall n, 0 <= n ->
            forallb (fun c => Py.is_decimal_digit c || Ascii.eqb c ".")
              (Py.digits n) = true).
  { intros n Hn. apply forallb_forall. intros ch Hch.
    pose proof (decimal_segment_all _ (digits_decimal n Hn)) as Hall.
    rewrite forallb_forall in Hall. now rewrite (Hall ch Hch). }
  rewrite !forallb_app, !Hd by assumption. reflexivity.
Qed.

(** For non-negative components the bumped version is such a text too. *)
Lemma bump_semver_version_text v kind t :
  0 <= major v -> 0 <= minor v -> 0 <= patch v ->
  bump_semver v kind = Ok t -> version_text t = true.
Proof.
  intros H1 H2 H3. rewrite bump_semver_cases. intros H.
  apply semver_to_str_ok_inv in H as (-> & _);
    repeat (destruct (bool_decide _)); cbn [major minor patch]; try lia;
    apply dotted_version_text; lia.
Qed.

Section DriverProofs.

Variable toml_loads : str -> result py_value.
Variable json_loads : str -> result py_value.
Variable json_dumps : py_value -> str.

(** C5. For every decoded JSON manifest and every new version string, the
    JSON writer succeeds and leaves a structure whose version field is the
    new version and in which every other key has the value it had, present
    or absent; the file receives the serialisation of that structure and no
    other file changes. *)
Theorem new_version_to_json_frame (data : gmap str py_value)
  (new_version : str) (w : world) :
  exists data' w',
    new_version_to_json json_dumps data new_version w = (Ok data', w')
    /\ data' !! ("version" : str) = Some (PyStr new_version)
    /\ (forall key : str, key <> "version" -> data' !! key = data !! key)
    /\ fs w' !! ("package.json" : str) = Some (json_dumps (PyDict data'))
    /\ (forall path : str, path <> "package.json" -> fs w' !! path = fs w !! path).
Proof.
  eexists _, _. split; [reflexivity |]. simpl. repeat split.
  - apply lookup_insert_eq.
  - intros key Hkey. now apply lookup_insert_ne.
  - apply lookup_insert_eq.
  - intros path Hpath. now apply lookup_insert_ne.
Qed.

Lemma load_version_from_toml_world w v content w1 :
  load_version_from_toml toml_loads w = (Ok (v, content), w1) ->
  w1 = log (EvRead "Cargo.toml") (log (EvRead "Cargo.toml") w).
Proof.
  unfold load_version_from_toml, io_bind, read_file, io_lift, io_ret, io_raise.
  destruct (fs w !! lit "Cargo.toml") as [raw |] eqn:E; [| discriminate].
  destruct (toml_loads raw) as [data |]; [| discriminate].
  simpl fs. rewrite E.
  destruct data; try discriminate.
  destruct (entries !! lit "package") as [[] |]; try discriminate.
  destruct (entries0 !! lit "version") as [[] |]; try discriminate.
  now intros [= _ _ <-].
Qed.

Lemma load_version_from_json_world w v data w1 :
  load_version_from_json json_loads w = (Ok (v, data), w1) ->
  w1 = log (EvRead "package.json") w.
Proof.
  unfold load_version_from_json, io_bind, read_file, io_lift, io_ret, io_raise.
  destruct (fs w !! lit "package.json") as [raw |] eqn:E; [| discriminate].
  destruct (json_loads raw) as [d |]; [| discriminate].
  destruct d; try discriminate.
  destruct (entries !! lit "version") as [[] |]; try discriminate.
  now intros [= _ _ <-].
Qed.

(** C6. When the two manifests' version strings parse to unequal versions,
    the driver ends with an assertion error, having only read the
    manifests: no prompt was issued, no file was written, and the exit
    status is not 0. *)
Theorem main_version_mismatch (stdin : list str) (w w1 w2 : world)
  (v_rust toml_content v_js : str) (json_data : gmap str py_value)
  (semv_rust semv_js : Version) :
  load_version_from_toml toml_loads w = (Ok (v_rust, toml_content), w1) ->
  load_version_from_json json_loads w1 = (Ok (v_js, json_data), w2) ->
  parse_semver v_rust = Ok semv_rust ->
  parse_semver v_js = Ok semv_js ->
  semv_rust <> semv_js ->
  main toml_loads json_loads json_dumps stdin w = (Raise AssertionError, w2)
  /\ fs w2 = fs w
  /\ trace w2
     = trace w ++ [EvRead "Cargo.toml"; EvRead "Cargo.toml"; EvRead "package.json"]
  /\ exit_status (Raise AssertionError) <> 0.
Proof.
  intros Ht Hj Hr Hs Hne.
  assert (Hc : compare_semver semv_rust semv_js = false).
  { destruct (compare_semver semv_rust semv_js) eqn:E; [| reflexivity].
    now apply compare_semver_eq in E. }
  split; [| split; [| split]].
  - unfold main. rewrite (io_bind_ok _ _ _ _ _ Ht).
    rewrite (io_bind_ok _ _ _ _ _ Hj).
    unfold io_bind, io_lift. now rewrite Hr, Hs, Hc.
  - apply load_version_from_toml_world in Ht as ->.
    now apply load_version_from_json_world in Hj as ->.
  - apply load_version_from_toml_world in Ht as ->.
    apply load_version_from_json_world in Hj as ->.
    simpl. now rewrite <- !app_assoc.
  - discriminate.
Qed.

(** One turn of the loop on a rejected line: the prompt, the guidance
    message, and the loop again. *)
Lemma prompt_loop_reject semv data toml v_rust line rest w :
  rejected line ->
  prompt_loop json_dumps semv data toml v_rust (line :: rest) w
  = prompt_loop json_dumps semv data toml v_rust rest
      (log (EvPrint bump_guidance) (log (EvInput bump_prompt) w)).
Proof.
  intros H. cbn [prompt_loop].
  rewrite (bool_decide_eq_false_2 _ H). reflexivity.
Qed.

(** One turn of the loop on an accepted line: the bump, then the three
    writers, in the order of the source. *)
Lemma prompt_loop_accept semv data toml v_rust line rest w :
  Py.strip (Py.lower line) ∈ bump_types ->
  prompt_loop json_dumps semv data toml v_rust (line :: rest) w
  = (new_ver <- io_lift (bump_semver semv (Py.strip (Py.lower line))) ;;
     _ <- new_version_to_json json_dumps data new_ver ;;
     _ <- new_version_to_toml toml new_ver ;;
     new_version_to_pre_install_js v_rust new_ver)%io
      (log (EvInput bump_prompt) w).
Proof.
  intros H. cbn [prompt_loop].
  rewrite (bool_decide_eq_true_2 _ H). reflexivity.
Qed.

(** The run of the loop on an accepted line whose bump returns, by whether
    the installer script exists. *)
Lemma prompt_loop_accept_run semv data toml v_rust line rest w new_ver toml_text :
  Py.strip (Py.lower line) ∈ bump_types ->
  bump_semver semv (Py.strip (Py.lower line)) = Ok new_ver ->
  toml_rewrite toml new_ver = Ok toml_text ->
  let json_text :=
    json_dumps (PyDict (<[("version" : str) := PyStr new_ver]> data)) in
  let fs2 :=
    <[("Cargo.toml" : str) := toml_text]>
      (<[("package.json" : str) := json_text]> (fs w)) in
  prompt_loop json_dumps semv data toml v_rust (line :: rest) w
  = match fs w !! ("pre-install.js" : str) with
    | Some script =>
        (Ok tt,
         mkWorld
           (<[("pre-install.js" : str) :=
                installer_rewrite v_rust new_ver script]> fs2)
           (trace w
            ++ [EvInput bump_prompt; EvWrite "package.json" json_text;
                EvWrite "Cargo.toml" toml_text; EvRead "pre-install.js";
                EvWrite "pre-install.js"
                  (installer_rewrite v_rust new_ver script)]))
    | None =>
        (Raise FileNotFoundError,
         mkWorld fs2
           (trace w
            ++ [EvInput bump_prompt; EvWrite "package.json" json_text;
                EvWrite "Cargo.toml" toml_text]))
    end.
Proof.
  intros Hline Hbump Htoml json_text fs2.
  rewrite prompt_loop_accept by exact Hline. rewrite Hbump.
  unfold new_version_to_json, new_version_to_toml,
    new_version_to_pre_install_js, io_bind, io_lift, write_file, read_file,
    io_ret, log.
  rewrite Htoml. simpl fs.
  rewrite !lookup_insert_ne by (vm_compute; discriminate).
  fold json_text. fold fs2.
  destruct (fs w !! lit "pre-install.js") as [script |]; simpl trace;
    rewrite <- !app_assoc; reflexivity.
Qed.

(** The run of the loop on an accepted line whose bump raises: the loop ends
    there, before any writer is called. *)
Lemma prompt_loop_accept_raise semv data toml v_rust line rest w e :
  Py.strip (Py.lower line) ∈ bump_types ->
  bump_semver semv (Py.strip (Py.lower line)) = Raise e ->
  prompt_loop json_dumps semv data toml v_rust (line :: rest) w
  = (Raise e, mkWorld (fs w) (trace w ++ [EvInput bump_prompt])).
Proof.
  intros Hline Hbump.
  rewrite prompt_loop_accept by exact Hline. rewrite Hbump. reflexivity.
Qed.

Lemma prompt_loop_rejects semv data toml v_rust bad : forall rest w,
  Forall rejected bad ->
  exists w',
    prompt_loop json_dumps semv data toml v_rust (bad ++ rest) w
    = prompt_loop json_dumps semv data toml v_rust rest w'
    /\ fs w' = fs w
    /\ trace w' = trace w ++ retry_events (length bad).
Proof.
  induction bad as [| line bad IH]; intros rest w Hbad.
  - exists w. simpl. now rewrite app_nil_r.
  - inversion Hbad as [| ? ? Hline Hbad']; subst.
    destruct (IH rest (log (EvPrint bump_guidance) (log (EvInput bump_prompt) w)) Hbad')
      as (w' & Hloop & Hfs & Htr).
    exists w'. split; [| split].
    + change ((line :: bad) ++ rest) with (line :: bad ++ rest).
      now rewrite prompt_loop_reject.
    + exact Hfs.
    + rewrite Htr. simpl. now rewrite <- !app_assoc.
Qed.

(** [main] once both manifests are read and agree. *)
Lemma main_loaded stdin w w1 w2 v_rust toml_content v_js json_data semv :
  load_version_from_toml toml_loads w = (Ok (v_rust, toml_content), w1) ->
  load_version_from_json json_loads w1 = (Ok (v_js, json_data), w2) ->
  parse_semver v_rust = Ok semv ->
  parse_semver v_js = Ok semv ->
  main toml_loads json_loads json_dumps stdin w
  = (_ <- prompt_loop json_dumps semv json_data toml_content v_rust stdin ;;
     sys_exit 0)%io w2.
Proof.
  intros Ht Hj Hr Hs. unfold main.
  rewrite (io_bind_ok _ _ _ _ _ Ht), (io_bind_ok _ _ _ _ _ Hj).
  unfold io_bind at 1, io_lift at 1. rewrite Hr.
  unfold io_bind at 1, io_lift at 1. rewrite Hs.
  unfold io_bind at 1, io_lift at 1.
  now rewrite (proj2 (compare_semver_eq semv semv) eq_refl).
Qed.

Lemma loaded_world w w1 w2 v_rust toml_content v_js json_data :
  load_version_from_toml toml_loads w = (Ok (v_rust, toml_content), w1) ->
  load_version_from_json json_loads w1 = (Ok (v_js, json_data), w2) ->
  fs w2 = fs w
  /\ trace w2
     = trace w ++ [EvRead "Cargo.toml"; EvRead "Cargo.toml"; EvRead "package.json"].
Proof.
  intros Ht Hj.
  apply load_version_from_toml_world in Ht as ->.
  apply load_version_from_json_world in Hj as ->.
  split; [reflexivity |]. simpl. now rewrite <- !app_assoc.
Qed.

(** A whole run in which the bump raises: the driver stops at the accepted
    line with the error of the bump, and no file has changed. *)
Lemma main_bump_raises bad rest line w w1 w2 v_rust toml_content v_js
  json_data semv e :
  load_version_from_toml toml_loads w = (Ok (v_rust, toml_content), w1) ->
  load_version_from_json json_loads w1 = (Ok (v_js, json_data), w2) ->
  parse_semver v_rust = Ok semv ->
  parse_semver v_js = Ok semv ->
  Forall rejected bad ->
  Py.strip (Py.lower line) ∈ bump_types ->
  bump_semver semv (Py.strip (Py.lower line)) = Raise e ->
  main toml_loads json_loads json_dumps (bad ++ line :: rest) w
  = (Raise e,
     mkWorld (fs w)
       (trace w
        ++ [EvRead "Cargo.toml"; EvRead "Cargo.toml"; EvRead "package.json"]
        ++ retry_events (length bad) ++ [EvInput bump_prompt])).
Proof.
  intros Ht Hj Hr Hs Hbad Hline Hbump.
  rewrite (main_loaded _ w w1 w2 _ _ _ _ _ Ht Hj Hr Hs).
  destruct (loaded_world _ _ _ _ _ _ _ Ht Hj) as [Hfs Htr].
  destruct (prompt_loop_rejects semv json_data toml_content v_rust
              bad (line :: rest) w2 Hbad) as (w3 & Hloop & Hfs3 & Htr3).
  unfold io_bind. rewrite Hloop.
  rewrite (prompt_loop_accept_raise semv json_data toml_content v_rust line rest
             w3 e Hline Hbump).
  rewrite Hfs3, Hfs, Htr3, Htr. now rewrite <- !app_assoc.
Qed.

(** C7. The driver lowercases and trims the operator's line: a line that is
    major, minor or patch in any casing, with white space around it, is
    treated as that word, and it is accepted: the driver prompts once,
    prints no guidance, bumps by that word and calls the three writers,
    leaving the rest of the input unread.  A line that does not normalise
    to one of the three makes the driver print the guidance message and
    prompt again; and however many such lines come first, no file has
    changed when the next line is read, the only I/O being prompts and
    guidance messages. *)
Theorem prompt_loop_normalizes (semv : Version) (data : gmap str py_value)
  (toml v_rust : str) :
  (forall ws1 core ws2 kind rest w,
     kind ∈ bump_types ->
     forallb Py.is_space ws1 = true -> forallb Py.is_space ws2 = true ->
     Py.lower core = kind ->
     Py.strip (Py.lower (ws1 ++ core ++ ws2)) = kind
     /\ prompt_loop json_dumps semv data toml v_rust
          ((ws1 ++ core ++ ws2) :: rest) w
        = prompt_loop json_dumps semv data toml v_rust (kind :: rest) w)
  /\ (forall ws1 core ws2 kind rest w new_ver script,
        kind ∈ bump_types ->
        forallb Py.is_space ws1 = true -> forallb Py.is_space ws2 = true ->
        Py.lower core = kind ->
        bump_semver semv kind = Ok new_ver ->
        fs w !! ("pre-install.js" : str) = Some script ->
        exists toml_text,
          toml_rewrite toml new_ver = Ok toml_text
          /\ prompt_loop json_dumps semv data toml v_rust
               ((ws1 ++ core ++ ws2) :: rest) w
             = (Ok tt,
                mkWorld
                  (<[("pre-install.js" : str) :=
                       installer_rewrite v_rust new_ver script]>
                     (<[("Cargo.toml" : str) := toml_text]>
                        (<[("package.json" : str) :=
                             json_dumps
                               (PyDict (<[("version" : str) := PyStr new_ver]> data))]>
                           (fs w))))
                  (trace w
                   ++ [EvInput bump_prompt;
                       EvWrite "package.json"
                         (json_dumps
                            (PyDict (<[("version" : str) := PyStr new_ver]> data)));
                       EvWrite "Cargo.toml" toml_text;
                       EvRead "pre-install.js";
                       EvWrite "pre-install.js"
                         (installer_rewrite v_rust new_ver script)])))
  /\ (forall line rest w,
        rejected line ->
        prompt_loop json_dumps semv data toml v_rust (line :: rest) w
        = prompt_loop json_dumps semv data toml v_rust rest
            (log (EvPrint bump_guidance) (log (EvInput bump_prompt) w)))
  /\ (forall bad rest w,
        Forall rejected bad ->
        exists w',
          prompt_loop json_dumps semv data toml v_rust (bad ++ rest) w
          = prompt_loop json_dumps semv data toml v_rust rest w'
          /\ fs w' = fs w
          /\ trace w' = trace w ++ retry_events (length bad)).
Proof.
  split; [| split; [| split]].
  - intros ws1 core ws2 kind rest w Hk H1 H2 Hcore.
    pose proof (normalize_bump ws1 core ws2 kind Hk H1 H2 Hcore) as Hn.
    split; [exact Hn |].
    assert (Hself : Py.strip (Py.lower kind) = kind).
    { destruct (bump_types_cases kind Hk) as [-> | [-> | ->]]; reflexivity. }
    rewrite !prompt_loop_accept by (rewrite ?Hn, ?Hself; exact Hk).
    now rewrite Hn, Hself.
  - intros ws1 core ws2 kind rest w new_ver script Hk H1 H2 Hcore Hbump Hscript.
    pose proof (normalize_bump ws1 core ws2 kind Hk H1 H2 Hcore) as Hn.
    destruct (toml_rewrite_total toml new_ver
                (bump_semver_no_backslash _ _ _ Hbump)) as (toml_text & Htoml).
    exists toml_text. split; [exact Htoml |].
    rewrite <- Hn in Hk, Hbump.
    rewrite (prompt_loop_accept_run semv data toml v_rust _ rest w new_ver
               toml_text Hk Hbump Htoml).
    now rewrite Hscript.
  - intros line rest w H. now apply prompt_loop_reject.
  - intros bad rest w H. now apply prompt_loop_rejects.
Qed.

(** C9 (amended). Once the manifests are read and agree, on the first
    accepted line whose bump of the version parsed out of the TOML manifest
    returns a new version (its components have at most 4300 digits), the
    driver writes the JSON manifest, then the TOML manifest, then the
    installer script, and ends with exit status 0. *)
Theorem main_applies_bump (bad rest : list str) (line : str)
  (w w1 w2 : world) (v_rust toml_content v_js script new_ver : str)
  (json_data : gmap str py_value) (semv : Version) :
  load_version_from_toml toml_loads w = (Ok (v_rust, toml_content), w1) ->
  load_version_from_json json_loads w1 = (Ok (v_js, json_data), w2) ->
  parse_semver v_rust = Ok semv ->
  parse_semver v_js = Ok semv ->
  Forall rejected bad ->
  Py.strip (Py.lower line) ∈ bump_types ->
  fs w !! ("pre-install.js" : str) = Some script ->
  bump_semver semv (Py.strip (Py.lower line)) = Ok new_ver ->
  let json_text :=
    json_dumps (PyDict (<[("version" : str) := PyStr new_ver]> json_data)) in
  let js_text := installer_rewrite v_rust new_ver script in
  exists toml_text w',
    toml_rewrite toml_content new_ver = Ok toml_text
    /\ main toml_loads json_loads json_dumps (bad ++ line :: rest) w
       = (Raise (SystemExit 0), w')
    /\ exit_status (Raise (SystemExit 0)) = 0
    /\ trace w'
       = trace w2 ++ retry_events (length bad)
         ++ [EvInput bump_prompt;
             EvWrite "package.json" json_text;
             EvWrite "Cargo.toml" toml_text;
             EvRead "pre-install.js";
             EvWrite "pre-install.js" js_text]
    /\ fs w'
       = <[("pre-install.js" : str) := js_text]>
           (<[("Cargo.toml" : str) := toml_text]>
              (<[("package.json" : str) := json_text]> (fs w))).
Proof.
  intros Ht Hj Hr Hs Hbad Hline Hscript Hbump json_text js_text.
  destruct (toml_rewrite_total toml_content new_ver
              (bump_semver_no_backslash _ _ _ Hbump)) as (toml_text & Htoml).
  destruct (prompt_loop_rejects semv json_data toml_content v_rust bad
              (line :: rest) w2 Hbad) as (w3 & Hloop & Hfs3 & Htr3).
  destruct (loaded_world _ _ _ _ _ _ _ Ht Hj) as [Hfs2 _].
  exists toml_text.
  exists (mkWorld
            (<[("pre-install.js" : str) := js_text]>
               (<[("Cargo.toml" : str) := toml_text]>
                  (<[("package.json" : str) := json_text]> (fs w))))
            (trace w3
             ++ [EvInput bump_prompt; EvWrite "package.json" json_text;
                 EvWrite "Cargo.toml" toml_text; EvRead "pre-install.js";
                 EvWrite "pre-install.js" js_text])).
  split; [exact Htoml |]. split; [| split; [reflexivity |]].
  - rewrite (main_loaded _ w w1 w2 _ _ _ _ _ Ht Hj Hr Hs).
    unfold io_bind at 1. rewrite Hloop.
    rewrite (prompt_loop_accept_run semv json_data toml_content v_rust line rest
               w3 new_ver toml_text Hline Hbump Htoml).
    rewrite Hfs3, Hfs2, Hscript. reflexivity.
  - simpl. rewrite Htr3. split; [| reflexivity].
    rewrite <- !app_assoc. reflexivity.
Qed.

End DriverProofs.

(** Evaluating whether a given line is rejected or accepted. *)
Ltac eval_rejected :=
  repeat constructor; intros H; apply list_elem_of_In in H;
  vm_compute in H; intuition discriminate.

Ltac eval_accepted := apply list_elem_of_In; vm_compute; tauto.

(** The claim C9 fails where the bump cannot be written: with version
    0.0.99...9 of 4300 nines in both manifests and the line patch on
    standard input, the driver ends with a value error after the prompt;
    no file is written and the exit status is not 0. *)
Lemma main_bump_limit :
  Py.strip (Py.lower "patch") ∈ bump_types
  /\ main limit_toml_loads limit_json_loads sample_json_dumps [lit "patch"]
       limit_world
     = (Raise ValueError,
        mkWorld (fs limit_world)
          [EvRead "Cargo.toml"; EvRead "Cargo.toml"; EvRead "package.json";
           EvInput bump_prompt])
  /\ exit_status (Raise ValueError) <> 0.
Proof.
  split; [eval_accepted |]. split; [| discriminate].
  apply (main_bump_raises limit_toml_loads limit_json_loads sample_json_dumps
           [] [] "patch" limit_world
           (log (EvRead "Cargo.toml") (log (EvRead "Cargo.toml") limit_world))
           (log (EvRead "package.json")
              (log (EvRead "Cargo.toml") (log (EvRead "Cargo.toml") limit_world)))
           limit_version limit_cargo limit_version (sample_package limit_version)
           (mkVersion 0 0 (str_limit - 1)) ValueError).
  - vm_compute. reflexivity.
  - vm_compute. reflexivity.
  - exact parse_semver_limit_version.
  - exact parse_semver_limit_version.
  - constructor.
  - eval_accepted.
  - exact bump_semver_limit_version.
Qed.

(** ** The theorems on the sample manifests *)

Lemma new_version_to_json_frame_witness :
  exists data' w',
    new_version_to_json sample_json_dumps (sample_package "1.2.3") "1.3.0"
      (sample_world package_json_123) = (Ok data', w')
    /\ data' !! ("version" : str) = Some (PyStr "1.3.0")
    /\ data' !! ("name" : str) = Some (PyStr "rag-rs")
    /\ fs w' !! ("Cargo.toml" : str) = Some cargo_package_first.
Proof.
  destruct (new_version_to_json_frame sample_json_dumps (sample_package "1.2.3")
              "1.3.0" (sample_world package_json_123))
    as (data' & w' & H1 & H2 & H3 & _ & H5).
  exists data', w'. split; [exact H1 |]. split; [exact H2 |]. split.
  - rewrite (H3 "name") by (vm_compute; discriminate). reflexivity.
  - rewrite (H5 "Cargo.toml") by (vm_compute; discriminate). reflexivity.
Defined.

Lemma main_version_mismatch_witness :
  main sample_toml_loads sample_json_loads sample_json_dumps [lit "minor"]
    (sample_world package_json_124)
  = (Raise AssertionError,
     mkWorld (fs (sample_world package_json_124))
       [EvRead "Cargo.toml"; EvRead "Cargo.toml"; EvRead "package.json"])
  /\ parse_semver "1.2.3" = Ok (mkVersion 1 2 3)
  /\ parse_semver "1.2.4" = Ok (mkVersion 1 2 4).
Proof.
  split; [| split; reflexivity].
  apply (main_version_mismatch sample_toml_loads sample_json_loads
           sample_json_dumps [lit "minor"] (sample_world package_json_124)
           (log (EvRead "Cargo.toml")
              (log (EvRead "Cargo.toml") (sample_world package_json_124)))
           (mkWorld (fs (sample_world package_json_124))
              [EvRead "Cargo.toml"; EvRead "Cargo.toml"; EvRead "package.json"])
           "1.2.3" cargo_package_first "1.2.4" (sample_package "1.2.4")
           (mkVersion 1 2 3) (mkVersion 1 2 4)).
  - reflexivity.
  - reflexivity.
  - reflexivity.
  - reflexivity.
  - discriminate.
Defined.

Lemma prompt_loop_normalizes_witness :
  (Py.strip (Py.lower ("  " ++ "MaJoR" ++ [ascii_of_nat 9; " "%char]))
   = lit "major"
   /\ sample_loop [("  " ++ "MaJoR" ++ [ascii_of_nat 9; " "%char])] sample_start
      = sample_loop [lit "major"] sample_start)
  /\ (exists w',
        sample_loop [("  " ++ "MaJoR" ++ [ascii_of_nat 9; " "%char]); lit "x"]
          sample_start
        = (Ok tt, w')
        /\ trace w'
           = [EvInput bump_prompt;
              EvWrite "package.json" "{ name: rag-rs, version: 2.0.0 }";
              EvWrite "Cargo.toml"
                ("[package]" ++ [newline]
                 ++ "name = " ++ [dquote] ++ "rag-rs" ++ [dquote] ++ [newline]
                 ++ "version = " ++ [dquote] ++ "2.0.0" ++ [dquote] ++ [newline]
                 ++ "edition = " ++ [dquote] ++ "2021" ++ [dquote] ++ [newline]);
              EvRead "pre-install.js";
              EvWrite "pre-install.js"
                ("console.log('" ++ log_line "2.0.0" ++ "');" ++ [newline]
                 ++ "execSync('" ++ install_line "2.0.0" ++ "');" ++ [newline])])
  /\ sample_loop [lit "foo"; lit "patch"] sample_start
     = sample_loop [lit "patch"]
         (log (EvPrint bump_guidance) (log (EvInput bump_prompt) sample_start))
  /\ exists w',
       sample_loop ([lit "foo"; lit "bump it"] ++ [lit "patch"]) sample_start
       = sample_loop [lit "patch"] w'
       /\ fs w' = fs sample_start
       /\ trace w' = trace sample_start ++ retry_events 2.
Proof.
  pose proof (prompt_loop_normalizes sample_json_dumps (mkVersion 1 2 3)
                (sample_package "1.2.3") cargo_package_first "1.2.3")
    as (H1 & Hacc & H2 & H3).
  split; [| split; [| split]].
  - apply (H1 "  " "MaJoR" [ascii_of_nat 9; " "%char] "major" [] sample_start).
    + eval_accepted.
    + reflexivity.
    + reflexivity.
    + reflexivity.
  - destruct (Hacc "  " "MaJoR" [ascii_of_nat 9; " "%char] "major" [lit "x"]
                sample_start "2.0.0" pre_install_js)
      as (toml_text & Htoml & Hrun).
    + eval_accepted.
    + reflexivity.
    + reflexivity.
    + reflexivity.
    + reflexivity.
    + reflexivity.
    + eexists. split; [exact Hrun |].
      vm_compute in Htoml. injection Htoml as <-. reflexivity.
  - apply (H2 "foo" [lit "patch"] sample_start).
    intros H. apply list_elem_of_In in H. vm_compute in H.
    intuition discriminate.
  - apply (H3 [lit "foo"; lit "bump it"] [lit "patch"] sample_start).
    eval_rejected.
Defined.

Lemma main_applies_bump_witness :
  exists w',
    main sample_toml_loads sample_json_loads sample_json_dumps
      ([lit "foo"] ++ lit " Minor " :: [lit "x"])
      (sample_world package_json_123)
    = (Raise (SystemExit 0), w')
    /\ trace w'
       = [EvRead "Cargo.toml"; EvRead "Cargo.toml"; EvRead "package.json";
          EvInput bump_prompt; EvPrint bump_guidance; EvInput bump_prompt;
          EvWrite "package.json" "{ name: rag-rs, version: 1.3.0 }";
          EvWrite "Cargo.toml"
            ("[package]" ++ [newline]
             ++ "name = " ++ [dquote] ++ "rag-rs" ++ [dquote] ++ [newline]
             ++ "version = " ++ [dquote] ++ "1.3.0" ++ [dquote] ++ [newline]
             ++ "edition = " ++ [dquote] ++ "2021" ++ [dquote] ++ [newline]);
          EvRead "pre-install.js";
          EvWrite "pre-install.js"
            ("console.log('" ++ log_line "1.3.0" ++ "');" ++ [newline]
             ++ "execSync('" ++ install_line "1.3.0" ++ "');" ++ [newline])].
Proof.
  destruct (main_applies_bump sample_toml_loads sample_json_loads
              sample_json_dumps [lit "foo"] [lit "x"] " Minor "
              (sample_world package_json_123)
              (log (EvRead "Cargo.toml")
                 (log (EvRead "Cargo.toml") (sample_world package_json_123)))
              (mkWorld (fs (sample_world package_json_123))
                 [EvRead "Cargo.toml"; EvRead "Cargo.toml";
                  EvRead "package.json"])
              "1.2.3" cargo_package_first "1.2.3" pre_install_js "1.3.0"
              (sample_package "1.2.3") (mkVersion 1 2 3))
    as (toml_text & w' & H1 & H2 & _ & H4 & _).
  - reflexivity.
  - reflexivity.
  - reflexivity.
  - reflexivity.
  - eval_rejected.
  - eval_accepted.
  - reflexivity.
  - reflexivity.
  - exists w'. split; [exact H2 |].
    vm_compute in H1. injection H1 as <-. rewrite H4. reflexivity.
Defined.

(** * Further properties of the script *)

(** ** Parsing, formatting and bumping *)

Lemma split_three a b c :
  decimal_segment a = true -> decimal_segment b = true ->
  decimal_segment c = true ->
  Py.split "." (a ++ "." ++ b ++ "." ++ c) = [a; b; c].
Proof.
  intros Ha Hb Hc. change (lit ".") with ["."%char]. simpl app.
  rewrite !split_app_sep by now apply decimal_segment_no_dot.
  now rewrite split_no_sep by now apply decimal_segment_no_dot.
Qed.

Lemma zeros_decimal n : forallb Py.is_decimal_digit (zeros n) = true.
Proof. induction n as [| n IH]; [reflexivity | exact IH]. Qed.

Lemma zeros_length n : length (zeros n) = n.
Proof. apply repeat_length. Qed.

Lemma decimal_segment_padded n a :
  decimal_segment a = true -> decimal_segment (zeros n ++ a) = true.
Proof.
  intros Ha. pose proof (decimal_segment_all a Ha) as Hall.
  assert (H : forallb Py.is_decimal_digit (zeros n ++ a) = true)
    by (rewrite forallb_app, zeros_decimal; exact Hall).
  destruct (zeros n ++ a) eqn:E; [| exact H].
  apply app_eq_nil in E as [_ ->]. discriminate.
Qed.

Lemma readable_segment_padded n a :
  decimal_segment a = true -> (n + length a <= Py.max_str_digits)%nat ->
  readable_segment (zeros n ++ a) = true.
Proof.
  intros Ha Hlen. unfold readable_segment.
  rewrite (decimal_segment_padded n a Ha), length_app, zeros_length. simpl.
  now apply Nat.leb_le.
Qed.

Lemma decimal_value_padded n a :
  decimal_value (zeros n ++ a) = decimal_value a.
Proof.
  unfold decimal_value. rewrite fold_left_app. f_equal.
  induction n as [| n IH]; [reflexivity | exact IH].
Qed.

Lemma int_raises_value_error s e : Py.int s = Raise e -> e = ValueError.
Proof.
  unfold Py.int. destruct (Py.skip_int_space s) as [| c t].
  - destruct (Py.int_body 0 false []) as [[n rest] |]; [| now intros [= <-]].
    destruct (Py.skip_int_space rest); [| now intros [= <-]].
    destruct (_ <? _)%nat; [now intros [= <-] | discriminate].
  - destruct (if Ascii.eqb c "-" then _ else _) as [sign s2].
    destruct (Py.int_body 0 false s2) as [[n rest] |]; [| now intros [= <-]].
    destruct (Py.skip_int_space rest); [| now intros [= <-]].
    destruct (_ <? _)%nat; [now intros [= <-] | discriminate].
Qed.

(** On what [isdigit] accepts, [int] either converts a run of at most 4300
    decimal digits or raises a value error. *)
Lemma isdigit_int_cases s :
  Py.isdigit s = true ->
  (readable_segment s = true /\ Py.int s = Ok (decimal_value s))
  \/ (readable_segment s = false /\ Py.int s = Raise ValueError).
Proof.
  intros Hd. destruct (readable_segment s) eqn:Hs.
  - left. split; [reflexivity | now apply int_readable].
  - right. split; [reflexivity |].
    destruct (Py.int s) as [n | e] eqn:Hi.
    + destruct (isdigit_int_decimal s n Hd Hi) as [Hs' _]. congruence.
    + now rewrite (int_raises_value_error s e Hi).
Qed.

(** Three segments [isdigit] accepts, one of which [int] does not convert:
    the parse ends in a value error. *)
Lemma parse_semver_value_error a b c s :
  Py.split "." s = [a; b; c] ->
  Py.isdigit a = true -> Py.isdigit b = true -> Py.isdigit c = true ->
  readable_segment a = false \/ readable_segment b = false
  \/ readable_segment c = false ->
  parse_semver s = Raise ValueError.
Proof.
  intros Hs Da Db Dc H. unfold parse_semver. rewrite Hs. simpl.
  rewrite Da, Db, Dc. simpl.
  destruct (isdigit_int_cases a Da) as [[Sa Ia] | [Sa Ia]];
    destruct (isdigit_int_cases b Db) as [[Sb Ib] | [Sb Ib]];
    destruct (isdigit_int_cases c Dc) as [[Sc Ic] | [Sc Ic]];
    rewrite Ia, ?Ib, ?Ic; cbn [rbind]; try reflexivity.
  destruct H as [H | [H | H]]; congruence.
Qed.

(** X1. Leading zeros are accepted and ignored, and count toward the limit
    of 4300 digits: padding the segments of a dotted triple of digit runs
    with zeros does not change the version it parses to as long as every
    padded segment has at most 4300 characters; once a padded segment is
    longer, the parse raises a value error. *)
Theorem parse_semver_leading_zeros (a b c : str) (i j k : nat) :
  decimal_segment a = true -> decimal_segment b = true ->
  decimal_segment c = true ->
  ((i + length a <= Py.max_str_digits)%nat ->
   (j + length b <= Py.max_str_digits)%nat ->
   (k + length c <= Py.max_str_digits)%nat ->
   parse_semver ((zeros i ++ a) ++ "." ++ (zeros j ++ b) ++ "." ++ (zeros k ++ c))
   = Ok (mkVersion (decimal_value a) (decimal_value b) (decimal_value c))
   /\ parse_semver (a ++ "." ++ b ++ "." ++ c)
      = Ok (mkVersion (decimal_value a) (decimal_value b) (decimal_value c)))
  /\ ((Py.max_str_digits < i + length a)%nat
      \/ (Py.max_str_digits < j + length b)%nat
      \/ (Py.max_str_digits < k + length c)%nat ->
      parse_semver ((zeros i ++ a) ++ "." ++ (zeros j ++ b) ++ "." ++ (zeros k ++ c))
      = Raise ValueError).
Proof.
  intros Ha Hb Hc. split.
  - intros La Lb Lc. split.
    + rewrite (parse_semver_segments (zeros i ++ a) (zeros j ++ b) (zeros k ++ c));
        try (now apply readable_segment_padded).
      * now rewrite !decimal_value_padded.
      * apply split_three; now apply decimal_segment_padded.
    + apply (parse_semver_segments a b c); [| | | now apply split_three].
      * rewrite <- (readable_segment_padded 0 a Ha); [reflexivity | lia].
      * rewrite <- (readable_segment_padded 0 b Hb); [reflexivity | lia].
      * rewrite <- (readable_segment_padded 0 c Hc); [reflexivity | lia].
  - intros Hlong.
    apply (parse_semver_value_error (zeros i ++ a) (zeros j ++ b) (zeros k ++ c)).
    + apply split_three; now apply decimal_segment_padded.
    + now apply decimal_segment_isdigit, decimal_segment_padded.
    + now apply decimal_segment_isdigit, decimal_segment_padded.
    + now apply decimal_segment_isdigit, decimal_segment_padded.
    + unfold readable_segment.
      rewrite !decimal_segment_padded, !length_app, !zeros_length by assumption.
      simpl andb.
      destruct Hlong as [H | [H | H]];
        [left | right; left | right; right]; apply Nat.leb_gt; exact H.
Qed.

Lemma parse_semver_leading_zeros_witness :
  (parse_semver "001.02.0003" = Ok (mkVersion 1 2 3)
   /\ parse_semver "1.2.3" = Ok (mkVersion 1 2 3))
  /\ parse_semver ((zeros 4300 ++ "1") ++ "." ++ (zeros 1 ++ "2") ++ "."
                   ++ (zeros 3 ++ "3"))
     = Raise ValueError.
Proof.
  split.
  - apply (proj1 (parse_semver_leading_zeros "1" "2" "3" 2 1 3
                    eq_refl eq_refl eq_refl)); vm_compute; lia.
  - apply (proj2 (parse_semver_leading_zeros "1" "2" "3" 4300 1 3
                    eq_refl eq_refl eq_refl)).
    left. vm_compute. lia.
Defined.

(** X2. Formatting is a canonical form for what parses: when a string parses
    to a version, its components are not negative, formatting the version
    returns a string, and that string parses to the same version. *)
Theorem semver_to_str_canonical (s : str) (v : Version) :
  parse_semver s = Ok v ->
  nonneg_version v
  /\ exists t, semver_to_str v = Ok t /\ parse_semver t = Ok v.
Proof.
  intros H. destruct (parse_semver_within_limit s v H) as (H1 & H2 & H3).
  split; [unfold nonneg_version, within_limit in *; lia |].
  destruct v as [x y z]. exists (dotted x y z).
  split; [now apply semver_to_str_ok | now apply parse_dotted].
Qed.

Lemma semver_to_str_canonical_witness :
  nonneg_version (mkVersion 1 20 3)
  /\ exists t, semver_to_str (mkVersion 1 20 3) = Ok t
               /\ parse_semver t = Ok (mkVersion 1 20 3).
Proof.
  apply (semver_to_str_canonical "01.020.3" (mkVersion 1 20 3)). reflexivity.
Defined.

(** X3. Distinct versions with non-negative components format to distinct
    strings, wherever formatting returns. *)
Theorem semver_to_str_injective (v1 v2 : Version) (s1 s2 : str) :
  nonneg_version v1 -> nonneg_version v2 ->
  semver_to_str v1 = Ok s1 -> semver_to_str v2 = Ok s2 ->
  v1 <> v2 -> s1 <> s2.
Proof.
  intros (A1 & A2 & A3) (B1 & B2 & B3) E1 E2 Hne H. apply Hne.
  apply semver_to_str_ok_inv in E1 as (-> & L1 & L2 & L3); try assumption.
  apply semver_to_str_ok_inv in E2 as (-> & M1 & M2 & M3); try assumption.
  destruct v1 as [x1 y1 z1], v2 as [x2 y2 z2]. cbn [major minor patch] in *.
  pose proof (parse_dotted x1 y1 z1 L1 L2 L3) as P1.
  pose proof (parse_dotted x2 y2 z2 M1 M2 M3) as P2.
  rewrite H, P2 in P1. now injection P1 as -> -> ->.
Qed.

Lemma semver_to_str_injective_witness :
  semver_to_str (mkVersion 1 2 30) = Ok (lit "1.2.30")
  /\ semver_to_str (mkVersion 1 23 0) = Ok (lit "1.23.0")
  /\ lit "1.2.30" <> lit "1.23.0".
Proof.
  split; [reflexivity |]. split; [reflexivity |].
  apply (semver_to_str_injective (mkVersion 1 2 30) (mkVersion 1 23 0));
    [repeat split; simpl; lia | repeat split; simpl; lia
    | reflexivity | reflexivity | discriminate].
Defined.

(** X4. Whatever the bump kind, when [bump_semver] returns a string for a
    version with non-negative components, the string parses to a version
    that is strictly greater in precedence and has non-negative
    components. *)
Theorem bump_semver_increases (v : Version) (bump_type s : str) :
  nonneg_version v ->
  bump_semver v bump_type = Ok s ->
  exists v',
    parse_semver s = Ok v' /\ version_lt v v' /\ nonneg_version v'.
Proof.
  intros (H1 & H2 & H3). rewrite bump_semver_cases. intros H.
  apply semver_to_str_ok_inv in H as (-> & L1 & L2 & L3);
    [| repeat (destruct (bool_decide _)); cbn [major minor patch]; lia ..].
  eexists. split; [now apply parse_dotted |].
  repeat (destruct (bool_decide _));
    unfold version_lt, nonneg_version; cbn [major minor patch]; lia.
Qed.

Lemma bump_semver_increases_witness :
  exists v',
    parse_semver "1.10.0" = Ok v'
    /\ version_lt (mkVersion 1 9 9) v' /\ nonneg_version v'.
Proof.
  apply (bump_semver_increases (mkVersion 1 9 9) "minor" "1.10.0").
  - repeat split; simpl; lia.
  - reflexivity.
Defined.

(** X5. The ways [parse_semver] fails.  It raises an assertion error exactly
    when the split does not have three segments or [isdigit] rejects one of
    them; it raises a value error exactly when there are three segments
    that [isdigit] accepts and one of them is not a run of at most 4300
    decimal digits; it raises nothing else. *)
Theorem parse_semver_failures (s : str) :
  (parse_semver s = Raise AssertionError
   <-> length (Py.split "." s) <> 3%nat
       \/ forallb Py.isdigit (Py.split "." s) = false)
  /\ (parse_semver s = Raise ValueError
      <-> exists a b c,
            Py.split "." s = [a; b; c]
            /\ forallb Py.isdigit [a; b; c] = true
            /\ forallb readable_segment [a; b; c] = false)
  /\ (forall e, parse_semver s = Raise e -> e = AssertionError \/ e = ValueError).
Proof.
  unfold parse_semver.
  destruct (Py.split "." s) as [| a [| b [| c [| d l]]]] eqn:Hsplit;
    try (split; [| split];
         [ split; [intros _; left; simpl; lia | reflexivity]
         | split; [discriminate | intros (? & ? & ? & [=] & _)]
         | intros e [= <-]; now left ]).
  simpl length. simpl Nat.eqb. simpl py_assert at 1. cbn [rbind].
  destruct (forallb Py.isdigit [a; b; c]) eqn:Hdig.
  - cbn [py_assert rbind]. simpl in Hdig.
    apply andb_true_iff in Hdig as [Da Hdig].
    apply andb_true_iff in Hdig as [Db Hdig].
    apply andb_true_iff in Hdig as [Dc _].
    assert (Hall : forallb Py.isdigit [a; b; c] = true)
      by (simpl; now rewrite Da, Db, Dc).
    destruct (isdigit_int_cases a Da) as [[Sa Ia] | [Sa Ia]];
      destruct (isdigit_int_cases b Db) as [[Sb Ib] | [Sb Ib]];
      destruct (isdigit_int_cases c Dc) as [[Sc Ic] | [Sc Ic]];
      rewrite Ia, ?Ib, ?Ic; cbn [rbind];
      (split; [| split];
       [ split; [discriminate | intros [H | H]; [now contradiction H | discriminate H]]
       | split;
         [ first [discriminate
                 | intros _; exists a, b, c;
                   split; [reflexivity |]; split; [exact Hall |];
                   simpl; rewrite Sa, ?Sb, ?Sc; simpl;
                   rewrite ?andb_false_r; reflexivity ]
         | first [reflexivity
                 | intros (a' & b' & c' & [= <- <- <-] & _ & Hs);
                   simpl in Hs; rewrite Sa, Sb, Sc in Hs; discriminate Hs ] ]
       | intros e He; first [discriminate He | injection He as <-; now right] ]).
  - cbn [py_assert rbind]. split; [| split].
    + split; [intros _; now right | reflexivity].
    + split; [discriminate |].
      intros (a' & b' & c' & [= <- <- <-] & Hd & _). congruence.
    + intros e [= <-]. now left.
Qed.

Lemma parse_semver_failures_witness :
  parse_semver "1.2" = Raise AssertionError
  /\ parse_semver ("1." ++ [ascii_of_nat 179] ++ ".3") = Raise ValueError
  /\ parse_semver ("1.2." ++ nines 4301) = Raise ValueError.
Proof.
  split; [| split].
  - apply (proj2 (proj1 (parse_semver_failures "1.2"))).
    left. vm_compute. lia.
  - apply (proj2 (proj1 (proj2 (parse_semver_failures
                                  ("1." ++ [ascii_of_nat 179] ++ ".3"))))).
    exists (lit "1"), [ascii_of_nat 179], (lit "3").
    split; [reflexivity |]. split; reflexivity.
  - apply (proj2 (proj1 (proj2 (parse_semver_failures ("1.2." ++ nines 4301))))).
    exists (lit "1"), (lit "2"), (nines 4301).
    split; [vm_compute; reflexivity |]. split; vm_compute; reflexivity.
Defined.

(** ** The readers *)

Section ReaderProperties.

Variable toml_loads : str -> result py_value.
Variable json_loads : str -> result py_value.

(** X6. [load_version_from_toml] succeeds exactly when Cargo.toml exists and
    decodes to a table whose package entry is a table with a string under
    version; it then returns that string with the text of the file, after
    reading the file twice. *)
Theorem load_version_from_toml_ok_iff (w w' : world) (version content : str) :
  load_version_from_toml toml_loads w = (Ok (version, content), w')
  <-> fs w !! ("Cargo.toml" : str) = Some content
      /\ (exists data package,
            toml_loads content = Ok (PyDict data)
            /\ data !! ("package" : str) = Some (PyDict package)
            /\ package !! ("version" : str) = Some (PyStr version))
      /\ w' = log (EvRead "Cargo.toml") (log (EvRead "Cargo.toml") w).
Proof.
  unfold load_version_from_toml, io_bind, read_file, io_lift, io_ret, io_raise.
  split.
  - destruct (fs w !! lit "Cargo.toml") as [raw |] eqn:E; [| discriminate].
    destruct (toml_loads raw) as [data |] eqn:El; [| discriminate].
    simpl fs. rewrite E.
    destruct data as [| | | | | | data |]; try discriminate.
    destruct (data !! lit "package") as [[| | | | | | package |] |] eqn:Ep;
      try discriminate.
    destruct (package !! lit "version") as [[| | | | s | | |] |] eqn:Ev;
      try discriminate.
    intros [= <- <- <-]. split; [reflexivity |]. split; [| reflexivity].
    exists data, package. auto.
  - intros (E & (data & package & El & Ep & Ev) & ->).
    rewrite E, El. simpl fs. rewrite E, Ep, Ev. reflexivity.
Qed.

(** X7. The ways [load_version_from_toml] fails: a missing Cargo.toml raises
    a file-not-found error before anything is read; a decoding error is
    passed on after the first read; and a decoded document that is not a
    table with a package table holding a string under version raises an
    assertion error after both reads. *)
Theorem load_version_from_toml_failures (w : world) :
  (fs w !! ("Cargo.toml" : str) = None ->
   load_version_from_toml toml_loads w = (Raise FileNotFoundError, w))
  /\ (forall text e,
        fs w !! ("Cargo.toml" : str) = Some text ->
        toml_loads text = Raise e ->
        load_version_from_toml toml_loads w
        = (Raise e, log (EvRead "Cargo.toml") w))
  /\ (forall text doc,
        fs w !! ("Cargo.toml" : str) = Some text ->
        toml_loads text = Ok doc ->
        (forall data package version,
           doc = PyDict data ->
           data !! ("package" : str) = Some (PyDict package) ->
           package !! ("version" : str) <> Some (PyStr version)) ->
        load_version_from_toml toml_loads w
        = (Raise AssertionError,
           log (EvRead "Cargo.toml") (log (EvRead "Cargo.toml") w))).
Proof.
  unfold load_version_from_toml, io_bind, read_file, io_lift, io_ret, io_raise.
  split; [| split].
  - intros E. now rewrite E.
  - intros text e E El. now rewrite E, El.
  - intros text doc E El Hbad. rewrite E, El. simpl fs. rewrite E.
    destruct doc as [| | | | | | data |]; try reflexivity.
    destruct (data !! lit "package") as [[| | | | | | package |] |] eqn:Ep;
      try reflexivity.
    destruct (package !! lit "version") as [[| | | | s | | |] |] eqn:Ev;
      try reflexivity.
    exfalso. now apply (Hbad data package s).
Qed.

(** X8. [load_version_from_json] succeeds exactly when package.json exists
    and decodes to an object with a string under version; it returns that
    string and the whole object, in which version is that string.  A
    missing file raises a file-not-found error; an object without a string
    under version raises an assertion error. *)
Theorem load_version_from_json_outcomes (w : world) :
  (forall version data w',
     load_version_from_json json_loads w = (Ok (version, data), w')
     <-> (exists text,
            fs w !! ("package.json" : str) = Some text
            /\ json_loads text = Ok (PyDict data))
         /\ data !! ("version" : str) = Some (PyStr version)
         /\ w' = log (EvRead "package.json") w)
  /\ (fs w !! ("package.json" : str) = None ->
      load_version_from_json json_loads w = (Raise FileNotFoundError, w))
  /\ (forall text data,
        fs w !! ("package.json" : str) = Some text ->
        json_loads text = Ok (PyDict data) ->
        (forall version, data !! ("version" : str) <> Some (PyStr version)) ->
        load_version_from_json json_loads w
        = (Raise AssertionError, log (EvRead "package.json") w)).
Proof.
  unfold load_version_from_json, io_bind, read_file, io_lift, io_ret, io_raise.
  split; [| split].
  - intros version data w'. split.
    + destruct (fs w !! lit "package.json") as [raw |] eqn:E; [| discriminate].
      destruct (json_loads raw) as [doc |] eqn:El; [| discriminate].
      destruct doc as [| | | | | | d |]; try discriminate.
      destruct (d !! lit "version") as [[| | | | s | | |] |] eqn:Ev;
        try discriminate.
      intros [= <- <- <-]. split; [eauto |]. split; [exact Ev | reflexivity].
    + intros ((text & E & El) & Ev & ->). now rewrite E, El, Ev.
  - intros E. now rewrite E.
  - intros text data E El Hbad. rewrite E, El.
    destruct (data !! lit "version") as [[| | | | s | | |] |] eqn:Ev;
      try reflexivity.
    exfalso. now apply (Hbad s).
Qed.

End ReaderProperties.

Lemma load_version_from_toml_ok_iff_witness :
  load_version_from_toml sample_toml_loads sample_start
  = (Ok (lit "1.2.3", cargo_package_first),
     log (EvRead "Cargo.toml") (log (EvRead "Cargo.toml") sample_start)).
Proof.
  apply (proj2 (load_version_from_toml_ok_iff sample_toml_loads sample_start
                  _ "1.2.3" cargo_package_first)).
  split; [reflexivity |]. split; [| reflexivity].
  eexists _, _. split; [reflexivity |]. split; reflexivity.
Defined.

Lemma load_version_from_toml_failures_witness :
  load_version_from_toml sample_toml_loads (mkWorld ∅ [])
  = (Raise FileNotFoundError, mkWorld ∅ [])
  /\ load_version_from_toml sample_toml_loads
       (mkWorld {[ ("Cargo.toml" : str) := lit "[package" ]} [])
     = (Raise DecodeError,
        log (EvRead "Cargo.toml")
          (mkWorld {[ ("Cargo.toml" : str) := lit "[package" ]} []))
  /\ load_version_from_toml (fun _ => Ok (PyDict ∅))
       (mkWorld {[ ("Cargo.toml" : str) := lit "" ]} [])
     = (Raise AssertionError,
        log (EvRead "Cargo.toml")
          (log (EvRead "Cargo.toml")
             (mkWorld {[ ("Cargo.toml" : str) := lit "" ]} []))).
Proof.
  split; [| split].
  - apply (proj1 (load_version_from_toml_failures sample_toml_loads
                    (mkWorld ∅ []))). reflexivity.
  - apply (proj1 (proj2 (load_version_from_toml_failures sample_toml_loads
                           (mkWorld {[ ("Cargo.toml" : str) := lit "[package" ]} [])))
             "[package" DecodeError); reflexivity.
  - apply (proj2 (proj2 (load_version_from_toml_failures (fun _ => Ok (PyDict ∅))
                           (mkWorld {[ ("Cargo.toml" : str) := lit "" ]} [])))
             "" (PyDict ∅)); [reflexivity | reflexivity |].
    intros data package version [= <-] H. discriminate H.
Defined.

Lemma load_version_from_json_outcomes_witness :
  load_version_from_json sample_json_loads sample_start
  = (Ok (lit "1.2.3", sample_package "1.2.3"),
     log (EvRead "package.json") sample_start)
  /\ load_version_from_json sample_json_loads (mkWorld ∅ [])
     = (Raise FileNotFoundError, mkWorld ∅ [])
  /\ load_version_from_json (fun _ => Ok (PyDict {[ ("version" : str) := PyInt 3 ]}))
       (mkWorld {[ ("package.json" : str) := lit "{}" ]} [])
     = (Raise AssertionError,
        log (EvRead "package.json")
          (mkWorld {[ ("package.json" : str) := lit "{}" ]} [])).
Proof.
  split; [| split].
  - apply (proj2 (proj1 (load_version_from_json_outcomes sample_json_loads
                           sample_start) "1.2.3" (sample_package "1.2.3") _)).
    split; [exists package_json_123; split; reflexivity |].
    split; reflexivity.
  - apply (proj1 (proj2 (load_version_from_json_outcomes sample_json_loads
                           (mkWorld ∅ [])))). reflexivity.
  - apply (proj2 (proj2 (load_version_from_json_outcomes
                           (fun _ => Ok (PyDict {[ ("version" : str) := PyInt 3 ]}))
                           (mkWorld {[ ("package.json" : str) := lit "{}" ]} [])))
             "{}" {[ ("version" : str) := PyInt 3 ]});
      [reflexivity | reflexivity |].
    intros version H. vm_compute in H. discriminate H.
Defined.

(** ** Computations that write no file *)

Lemma quiet_ret {A : Type} (a : A) : quiet (io_ret a).
Proof.
  intros w. split; [reflexivity |]. exists []. now rewrite app_nil_r.
Qed.

Lemma quiet_raise {A : Type} (e : exception) : quiet (@io_raise A e).
Proof.
  intros w. split; [reflexivity |]. exists []. now rewrite app_nil_r.
Qed.

Lemma quiet_lift {A : Type} (r : result A) : quiet (io_lift r).
Proof.
  intros w. split; [reflexivity |]. exists []. now rewrite app_nil_r.
Qed.

Lemma quiet_bind {A B : Type} (m : io A) (k : A -> io B) :
  quiet m -> (forall a, quiet (k a)) -> quiet (io_bind m k).
Proof.
  intros Hm Hk w. unfold io_bind.
  destruct (Hm w) as (Hfs & evs & Htr & Hev).
  destruct (m w) as [[a | e] w1]; simpl in *.
  - destruct (Hk a w1) as (Hfs' & evs' & Htr' & Hev').
    split; [congruence |]. exists (evs ++ evs').
    rewrite Htr', Htr, <- app_assoc, forallb_app, Hev, Hev'. auto.
  - split; [exact Hfs |]. exists evs. auto.
Qed.

Lemma quiet_read_file path : quiet (read_file path).
Proof.
  intros w. unfold read_file. destruct (fs w !! path); simpl.
  - split; [reflexivity |]. exists [EvRead path]. auto.
  - split; [reflexivity |]. exists []. now rewrite app_nil_r.
Qed.

Lemma quiet_print text : quiet (print text).
Proof.
  intros w. split; [reflexivity |]. exists [EvPrint text]. auto.
Qed.

Section DriverProperties.

Variable toml_loads : str -> result py_value.
Variable json_loads : str -> result py_value.
Variable json_dumps : py_value -> str.

Lemma quiet_load_version_from_toml : quiet (load_version_from_toml toml_loads).
Proof.
  unfold load_version_from_toml.
  apply quiet_bind; [apply quiet_read_file | intros raw].
  apply quiet_bind; [apply quiet_lift | intros data].
  apply quiet_bind; [apply quiet_read_file | intros content].
  destruct data; try apply quiet_raise.
  destruct (entries !! lit "package") as [[] |]; try apply quiet_raise.
  destruct (entries0 !! lit "version") as [[] |];
    try apply quiet_raise. apply quiet_ret.
Qed.

Lemma quiet_load_version_from_json : quiet (load_version_from_json json_loads).
Proof.
  unfold load_version_from_json.
  apply quiet_bind; [apply quiet_read_file | intros raw].
  apply quiet_bind; [apply quiet_lift | intros data].
  destruct data; try apply quiet_raise.
  destruct (entries !! lit "version") as [[] |];
    try apply quiet_raise. apply quiet_ret.
Qed.

(** X9. The two readers never write: whatever the files hold and however
    the decoders answer, after [load_version_from_toml] and after
    [load_version_from_json] the file system is as before and the trace
    has gained no write. *)
Theorem readers_write_nothing :
  quiet (load_version_from_toml toml_loads)
  /\ quiet (load_version_from_json json_loads).
Proof.
  split; [apply quiet_load_version_from_toml | apply quiet_load_version_from_json].
Qed.

Lemma quiet_prompt_loop semv data toml v_rust stdin :
  Forall rejected stdin ->
  quiet (prompt_loop json_dumps semv data toml v_rust stdin).
Proof.
  induction stdin as [| line stdin IH]; intros Hall w.
  - simpl. split; [reflexivity |]. exists [EvInput bump_prompt]. auto.
  - inversion Hall as [| ? ? Hline Hrest]; subst.
    rewrite prompt_loop_reject by exact Hline.
    destruct (IH Hrest (log (EvPrint bump_guidance) (log (EvInput bump_prompt) w)))
      as (Hfs & evs & Htr & Hev).
    split; [exact Hfs |].
    exists ([EvInput bump_prompt; EvPrint bump_guidance] ++ evs).
    split; [| exact Hev].
    rewrite Htr. simpl. now rewrite <- !app_assoc.
Qed.

(** X10. Without an accepted line on standard input the driver writes no
    file: when every line is rejected (or there is none), [main] ends with
    the file system as it found it and a trace without writes, whatever the
    manifests hold. *)
Theorem main_writes_only_on_accepted_input (stdin : list str) :
  Forall rejected stdin ->
  quiet (main toml_loads json_loads json_dumps stdin).
Proof.
  intros Hall. unfold main.
  apply quiet_bind; [apply quiet_load_version_from_toml | intros [v_rust toml]].
  apply quiet_bind; [apply quiet_load_version_from_json | intros [v_js data]].
  apply quiet_bind; [apply quiet_lift | intros semv_rust].
  apply quiet_bind; [apply quiet_lift | intros semv_js].
  apply quiet_bind; [apply quiet_lift | intros _].
  apply quiet_bind; [now apply quiet_prompt_loop | intros _].
  apply quiet_raise.
Qed.

(** X11. End of input.  When the manifests are read and agree and every
    line on standard input is rejected, [main] ends with an end-of-file
    error raised by the prompt that finds no line: each rejected line has
    cost a prompt and a guidance message, and no file has changed. *)
Theorem main_end_of_input (stdin : list str) (w w1 w2 : world)
  (v_rust toml_content v_js : str) (json_data : gmap str py_value)
  (semv : Version) :
  load_version_from_toml toml_loads w = (Ok (v_rust, toml_content), w1) ->
  load_version_from_json json_loads w1 = (Ok (v_js, json_data), w2) ->
  parse_semver v_rust = Ok semv ->
  parse_semver v_js = Ok semv ->
  Forall rejected stdin ->
  main toml_loads json_loads json_dumps stdin w
  = (Raise EOFError,
     mkWorld (fs w)
       (trace w
        ++ [EvRead "Cargo.toml"; EvRead "Cargo.toml"; EvRead "package.json"]
        ++ retry_events (length stdin) ++ [EvInput bump_prompt])).
Proof.
  intros Ht Hj Hr Hs Hall.
  rewrite (main_loaded toml_loads json_loads json_dumps stdin w w1 w2 _ _ _ _ _
             Ht Hj Hr Hs).
  destruct (loaded_world toml_loads json_loads _ _ _ _ _ _ _ Ht Hj) as [Hfs Htr].
  destruct (prompt_loop_rejects json_dumps semv json_data toml_content v_rust
              stdin [] w2 Hall) as (w3 & Hloop & Hfs3 & Htr3).
  rewrite app_nil_r in Hloop. unfold io_bind. rewrite Hloop. simpl.
  unfold log. rewrite Hfs3, Hfs, Htr3, Htr. now rewrite <- !app_assoc.
Qed.

(** X12. No rollback.  When the manifests are read and agree, a line is
    accepted, the bump returns a new version and pre-install.js does not
    exist, [main] ends with a file-not-found error after package.json and
    Cargo.toml have been rewritten with the new version: the two manifests
    are changed and stay so. *)
Theorem main_installer_missing (bad rest : list str) (line : str)
  (w w1 w2 : world) (v_rust toml_content v_js new_ver : str)
  (json_data : gmap str py_value) (semv : Version) :
  load_version_from_toml toml_loads w = (Ok (v_rust, toml_content), w1) ->
  load_version_from_json json_loads w1 = (Ok (v_js, json_data), w2) ->
  parse_semver v_rust = Ok semv ->
  parse_semver v_js = Ok semv ->
  Forall rejected bad ->
  Py.strip (Py.lower line) ∈ bump_types ->
  bump_semver semv (Py.strip (Py.lower line)) = Ok new_ver ->
  fs w !! ("pre-install.js" : str) = None ->
  let json_text :=
    json_dumps (PyDict (<[("version" : str) := PyStr new_ver]> json_data)) in
  exists toml_text,
    toml_rewrite toml_content new_ver = Ok toml_text
    /\ main toml_loads json_loads json_dumps (bad ++ line :: rest) w
       = (Raise FileNotFoundError,
          mkWorld
            (<[("Cargo.toml" : str) := toml_text]>
               (<[("package.json" : str) := json_text]> (fs w)))
            (trace w
             ++ [EvRead "Cargo.toml"; EvRead "Cargo.toml"; EvRead "package.json"]
             ++ retry_events (length bad)
             ++ [EvInput bump_prompt; EvWrite "package.json" json_text;
                 EvWrite "Cargo.toml" toml_text])).
Proof.
  intros Ht Hj Hr Hs Hbad Hline Hbump Hmiss json_text.
  destruct (toml_rewrite_total toml_content new_ver
              (bump_semver_no_backslash _ _ _ Hbump)) as (toml_text & Htoml).
  exists toml_text. split; [exact Htoml |].
  rewrite (main_loaded toml_loads json_loads json_dumps _ w w1 w2 _ _ _ _ _
             Ht Hj Hr Hs).
  destruct (loaded_world toml_loads json_loads _ _ _ _ _ _ _ Ht Hj) as [Hfs Htr].
  destruct (prompt_loop_rejects json_dumps semv json_data toml_content v_rust
              bad (line :: rest) w2 Hbad) as (w3 & Hloop & Hfs3 & Htr3).
  unfold io_bind. rewrite Hloop.
  rewrite (prompt_loop_accept_run json_dumps semv json_data toml_content v_rust
             line rest w3 new_ver toml_text Hline Hbump Htoml).
  rewrite Hfs3, Hfs, Hmiss, Htr3, Htr. fold json_text.
  now rewrite <- !app_assoc.
Qed.

Lemma parse_semver_raises s e :
  parse_semver s = Raise e -> e = AssertionError \/ e = ValueError.
Proof.
  unfold parse_semver.
  destruct (Nat.eqb (length (Py.split "." s)) 3); [| intros [= <-]; now left].
  cbn [py_assert rbind].
  destruct (forallb Py.isdigit (Py.split "." s)); [| intros [= <-]; now left].
  cbn [py_assert rbind].
  destruct (Py.split "." s) as [| a [| b [| c [| d l]]]];
    try (intros [= <-]; now left).
  destruct (Py.int a) as [x | ea] eqn:Ia;
    [| cbn [rbind]; intros [= <-]; right; now apply (int_raises_value_error a)].
  destruct (Py.int b) as [y | eb] eqn:Ib;
    [| cbn [rbind]; intros [= <-]; right; now apply (int_raises_value_error b)].
  destruct (Py.int c) as [z | ec] eqn:Ic;
    [| cbn [rbind]; intros [= <-]; right; now apply (int_raises_value_error c)].
  discriminate.
Qed.

Lemma load_version_from_toml_raises w e w' :
  load_version_from_toml toml_loads w = (Raise e, w') ->
  e = FileNotFoundError \/ e = AssertionError
  \/ exists text, toml_loads text = Raise e.
Proof.
  unfold load_version_from_toml, io_bind, read_file, io_lift, io_ret, io_raise.
  destruct (fs w !! lit "Cargo.toml") as [raw |] eqn:E;
    [| intros [= <- _]; now left].
  destruct (toml_loads raw) as [data |] eqn:El;
    [| intros [= <- _]; right; right; eauto].
  simpl fs. rewrite E.
  destruct data; try (intros [= <- _]; right; now left).
  destruct (entries !! lit "package") as [[] |];
    try (intros [= <- _]; right; now left).
  destruct (entries0 !! lit "version") as [[] |];
    try (intros [= <- _]; right; now left).
Qed.

Lemma load_version_from_json_raises w e w' :
  load_version_from_json json_loads w = (Raise e, w') ->
  e = FileNotFoundError \/ e = AssertionError
  \/ exists text, json_loads text = Raise e.
Proof.
  unfold load_version_from_json, io_bind, read_file, io_lift, io_ret, io_raise.
  destruct (fs w !! lit "package.json") as [raw |] eqn:E;
    [| intros [= <- _]; now left].
  destruct (json_loads raw) as [data |] eqn:El;
    [| intros [= <- _]; right; right; eauto].
  destruct data; try (intros [= <- _]; right; now left).
  destruct (entries !! lit "version") as [[] |];
    try (intros [= <- _]; right; now left).
Qed.

(** How the loop can end: at the end of input, all lines rejected; or on the
    first accepted line, with the value error of a bump that cannot be
    written, or else well if the installer script exists and with a
    file-not-found error if not. *)
Lemma prompt_loop_outcome semv data toml v_rust stdin : forall w r w',
  prompt_loop json_dumps semv data toml v_rust stdin w = (r, w') ->
  (r = Raise EOFError /\ Forall rejected stdin)
  \/ exists bad line rest,
       stdin = bad ++ line :: rest /\ Forall rejected bad
       /\ Py.strip (Py.lower line) ∈ bump_types
       /\ ((r = Raise ValueError
            /\ bump_semver semv (Py.strip (Py.lower line)) = Raise ValueError)
           \/ (exists new_ver,
                 bump_semver semv (Py.strip (Py.lower line)) = Ok new_ver
                 /\ ((r = Ok tt /\ is_Some (fs w !! ("pre-install.js" : str)))
                     \/ (r = Raise FileNotFoundError
                         /\ fs w !! ("pre-install.js" : str) = None)))).
Proof.
  induction stdin as [| line stdin IH]; intros w r w' H.
  - simpl in H. injection H as <- _. left. auto.
  - destruct (decide (Py.strip (Py.lower line) ∈ bump_types)) as [Hacc | Hrej].
    + right. exists [], line, stdin.
      split; [reflexivity |]. split; [constructor |]. split; [exact Hacc |].
      destruct (bump_semver semv (Py.strip (Py.lower line)))
        as [new_ver | e] eqn:Hbump.
      * right. exists new_ver. split; [reflexivity |].
        destruct (toml_rewrite_total toml new_ver
                    (bump_semver_no_backslash _ _ _ Hbump)) as (toml_text & Htoml).
        rewrite (prompt_loop_accept_run json_dumps semv data toml v_rust line
                   stdin w new_ver toml_text Hacc Hbump Htoml) in H.
        destruct (fs w !! lit "pre-install.js") as [script |].
        -- injection H as <- _. left. split; [reflexivity | eauto].
        -- injection H as <- _. right. auto.
      * left. pose proof (bump_semver_raises _ _ _ Hbump) as ->.
        rewrite (prompt_loop_accept_raise json_dumps semv data toml v_rust line
                   stdin w ValueError Hacc Hbump) in H.
        injection H as <- _. auto.
    + rewrite prompt_loop_reject in H by exact Hrej.
      destruct (IH _ _ _ H) as [[-> Hall] | (bad & l & rest & -> & Hbad & Hl & Hend)].
      * left. split; [reflexivity | now constructor].
      * right. exists (line :: bad), l, rest.
        split; [reflexivity |]. split; [now constructor |].
        split; [exact Hl | exact Hend].
Qed.

(** X13. Exit status 0 is earned.  With decoders that do not themselves
    exit the process, [main] ends with a system exit only with status 0 and
    only when both manifests were read, their versions parsed to the same
    version, a line on standard input was accepted after rejected ones
    only, the bump by that line returned a new version, and the installer
    script existed. *)
Theorem main_exit_inv (stdin : list str) (w w' : world) (status : Z) :
  (forall text c, toml_loads text <> Raise (SystemExit c)) ->
  (forall text c, json_loads text <> Raise (SystemExit c)) ->
  main toml_loads json_loads json_dumps stdin w = (Raise (SystemExit status), w') ->
  status = 0
  /\ exists w1 w2 v_rust toml_content v_js json_data semv bad line rest,
       load_version_from_toml toml_loads w = (Ok (v_rust, toml_content), w1)
       /\ load_version_from_json json_loads w1 = (Ok (v_js, json_data), w2)
       /\ parse_semver v_rust = Ok semv /\ parse_semver v_js = Ok semv
       /\ stdin = bad ++ line :: rest /\ Forall rejected bad
       /\ Py.strip (Py.lower line) ∈ bump_types
       /\ is_Some (fs w !! ("pre-install.js" : str))
       /\ exists new_ver,
            bump_semver semv (Py.strip (Py.lower line)) = Ok new_ver.
Proof.
  intros Htl Hjl H. unfold main in H. unfold io_bind at 1 in H.
  destruct (load_version_from_toml toml_loads w) as [[[v_rust toml] | e] w1] eqn:Ht.
  2:{ injection H as -> _.
      apply load_version_from_toml_raises in Ht
        as [Ht | [Ht | [text Ht]]]; try discriminate Ht.
      now apply Htl in Ht. }
  unfold io_bind at 1 in H.
  destruct (load_version_from_json json_loads w1) as [[[v_js data] | e] w2] eqn:Hj.
  2:{ injection H as -> _.
      apply load_version_from_json_raises in Hj
        as [Hj | [Hj | [text Hj]]]; try discriminate Hj.
      now apply Hjl in Hj. }
  unfold io_bind at 1, io_lift at 1 in H.
  destruct (parse_semver v_rust) as [semv |] eqn:Hr.
  2:{ injection H as -> _.
      apply parse_semver_raises in Hr as [Hr | Hr]; discriminate Hr. }
  unfold io_bind at 1, io_lift at 1 in H.
  destruct (parse_semver v_js) as [semv_js |] eqn:Hs.
  2:{ injection H as -> _.
      apply parse_semver_raises in Hs as [Hs | Hs]; discriminate Hs. }
  unfold io_bind at 1, io_lift at 1 in H.
  destruct (compare_semver semv semv_js) eqn:Hc; [| discriminate H].
  apply compare_semver_eq in Hc as <-. simpl py_assert in H.
  unfold io_bind in H.
  destruct (prompt_loop json_dumps semv data toml v_rust stdin w2)
    as [[[] | e] w3] eqn:Hloop.
  - injection H as <- _. split; [reflexivity |].
    destruct (loaded_world toml_loads json_loads _ _ _ _ _ _ _ Ht Hj) as [Hfs _].
    apply prompt_loop_outcome in Hloop
      as [[Hl _]
         | (bad & line & rest & -> & Hbad & Hline
            & [[Hl _] | (new_ver & Hbump & [[_ Hsome] | [Hl _]])])];
      try discriminate.
    rewrite Hfs in Hsome.
    exists w1, w2, v_rust, toml, v_js, data, semv, bad, line, rest.
    repeat split; try assumption. now exists new_ver.
  - injection H as -> _.
    apply prompt_loop_outcome in Hloop
      as [[Hl _]
         | (bad & line & rest & _ & _ & _
            & [[Hl _] | (new_ver & _ & [[Hl _] | [Hl _]])])];
      discriminate.
Qed.

(** X14. The manifest reads back.  When the decoder reads back what the
    serialiser wrote for the updated object, then after a run that ends
    with exit status 0 [load_version_from_json] on the final world returns
    the new version, the one the bump returned, and the updated object. *)
Theorem main_json_reads_back (bad rest : list str) (line : str)
  (w w1 w2 : world) (v_rust toml_content v_js script new_ver : str)
  (json_data : gmap str py_value) (semv : Version) :
  load_version_from_toml toml_loads w = (Ok (v_rust, toml_content), w1) ->
  load_version_from_json json_loads w1 = (Ok (v_js, json_data), w2) ->
  parse_semver v_rust = Ok semv ->
  parse_semver v_js = Ok semv ->
  Forall rejected bad ->
  Py.strip (Py.lower line) ∈ bump_types ->
  bump_semver semv (Py.strip (Py.lower line)) = Ok new_ver ->
  fs w !! ("pre-install.js" : str) = Some script ->
  let updated := <[("version" : str) := PyStr new_ver]> json_data in
  json_loads (json_dumps (PyDict updated)) = Ok (PyDict updated) ->
  exists w',
    main toml_loads json_loads json_dumps (bad ++ line :: rest) w
    = (Raise (SystemExit 0), w')
    /\ load_version_from_json json_loads w'
       = (Ok (new_ver, updated), log (EvRead "package.json") w').
Proof.
  intros Ht Hj Hr Hs Hbad Hline Hbump Hscript updated Hround.
  destruct (toml_rewrite_total toml_content new_ver
              (bump_semver_no_backslash _ _ _ Hbump)) as (toml_text & Htoml).
  rewrite (main_loaded toml_loads json_loads json_dumps _ w w1 w2 _ _ _ _ _
             Ht Hj Hr Hs).
  destruct (loaded_world toml_loads json_loads _ _ _ _ _ _ _ Ht Hj) as [Hfs Htr].
  destruct (prompt_loop_rejects json_dumps semv json_data toml_content v_rust
              bad (line :: rest) w2 Hbad) as (w3 & Hloop & Hfs3 & Htr3).
  unfold io_bind at 1. rewrite Hloop.
  rewrite (prompt_loop_accept_run json_dumps semv json_data toml_content v_rust
             line rest w3 new_ver toml_text Hline Hbump Htoml).
  rewrite Hfs3, Hfs, Hscript. fold updated.
  eexists. split; [reflexivity |].
  unfold load_version_from_json, io_bind, read_file, io_lift, io_ret. simpl fs.
  rewrite !lookup_insert_ne by (vm_compute; discriminate).
  rewrite lookup_insert_eq, Hround.
  unfold updated at 1. now rewrite lookup_insert_eq.
Qed.

End DriverProperties.

Lemma main_writes_only_on_accepted_input_witness :
  quiet (main sample_toml_loads sample_json_loads sample_json_dumps
           [lit "foo"; lit "foo"]).
Proof.
  apply (main_writes_only_on_accepted_input sample_toml_loads sample_json_loads
           sample_json_dumps [lit "foo"; lit "foo"]).
  eval_rejected.
Defined.

Lemma main_end_of_input_witness :
  main sample_toml_loads sample_json_loads sample_json_dumps [lit "foo"]
    sample_start
  = (Raise EOFError,
     mkWorld (fs sample_start)
       [EvRead "Cargo.toml"; EvRead "Cargo.toml"; EvRead "package.json";
        EvInput bump_prompt; EvPrint bump_guidance; EvInput bump_prompt]).
Proof.
  apply (main_end_of_input sample_toml_loads sample_json_loads
           sample_json_dumps [lit "foo"] sample_start
           (log (EvRead "Cargo.toml") (log (EvRead "Cargo.toml") sample_start))
           (log (EvRead "package.json")
              (log (EvRead "Cargo.toml") (log (EvRead "Cargo.toml") sample_start)))
           "1.2.3" cargo_package_first "1.2.3" (sample_package "1.2.3")
           (mkVersion 1 2 3));
    try reflexivity.
  eval_rejected.
Defined.

Lemma main_installer_missing_witness :
  exists toml_text,
    toml_rewrite cargo_package_first "1.3.0" = Ok toml_text
    /\ fst (main sample_toml_loads sample_json_loads sample_json_dumps
              ([lit "foo"] ++ lit " Minor " :: [])
              (mkWorld {[ ("Cargo.toml" : str) := cargo_package_first;
                          ("package.json" : str) := package_json_123 ]} []))
       = Raise FileNotFoundError.
Proof.
  destruct (main_installer_missing sample_toml_loads sample_json_loads
              sample_json_dumps [lit "foo"] [] " Minor "
              (mkWorld {[ ("Cargo.toml" : str) := cargo_package_first;
                          ("package.json" : str) := package_json_123 ]} [])
              (log (EvRead "Cargo.toml")
                 (log (EvRead "Cargo.toml")
                    (mkWorld {[ ("Cargo.toml" : str) := cargo_package_first;
                                ("package.json" : str) := package_json_123 ]} [])))
              (log (EvRead "package.json")
                 (log (EvRead "Cargo.toml")
                    (log (EvRead "Cargo.toml")
                       (mkWorld {[ ("Cargo.toml" : str) := cargo_package_first;
                                   ("package.json" : str) := package_json_123 ]} []))))
              "1.2.3" cargo_package_first "1.2.3" "1.3.0"
              (sample_package "1.2.3") (mkVersion 1 2 3))
    as (toml_text & H1 & H2); try reflexivity.
  - eval_rejected.
  - eval_accepted.
  - exists toml_text. split; [exact H1 |]. now rewrite H2.
Defined.

Lemma main_exit_inv_witness :
  exists bad line rest,
    [lit "foo"; lit " Minor "; lit "x"] = bad ++ line :: rest
    /\ Forall rejected bad /\ Py.strip (Py.lower line) ∈ bump_types.
Proof.
  destruct (main_exit_inv sample_toml_loads sample_json_loads sample_json_dumps
              [lit "foo"; lit " Minor "; lit "x"] sample_start
              (snd (main sample_toml_loads sample_json_loads sample_json_dumps
                      [lit "foo"; lit " Minor "; lit "x"] sample_start))
              0)
    as (_ & w1 & w2 & v_rust & toml & v_js & data & semv & bad & line & rest
        & _ & _ & _ & _ & Hin & Hbad & Hline & _ & _).
  - intros text c. unfold sample_toml_loads.
    destruct (bool_decide _); discriminate.
  - intros text c. unfold sample_json_loads.
    repeat (destruct (bool_decide _)); discriminate.
  - reflexivity.
  - exists bad, line, rest. auto.
Defined.

Lemma main_json_reads_back_witness :
  exists w',
    main sample_toml_loads sample_json_decode sample_json_dumps
      ([lit "foo"] ++ lit " Minor " :: []) sample_start
    = (Raise (SystemExit 0), w')
    /\ load_version_from_json sample_json_decode w'
       = (Ok (lit "1.3.0", sample_package "1.3.0"),
          log (EvRead "package.json") w').
Proof.
  destruct (main_json_reads_back sample_toml_loads sample_json_decode
              sample_json_dumps [lit "foo"] [] " Minor " sample_start
              (log (EvRead "Cargo.toml") (log (EvRead "Cargo.toml") sample_start))
              (log (EvRead "package.json")
                 (log (EvRead "Cargo.toml") (log (EvRead "Cargo.toml") sample_start)))
              "1.2.3" cargo_package_first "1.2.3" pre_install_js "1.3.0"
              (sample_package "1.2.3") (mkVersion 1 2 3))
    as (w' & H1 & H2); try reflexivity.
  - eval_rejected.
  - eval_accepted.
  - exists w'. split; [exact H1 |]. rewrite H2. reflexivity.
Defined.

(** ** The TOML writer on a manifest whose first assignment is the package's *)

Lemma split_app_any sep : forall a b,
  Py.split sep (a ++ sep :: b) = Py.split sep a ++ Py.split sep b.
Proof.
  induction a as [| c a IH]; intros b; simpl.
  - now rewrite Ascii.eqb_refl.
  - rewrite IH. destruct (Ascii.eqb c sep); [reflexivity |].
    pose proof (split_nonempty sep a) as Hne.
    destruct (Py.split sep a); [congruence | reflexivity].
Qed.

(** The first segment of a split is the text up to the first separator. *)
Lemma split_head sep : forall s,
  exists l segs,
    Py.split sep s = l :: segs /\ ~ In sep l
    /\ (s = l \/ exists rest, s = l ++ sep :: rest).
Proof.
  induction s as [| c s (l & segs & Hs & Hl & Hcase)]; simpl.
  - exists [], []. auto.
  - destruct (Ascii.eqb_spec c sep) as [-> | Hne].
    + exists [], (Py.split sep s). split; [reflexivity |]. split; [auto |].
      right. now exists s.
    + rewrite Hs. exists (c :: l), segs. split; [reflexivity |]. split.
      * intros [H | H]; [congruence | contradiction].
      * destruct Hcase as [-> | [rest ->]]; [now left |].
        right. now exists rest.
Qed.

(** A position of the text that starts a line is where one of its lines
    starts. *)
Lemma line_at_start p1 p2 :
  line_start p1 ->
  exists l,
    In l (Py.split newline (p1 ++ p2)) /\ ~ In newline l
    /\ (p2 = l \/ exists rest, p2 = l ++ newline :: rest).
Proof.
  intros Hstart. destruct (split_head newline p2) as (l & segs & Hs & Hl & Hcase).
  exists l. split; [| auto].
  destruct Hstart as [-> | [p ->]].
  - simpl. rewrite Hs. now left.
  - rewrite <- app_assoc. simpl app. rewrite split_app_any, Hs.
    apply in_or_app. right. now left.
Qed.

Lemma version_assignment_starts m post :
  version_assignment m -> Py.startswith "version" (m ++ post) = true.
Proof.
  intros (ws1 & ws2 & val & -> & _). rewrite <- app_assoc.
  apply startswith_app.
Qed.

Lemma toml_version_line_assignment v :
  v <> [] -> ~ In dquote v -> version_assignment (toml_version_line v).
Proof.
  intros Hv Hq. exists (lit " "), (lit " "), v.
  split; [reflexivity |]. auto.
Qed.

(** No version assignment starts in a text none of whose lines starts with
    the word version, when the text ends a line. *)
Lemma no_match_before pre rest j n :
  line_start pre -> no_line_starts_with "version" pre = true ->
  (j < length pre)%nat ->
  Re.match_here version_line_re (prev_at None (pre ++ rest) j)
    (drop j (pre ++ rest)) = Some n ->
  False.
Proof.
  intros Hpre Hno Hj H.
  assert (Hjc : (j <= length (pre ++ rest))%nat) by (rewrite length_app; lia).
  destruct (match_match_site (pre ++ rest) j n Hjc H)
    as (m & post & (Hc & Hstart & Hm & _) & _).
  rewrite take_app_le in Hstart by lia.
  assert (Hsw : Py.startswith "version" (drop j pre ++ rest) = true).
  { rewrite <- drop_app_le by lia.
    rewrite Hc at 1. rewrite take_app_le by lia.
    rewrite drop_app_length'; [| rewrite length_take; lia].
    now apply version_assignment_starts. }
  destruct (line_at_start (take j pre) (drop j pre) Hstart)
    as (l & Hin & Hnl & Hcase).
  rewrite take_drop in Hin.
  unfold no_line_starts_with in Hno. rewrite forallb_forall in Hno.
  specialize (Hno l Hin). apply negb_true_iff in Hno.
  destruct Hcase as [Hl | [tail Hl]].
  - destruct Hpre as [-> | [p Hp]]; [simpl in Hj; lia |].
    apply Hnl. rewrite <- Hl.
    assert (Hlast : drop j pre = drop j p ++ [newline]).
    { rewrite Hp. apply drop_app_le. rewrite Hp, length_app in Hj.
      simpl in Hj. lia. }
    rewrite Hlast. apply in_or_app. right. now left.
  - rewrite Hl, <- app_assoc in Hsw. simpl app in Hsw.
    destruct (Nat.le_gt_cases (length (lit "version")) (length l)) as [Hlen | Hlen].
    + rewrite startswith_long in Hsw by exact Hlen. congruence.
    + apply startswith_covers in Hsw; [| exact Hlen].
      vm_compute in Hsw. intuition discriminate.
Qed.

Lemma toml_rewrite_first_line pre old post new :
  ~ In "\"%char new -> old <> [] -> ~ In dquote old ->
  line_start pre -> line_end post ->
  no_line_starts_with "version" pre = true ->
  toml_rewrite (pre ++ toml_version_line old ++ post) new
  = Ok (pre ++ toml_version_line new ++ post).
Proof.
  intros Hnew Hold Hq Hpre Hpost Hno.
  assert (Hsite : match_site (pre ++ toml_version_line old ++ post) pre
                    (toml_version_line old) post).
  { split; [reflexivity |]. split; [exact Hpre |].
    split; [now apply toml_version_line_assignment | exact Hpost]. }
  unfold toml_rewrite, Re.sub1.
  rewrite (expand_version_line new Hnew). cbn [rbind].
  generalize dependent (toml_version_line old). intros m Hsite.
  rewrite (search_first _ _ _ (length pre) (length m)).
  - rewrite take_app_length, (app_assoc pre m post), <- length_app,
      drop_app_length.
    reflexivity.
  - rewrite length_app. lia.
  - now apply (match_site_match _ pre m post).
  - intros j Hj.
    destruct (Re.match_here _ _ _) as [n |] eqn:E; [| reflexivity].
    exfalso. exact (no_match_before pre _ j n Hpre Hno Hj E).
Qed.

(** X15. In a manifest where no line before the package's version line
    starts with the word version, the TOML writer replaces that line, the
    version assignment of the old version, by the assignment of the new
    version and leaves the rest of the manifest as it is. *)
Theorem toml_rewrite_package_line (pre old_version post new_version : str) :
  ~ In "\"%char new_version ->
  old_version <> [] -> ~ In dquote old_version ->
  line_start pre -> line_end post ->
  no_line_starts_with "version" pre = true ->
  toml_rewrite (pre ++ toml_version_line old_version ++ post) new_version
  = Ok (pre ++ toml_version_line new_version ++ post).
Proof. apply toml_rewrite_first_line. Qed.

Lemma toml_rewrite_package_line_witness :
  toml_rewrite cargo_package_first "1.3.0"
  = Ok ("[package]" ++ [newline]
        ++ "name = " ++ [dquote] ++ "rag-rs" ++ [dquote] ++ [newline]
        ++ "version = " ++ [dquote] ++ "1.3.0" ++ [dquote] ++ [newline]
        ++ "edition = " ++ [dquote] ++ "2021" ++ [dquote] ++ [newline]).
Proof.
  apply (toml_rewrite_package_line
           ("[package]" ++ [newline]
            ++ "name = " ++ [dquote] ++ "rag-rs" ++ [dquote] ++ [newline])
           "1.2.3"
           ([newline] ++ "edition = " ++ [dquote] ++ "2021" ++ [dquote]
            ++ [newline])
           "1.3.0").
  - vm_compute. intuition discriminate.
  - discriminate.
  - vm_compute. intuition discriminate.
  - right.
    exists ("[package]" ++ [newline]
            ++ "name = " ++ [dquote] ++ "rag-rs" ++ [dquote]).
    reflexivity.
  - right. eexists. reflexivity.
  - reflexivity.
Defined.

(** ** The lines the driver accepts *)

Lemma lstrip_decompose s :
  exists ws, s = ws ++ Py.lstrip s /\ forallb Py.is_space ws = true.
Proof.
  induction s as [| c s (ws & Hs & Hws)]; simpl.
  - exists []. auto.
  - destruct (Py.is_space c) eqn:Hc.
    + exists (c :: ws). simpl. rewrite Hc, Hws. split; [congruence | reflexivity].
    + exists []. auto.
Qed.

Lemma strip_decompose s :
  exists ws1 ws2,
    s = ws1 ++ Py.strip s ++ ws2
    /\ forallb Py.is_space ws1 = true /\ forallb Py.is_space ws2 = true.
Proof.
  destruct (lstrip_decompose s) as (ws1 & Hs & H1).
  destruct (lstrip_decompose (rev (Py.lstrip s))) as (ws2 & Hr & H2).
  exists ws1, (rev ws2). split; [| split; [exact H1 | now apply forallb_rev]].
  unfold Py.strip, Py.rstrip. rewrite <- rev_app_distr, <- Hr, rev_involutive.
  exact Hs.
Qed.

Lemma to_lower_space_inv c :
  Py.is_space (Py.to_lower c) = true -> Py.is_space c = true.
Proof. ascii_cases c; vm_compute; congruence. Qed.

Lemma lower_spaces_inv s :
  forallb Py.is_space (Py.lower s) = true -> forallb Py.is_space s = true.
Proof.
  induction s as [| c s IH]; [reflexivity |]. simpl.
  intros H. apply andb_true_iff in H as [Hc Hs].
  now rewrite (to_lower_space_inv c Hc), (IH Hs).
Qed.

(** X16. The driver accepts exactly the lines made of white space, a word
    whose lowercase is major, minor or patch, and white space: white space
    inside the word is not removed, and nothing else is accepted. *)
Theorem accepted_line_iff (line : str) :
  Py.strip (Py.lower line) ∈ bump_types
  <-> exists ws1 core ws2,
        line = ws1 ++ core ++ ws2
        /\ forallb Py.is_space ws1 = true /\ forallb Py.is_space ws2 = true
        /\ Py.lower core ∈ bump_types.
Proof.
  split.
  - intros Hacc.
    destruct (strip_decompose (Py.lower line)) as (x & z & Hl & Hx & Hz).
    unfold Py.lower in Hl.
    apply map_eq_app in Hl as (ws1 & tail & -> & H1 & Ht).
    apply map_eq_app in Ht as (core & ws2 & -> & Hc & H2).
    exists ws1, core, ws2. split; [reflexivity |].
    fold (Py.lower ws1) in H1. fold (Py.lower ws2) in H2.
    fold (Py.lower core) in Hc.
    rewrite <- H1 in Hx. rewrite <- H2 in Hz.
    split; [now apply lower_spaces_inv |].
    split; [now apply lower_spaces_inv |].
    now rewrite Hc.
  - intros (ws1 & core & ws2 & -> & H1 & H2 & Hc).
    now rewrite (normalize_bump ws1 core ws2 (Py.lower core) Hc H1 H2 eq_refl).
Qed.

Lemma accepted_line_iff_witness :
  Py.strip (Py.lower ([ascii_of_nat 9] ++ "PaTcH" ++ "  ")) ∈ bump_types
  /\ exists ws1 core ws2,
       lit " minor" = ws1 ++ core ++ ws2
       /\ forallb Py.is_space ws1 = true /\ forallb Py.is_space ws2 = true
       /\ Py.lower core ∈ bump_types.
Proof.
  split.
  - apply (proj2 (accepted_line_iff ([ascii_of_nat 9] ++ "PaTcH" ++ "  "))).
    exists [ascii_of_nat 9], (lit "PaTcH"), (lit "  ").
    split; [reflexivity |]. split; [reflexivity |]. split; [reflexivity |].
    apply list_elem_of_In. vm_compute. tauto.
  - apply (proj1 (accepted_line_iff " minor")).
    apply list_elem_of_In. vm_compute. tauto.
Defined.

(** ** A whole run *)

Lemma version_text_no_dquote s : version_text s = true -> ~ In dquote s.
Proof.
  intros H Hin. apply (version_text_char s dquote H) in Hin. discriminate.
Qed.

Lemma parse_semver_nonempty s v : parse_semver s = Ok v -> s <> [].
Proof. intros H ->. discriminate. Qed.

Section WholeRun.

Variable toml_loads : str -> result py_value.
Variable json_loads : str -> result py_value.
Variable json_dumps : py_value -> str.

(** X17. A whole run.  Take a Cargo.toml in which no line before the
    version line of the package starts with the word version, a
    package.json with the same version, and an installer script with one
    log line and one install line of that version, in either order.  On the
    first accepted line whose bump returns a new version, [main] exits with
    status 0 and leaves Cargo.toml with the version line of the new
    version, package.json with the serialised object whose version is the
    new version, and the installer script with both lines of the new
    version; everything around them, and every other file, is unchanged. *)
Theorem main_bumps_all_three (bad rest : list str) (line : str)
  (w w1 w2 : world) (v_rust v_js pre post script script' new_ver : str)
  (json_data : gmap str py_value) (semv : Version) :
  load_version_from_toml toml_loads w
  = (Ok (v_rust, pre ++ toml_version_line v_rust ++ post), w1) ->
  load_version_from_json json_loads w1 = (Ok (v_js, json_data), w2) ->
  parse_semver v_rust = Ok semv ->
  parse_semver v_js = Ok semv ->
  line_start pre -> line_end post ->
  no_line_starts_with "version" pre = true ->
  fs w !! ("pre-install.js" : str) = Some script ->
  Forall rejected bad ->
  Py.strip (Py.lower line) ∈ bump_types ->
  bump_semver semv (Py.strip (Py.lower line)) = Ok new_ver ->
  (exists a b c,
     (script = a ++ log_line v_rust ++ b ++ install_line v_rust ++ c
      /\ occurrences (log_line v_rust) script = [length a]
      /\ occurrences (install_line v_rust) script
         = [length (a ++ log_line v_rust ++ b)]
      /\ script' = a ++ log_line new_ver ++ b ++ install_line new_ver ++ c)
     \/ (script = a ++ install_line v_rust ++ b ++ log_line v_rust ++ c
         /\ occurrences (install_line v_rust) script = [length a]
         /\ occurrences (log_line v_rust) script
            = [length (a ++ install_line v_rust ++ b)]
         /\ script' = a ++ install_line new_ver ++ b ++ log_line new_ver ++ c)) ->
  exists w',
    main toml_loads json_loads json_dumps (bad ++ line :: rest) w
    = (Raise (SystemExit 0), w')
    /\ fs w'
       = <[("pre-install.js" : str) := script']>
           (<[("Cargo.toml" : str) := pre ++ toml_version_line new_ver ++ post]>
              (<[("package.json" : str) :=
                   json_dumps
                     (PyDict (<[("version" : str) := PyStr new_ver]> json_data))]>
                 (fs w))).
Proof.
  intros Ht Hj Hr Hs Hpre Hpost Hno Hscript Hbad Hline Hbump Hlines.
  destruct (parse_semver_version_text v_rust semv Hr) as (Hvt & N1 & N2 & N3).
  assert (Hnt : version_text new_ver = true)
    by now apply (bump_semver_version_text semv (Py.strip (Py.lower line))).
  assert (Htoml : toml_rewrite (pre ++ toml_version_line v_rust ++ post) new_ver
                  = Ok (pre ++ toml_version_line new_ver ++ post)).
  { apply toml_rewrite_first_line; try assumption.
    - exact (bump_semver_no_backslash _ _ _ Hbump).
    - now apply (parse_semver_nonempty v_rust semv).
    - now apply version_text_no_dquote. }
  assert (Hjs : installer_rewrite v_rust new_ver script = script').
  { destruct Hlines as (a & b & c & [(E & Hlog & Hins & ->) | (E & Hins & Hlog & ->)]);
      subst script.
    - now apply installer_rewrite_log_install.
    - now apply installer_rewrite_install_log. }
  rewrite (main_loaded toml_loads json_loads json_dumps _ w w1 w2 _ _ _ _ _
             Ht Hj Hr Hs).
  destruct (loaded_world toml_loads json_loads _ _ _ _ _ _ _ Ht Hj) as [Hfs Htr].
  destruct (prompt_loop_rejects json_dumps semv json_data
              (pre ++ toml_version_line v_rust ++ post) v_rust
              bad (line :: rest) w2 Hbad) as (w3 & Hloop & Hfs3 & Htr3).
  unfold io_bind at 1. rewrite Hloop.
  rewrite (prompt_loop_accept_run json_dumps semv json_data _ v_rust line rest
             w3 new_ver _ Hline Hbump Htoml).
  rewrite Hfs3, Hfs, Hscript, Hjs.
  eexists. split; reflexivity.
Qed.

End WholeRun.

Lemma main_bumps_all_three_witness :
  exists w',
    main sample_toml_loads sample_json_loads sample_json_dumps
      ([lit "foo"] ++ lit " Minor " :: []) sample_start
    = (Raise (SystemExit 0), w')
    /\ fs w' !! ("Cargo.toml" : str)
       = Some ("[package]" ++ [newline]
               ++ "name = " ++ [dquote] ++ "rag-rs" ++ [dquote] ++ [newline]
               ++ "version = " ++ [dquote] ++ "1.3.0" ++ [dquote] ++ [newline]
               ++ "edition = " ++ [dquote] ++ "2021" ++ [dquote] ++ [newline])
    /\ fs w' !! ("package.json" : str)
       = Some (lit "{ name: rag-rs, version: 1.3.0 }")
    /\ fs w' !! ("pre-install.js" : str)
       = Some ("console.log('" ++ log_line "1.3.0" ++ "');" ++ [newline]
               ++ "execSync('" ++ install_line "1.3.0" ++ "');" ++ [newline]).
Proof.
  destruct (main_bumps_all_three sample_toml_loads sample_json_loads
              sample_json_dumps [lit "foo"] [] " Minor " sample_start
              (log (EvRead "Cargo.toml") (log (EvRead "Cargo.toml") sample_start))
              (log (EvRead "package.json")
                 (log (EvRead "Cargo.toml") (log (EvRead "Cargo.toml") sample_start)))
              "1.2.3" "1.2.3"
              ("[package]" ++ [newline]
               ++ "name = " ++ [dquote] ++ "rag-rs" ++ [dquote] ++ [newline])
              ([newline] ++ "edition = " ++ [dquote] ++ "2021" ++ [dquote]
               ++ [newline])
              pre_install_js
              ("console.log('" ++ log_line "1.3.0" ++ "');" ++ [newline]
               ++ "execSync('" ++ install_line "1.3.0" ++ "');" ++ [newline])
              "1.3.0"
              (sample_package "1.2.3") (mkVersion 1 2 3))
    as (w' & H1 & H2); try reflexivity.
  - right.
    exists ("[package]" ++ [newline]
            ++ "name = " ++ [dquote] ++ "rag-rs" ++ [dquote]).
    reflexivity.
  - right. eexists. reflexivity.
  - eval_rejected.
  - eval_accepted.
  - exists (lit "console.log('"), ("');" ++ [newline] ++ "execSync('"),
      ("');" ++ [newline]).
    left. repeat split; reflexivity.
  - exists w'. split; [exact H1 |]. rewrite H2.
    split; [reflexivity |]. split; reflexivity.
Defined.

(** ** Where a run stops *)

Section RunOutcomes.

Variable toml_loads : str -> result py_value.
Variable json_loads : str -> result py_value.
Variable json_dumps : py_value -> str.

Lemma prompt_loop_ignores_rest semv data toml v_rust line rest rest' bad :
  forall w,
    Forall rejected bad ->
    Py.strip (Py.lower line) ∈ bump_types ->
    prompt_loop json_dumps semv data toml v_rust (bad ++ line :: rest) w
    = prompt_loop json_dumps semv data toml v_rust (bad ++ line :: rest') w.
Proof.
  induction bad as [| l bad IH]; intros w Hbad Hline.
  - simpl app. now rewrite !prompt_loop_accept by exact Hline.
  - inversion Hbad as [| ? ? Hl Hbad']; subst.
    change ((l :: bad) ++ ?t) with (l :: bad ++ t).
    rewrite !prompt_loop_reject by exact Hl. now apply IH.
Qed.

(** X18. The driver stops reading at the first accepted line: what follows
    it on standard input has no effect on the run. *)
Theorem main_ignores_later_input (bad rest rest' : list str) (line : str)
  (w : world) :
  Forall rejected bad ->
  Py.strip (Py.lower line) ∈ bump_types ->
  main toml_loads json_loads json_dumps (bad ++ line :: rest) w
  = main toml_loads json_loads json_dumps (bad ++ line :: rest') w.
Proof.
  intros Hbad Hline. unfold main. unfold io_bind at 1 7.
  destruct (load_version_from_toml toml_loads w) as [[[v_rust toml] | e] w1];
    [| reflexivity].
  unfold io_bind at 1 6.
  destruct (load_version_from_json json_loads w1) as [[[v_js data] | e] w2];
    [| reflexivity].
  unfold io_bind at 1 5, io_lift at 1 4.
  destruct (parse_semver v_rust) as [semv |]; [| reflexivity].
  unfold io_bind at 1 4, io_lift at 1 3.
  destruct (parse_semver v_js) as [semv_js |]; [| reflexivity].
  unfold io_bind at 1 3, io_lift at 1 2.
  destruct (py_assert (compare_semver semv semv_js)); [| reflexivity].
  unfold io_bind.
  now rewrite (prompt_loop_ignores_rest semv data toml v_rust line rest rest'
                 bad w2 Hbad Hline).
Qed.

(** X20. A bump that cannot be written stops the run before any write.
    When the manifests are read and agree and the first accepted line asks
    to bump a component that is 99...9 of 4300 nines, [main] ends with a
    value error right after the prompt: the bumped number would need 4301
    digits.  No file has changed. *)
Theorem main_stops_on_long_bump (bad rest : list str) (line : str)
  (w w1 w2 : world) (v_rust toml_content v_js : str)
  (json_data : gmap str py_value) (semv : Version) :
  load_version_from_toml toml_loads w = (Ok (v_rust, toml_content), w1) ->
  load_version_from_json json_loads w1 = (Ok (v_js, json_data), w2) ->
  parse_semver v_rust = Ok semv ->
  parse_semver v_js = Ok semv ->
  Forall rejected bad ->
  (Py.strip (Py.lower line) = "major" /\ major semv = str_limit - 1)
  \/ (Py.strip (Py.lower line) = "minor" /\ minor semv = str_limit - 1)
  \/ (Py.strip (Py.lower line) = "patch" /\ patch semv = str_limit - 1) ->
  main toml_loads json_loads json_dumps (bad ++ line :: rest) w
  = (Raise ValueError,
     mkWorld (fs w)
       (trace w
        ++ [EvRead "Cargo.toml"; EvRead "Cargo.toml"; EvRead "package.json"]
        ++ retry_events (length bad) ++ [EvInput bump_prompt])).
Proof.
  intros Ht Hj Hr Hs Hbad Hkind.
  apply (main_bump_raises toml_loads json_loads json_dumps bad rest line
           w w1 w2 v_rust toml_content v_js json_data semv ValueError);
    try assumption.
  - apply list_elem_of_In.
    destruct Hkind as [[-> _] | [[-> _] | [-> _]]]; vm_compute; tauto.
  - destruct Hkind as [[-> E] | [[-> E] | [-> E]]].
    + change (bump_semver semv (lit "major"))
        with (semver_to_str (mkVersion (major semv + 1) 0 0)).
      apply semver_to_str_too_long. cbn [major minor patch]. lia.
    + change (bump_semver semv (lit "minor"))
        with (semver_to_str (mkVersion (major semv) (minor semv + 1) 0)).
      apply semver_to_str_too_long. cbn [major minor patch]. lia.
    + change (bump_semver semv (lit "patch"))
        with (semver_to_str (mkVersion (major semv) (minor semv) (patch semv + 1))).
      apply semver_to_str_too_long. cbn [major minor patch]. lia.
Qed.

End RunOutcomes.

Lemma main_ignores_later_input_witness :
  main sample_toml_loads sample_json_loads sample_json_dumps
    ([lit "foo"] ++ lit " Minor " :: [lit "major"; lit "patch"]) sample_start
  = main sample_toml_loads sample_json_loads sample_json_dumps
      ([lit "foo"] ++ lit " Minor " :: []) sample_start.
Proof.
  apply (main_ignores_later_input sample_toml_loads sample_json_loads
           sample_json_dumps [lit "foo"] [lit "major"; lit "patch"] []
           " Minor " sample_start).
  - eval_rejected.
  - eval_accepted.
Defined.

Lemma main_stops_on_long_bump_witness :
  main limit_toml_loads limit_json_loads sample_json_dumps
    ([lit "foo"] ++ lit " Patch " :: [lit "minor"]) limit_world
  = (Raise ValueError,
     mkWorld (fs limit_world)
       [EvRead "Cargo.toml"; EvRead "Cargo.toml"; EvRead "package.json";
        EvInput bump_prompt; EvPrint bump_guidance; EvInput bump_prompt]).
Proof.
  apply (main_stops_on_long_bump limit_toml_loads limit_json_loads
           sample_json_dumps [lit "foo"] [lit "minor"] " Patch " limit_world
           (log (EvRead "Cargo.toml") (log (EvRead "Cargo.toml") limit_world))
           (log (EvRead "package.json")
              (log (EvRead "Cargo.toml") (log (EvRead "Cargo.toml") limit_world)))
           limit_version limit_cargo limit_version (sample_package limit_version)
           (mkVersion 0 0 (str_limit - 1))).
  - vm_compute. reflexivity.
  - vm_compute. reflexivity.
  - exact parse_semver_limit_version.
  - exact parse_semver_limit_version.
  - eval_rejected.
  - right; right. split; reflexivity.
Defined.
